(** * StateSpaceGridApp: the state store and the controller

    A shallow embedding of [statespacegridapp/model.py] (the dataclasses
    [DataObjectIdentifier], [DataObjectHolder], [AppState]) and of
    [statespacegridapp/controller.py] ([AppControl]), with the properties
    of the state/controller layer proved over it.

    Conventions.
    - A Python [str] is the [string] of its UTF-8 encoding, one [ascii] per
      byte; comparison is lexicographic on the bytes, which on UTF-8 text is
      the code point order Python uses, and a character that is white space
      for Python is recognised by its one, two or three bytes.
    - [Optional[T]] is [option T]; [None] is [None].
    - A method that mutates [self] and may raise is a computation in the
      monad [Py E S]: it maps the object before the call to the outcome of
      the call, the object after it and the calls made to externally
      supplied callbacks (the trace).  An exception leaves the mutations
      made before it in place, as in Python.
    - A callback handed in by the GUI is called by recording the call in
      the trace; callbacks are taken to return.
    - pandas, the trajectory/measure library, the file system and the GUI
      are outside the repository.  The few pandas operations the two
      modules use are modelled on tables of text cells; float parsing, the
      measure computation, the file readers and the opening of a file for
      writing are fields of the class [Externals]. *)

From Stdlib Require Import String Ascii List Bool Arith NArith Lia.
From Stdlib Require Import Permutation Sorted.
Import ListNotations.

Local Open Scope string_scope.
Local Open Scope list_scope.

(** ** Python exceptions and the outcome of a call *)

Inductive PyError : Type :=
| AppError (message : string)      (* controller.AppError *)
| KeyError (key : string)          (* pandas: no such column *)
| ValueError (text : string)       (* astype(float) on unparsable text *)
| TypeError                        (* '<' between None and str *)
| OSError (path : string).         (* a reader could not read the file *)

Inductive PyResult (A : Type) : Type :=
| Returns (a : A)
| Raises (e : PyError).

Arguments Returns {A} a.
Arguments Raises {A} e.

(** ** Python string primitives used by the two modules *)

Module PyStr.

(** The characters [str.strip()] removes are those of [str.isspace]:
    U+0009..U+000D, U+001C..U+0020, U+0085, U+00A0, U+1680, U+2000..U+200A,
    U+2028, U+2029, U+202F, U+205F and U+3000.  In UTF-8 the first group is
    one byte, the next two characters are two bytes and the others three. *)
Definition byte_is (n : nat) (c : ascii) : bool := Nat.eqb (nat_of_ascii c) n.

Definition space1 (c : ascii) : bool :=
  let n := nat_of_ascii c in
  (Nat.leb 9 n && Nat.leb n 13) || (Nat.leb 28 n && Nat.leb n 32).

Definition space2 (c1 c2 : ascii) : bool :=
  byte_is 194 c1 && (byte_is 133 c2 || byte_is 160 c2).

Definition space3 (c1 c2 c3 : ascii) : bool :=
  (byte_is 225 c1 && byte_is 154 c2 && byte_is 128 c3)
  || (byte_is 226 c1 && byte_is 128 c2
      && ((Nat.leb 128 (nat_of_ascii c3) && Nat.leb (nat_of_ascii c3) 138)
          || byte_is 168 c3 || byte_is 169 c3 || byte_is 175 c3))
  || (byte_is 226 c1 && byte_is 129 c2 && byte_is 159 c3)
  || (byte_is 227 c1 && byte_is 128 c2 && byte_is 128 c3).

(** [s.isspace()] for a text of one character. *)
Definition isspace (s : string) : bool :=
  match s with
  | String c1 EmptyString => space1 c1
  | String c1 (String c2 EmptyString) => space2 c1 c2
  | String c1 (String c2 (String c3 EmptyString)) => space3 c1 c2 c3
  | _ => false
  end.

(** Whether the text begins with a white space character. *)
Definition starts_with_space (s : string) : bool :=
  match s with
  | EmptyString => false
  | String c1 r1 =>
      space1 c1
      || match r1 with
         | EmptyString => false
         | String c2 r2 =>
             space2 c1 c2
             || match r2 with
                | EmptyString => false
                | String c3 _ => space3 c1 c2 c3
                end
         end
  end.

Fixpoint lstrip (s : string) : string :=
  match s with
  | EmptyString => EmptyString
  | String c1 r1 =>
      if space1 c1 then lstrip r1
      else
        match r1 with
        | EmptyString => s
        | String c2 r2 =>
            if space2 c1 c2 then lstrip r2
            else
              match r2 with
              | EmptyString => s
              | String c3 r3 => if space3 c1 c2 c3 then lstrip r3 else s
              end
        end
  end.

(** From the right: what is kept of the rest, with the byte in front, is
    dropped when it is one white space character. *)
Fixpoint rstrip (s : string) : string :=
  match s with
  | EmptyString => EmptyString
  | String c rest =>
      let kept := String c (rstrip rest) in
      if isspace kept then EmptyString else kept
  end.

(** [s.strip()] *)
Definition strip (s : string) : string := rstrip (lstrip s).

(** [s.split(sep)] for a one-character separator: the pieces between the
    occurrences of [sep]; a string without [sep] (the empty string too) is
    one piece. *)
Fixpoint split (sep : ascii) (s : string) : list string :=
  match s with
  | EmptyString => [EmptyString]
  | String c rest =>
      if Ascii.eqb c sep then EmptyString :: split sep rest
      else match split sep rest with
           | [] => [String c EmptyString]
           | piece :: pieces => String c piece :: pieces
           end
  end.

(** [s.count(c)] for a one-character [c] *)
Fixpoint count (c : ascii) (s : string) : nat :=
  match s with
  | EmptyString => 0
  | String d rest => (if Ascii.eqb d c then 1 else 0) + count c rest
  end.

(** [sep.join(pieces)] *)
Definition join (sep : string) (pieces : list string) : string :=
  String.concat sep pieces.

(** [s.rfind(c)] for a one-character [c]: the highest index, or [None] for
    Python's -1. *)
Fixpoint rfind (c : ascii) (s : string) : option nat :=
  match s with
  | EmptyString => None
  | String d rest =>
      match rfind c rest with
      | Some i => Some (S i)
      | None => if Ascii.eqb d c then Some 0 else None
      end
  end.

(** [s[i:]] and [s[:i]] for [0 <= i] *)
Definition from (i : nat) (s : string) : string :=
  substring i (String.length s - i) s.

Definition upto (i : nat) (s : string) : string :=
  substring 0 i s.

End PyStr.

(** ** [os.path] (POSIX flavour: separator [/], extension separator [.]) *)

Module OsPath.

(** [os.path.basename(p)]: [i = p.rfind('/') + 1; return p[i:]] *)
Definition basename (p : string) : string :=
  match PyStr.rfind "/" p with
  | Some i => PyStr.from (S i) p
  | None => p
  end.

(** The loop of [genericpath._splitext] that skips the leading dots of the
    last path component: is there a character other than [.] at an index in
    [filenameIndex .. dotIndex-1]? *)
Fixpoint has_non_dot (p : string) (filenameIndex count : nat) : bool :=
  match count with
  | O => false
  | S count' =>
      match String.get filenameIndex p with
      | Some c => if Ascii.eqb c "." then has_non_dot p (S filenameIndex) count'
                  else true
      | None => true
      end
  end.

(** [os.path.splitext(p)] *)
Definition splitext (p : string) : string * string :=
  let filenameIndex := match PyStr.rfind "/" p with Some i => S i | None => 0 end in
  match PyStr.rfind "." p with
  | Some dotIndex =>
      if Nat.leb filenameIndex dotIndex
         && has_non_dot p filenameIndex (dotIndex - filenameIndex)
      then (PyStr.upto dotIndex p, PyStr.from dotIndex p)
      else (p, EmptyString)
  | None => (p, EmptyString)
  end.

End OsPath.

(** ** pandas, as far as the two modules use it

    The readers pass [dtype=str], so a table holds text cells; a missing
    value (NaN) is [None]. *)

Module Pandas.

Definition cell : Type := option string.

Record DataFrame : Type := {
  columns : list string;
  rows : list (list cell)
}.

(** [data.keys()] *)
Definition keys (df : DataFrame) : list string := columns df.

Fixpoint position (name : string) (names : list string) : option nat :=
  match names with
  | [] => None
  | n :: names' =>
      if String.eqb n name then Some 0
      else option_map S (position name names')
  end.

Definition at_column (i : nat) (row : list cell) : cell := nth i row None.

(** [df[name]]: the column as a series, [KeyError] when there is none. *)
Definition getitem (df : DataFrame) (name : string) : PyResult (list cell) :=
  match position name (columns df) with
  | Some i => Returns (map (at_column i) (rows df))
  | None => Raises (KeyError name)
  end.

(** [series.dropna().tolist()] *)
Fixpoint dropna (series : list cell) : list string :=
  match series with
  | [] => []
  | Some v :: rest => v :: dropna rest
  | None :: rest => dropna rest
  end.

Fixpoint insert_key (k : string) (ks : list string) : list string :=
  match ks with
  | [] => [k]
  | k' :: ks' => if String.ltb k k' then k :: ks else k' :: insert_key k ks'
  end.

Definition sort_keys (ks : list string) : list string :=
  fold_right insert_key [] ks.

(** The distinct values of a series; missing values are no values. *)
Definition unique (series : list cell) : list string :=
  nodup string_dec (dropna series).

Definition cell_is (k : string) (c : cell) : bool :=
  match c with
  | Some v => String.eqb v k
  | None => false
  end.

(** [list(df.groupby(name))] with the defaults [sort=True, dropna=True]:
    one pair (key, sub-table) per distinct value of the column, keys
    ascending, each sub-table the rows with that key in their order. *)
Definition groupby (df : DataFrame) (name : string)
  : PyResult (list (string * DataFrame)) :=
  match position name (columns df) with
  | Some i =>
      Returns
        (map (fun k =>
                (k, {| columns := columns df;
                       rows := filter (fun r => cell_is k (at_column i r)) (rows df) |}))
             (sort_keys (unique (map (at_column i) (rows df)))))
  | None => Raises (KeyError name)
  end.

End Pandas.

(** ** The external trajectory library and the GUI callbacks *)

(** [statespacegrid.trajectory.Trajectory], as constructed by the
    controller. *)
Record Trajectory (float : Type) : Type := {
  traj_x_range : list string;
  traj_y_range : list string;
  states : list (string * string);
  times : list float
}.

Arguments traj_x_range {float} _.
Arguments traj_y_range {float} _.
Arguments states {float} _.
Arguments times {float} _.

(** What the two modules take from outside the repository. *)
Class Externals : Type := {
  float : Type;
  (** [float(text)], [None] when Python raises [ValueError] *)
  parse_float : string -> option float;
  (** [statespacegrid.measure.Measures] and [get_measures], applied to the
      unpacked trajectory list *)
  Measures : Type;
  get_measures : list (Trajectory float) -> Measures;
  (** [pd.read_csv(path, dtype=str, sep=sep)] *)
  pd_read_csv : string -> string -> PyResult Pandas.DataFrame;
  (** [pd.read_excel(path, dtype=str)] *)
  pd_read_excel : string -> PyResult Pandas.DataFrame;
  (** [open(path, "w")]: whether the file can be opened for writing, with
      the [OSError] Python raises when it cannot *)
  open_w : string -> PyResult unit
}.

(** A callback supplied by the GUI is known by a handle; calling it is
    recorded in the trace. *)
Definition Callback : Type := nat.

(** A matplotlib figure or axes object, by handle. *)
Definition Handle : Type := nat.

(** ** model.py: the dataclasses *)

Module DataObjectIdentifier.

Record t : Type := {
  filename : string;
  id : option string
}.

(** [__str__] *)
Definition str (self : t) : string :=
  match id self with
  | Some i => filename self ++ "::" ++ i
  | None => filename self
  end.

End DataObjectIdentifier.

Module DataObjectHolder.

Record t : Type := {
  filename : DataObjectIdentifier.t;
  headers : list string;
  data : Pandas.DataFrame;
  selected : bool
}.

Definition splitById (id_header : string) (self : t)
  : PyResult (list (string * Pandas.DataFrame)) :=
  Pandas.groupby (data self) id_header.

Definition setSelected (is_selected : bool) (self : t) : t :=
  {| filename := filename self;
     headers := headers self;
     data := data self;
     selected := is_selected |}.

End DataObjectHolder.

(** ** [sorted(..., key=attrgetter("filename.filename", "filename.id"))] *)

Module Builtins.

(** The key [attrgetter] builds: the tuple (filename, id). *)
Definition sort_key (d : DataObjectHolder.t) : string * option string :=
  (DataObjectIdentifier.filename (DataObjectHolder.filename d),
   DataObjectIdentifier.id (DataObjectHolder.filename d)).

(** [a < b] on two such tuples: the first components that differ decide;
    [None] and a [str] are different and cannot be ordered. *)
Definition key_lt (a b : string * option string) : PyResult bool :=
  if String.eqb (fst a) (fst b) then
    match snd a, snd b with
    | None, None => Returns false
    | Some x, Some y => Returns (String.ltb x y)
    | None, Some _ => Raises TypeError
    | Some _, None => Raises TypeError
    end
  else Returns (String.ltb (fst a) (fst b)).

(** Python's sort is stable and compares with [<] only.  It is modelled as
    the insertion of each element, in turn, behind the elements of the
    sorted prefix that are not greater; on keys that can all be compared
    every stable sort returns this list. *)
Fixpoint insort (x : DataObjectHolder.t) (done : list DataObjectHolder.t)
  : PyResult (list DataObjectHolder.t) :=
  match done with
  | [] => Returns [x]
  | y :: done' =>
      match key_lt (sort_key x) (sort_key y) with
      | Raises e => Raises e
      | Returns true => Returns (x :: done)
      | Returns false =>
          match insort x done' with
          | Returns r => Returns (y :: r)
          | Raises e => Raises e
          end
      end
  end.

Definition sorted (l : list DataObjectHolder.t) : PyResult (list DataObjectHolder.t) :=
  fold_left
    (fun acc x => match acc with Returns done => insort x done | Raises e => Raises e end)
    l (Returns []).

End Builtins.

(** ** Calls with effects *)

Section Effects.

Context {X : Externals}.

(** One row of the measures table written by [export_measures]. *)
Record MeasuresRow : Type := {
  row_id : option string;
  row_measures : Measures
}.

(** The calls that leave the two modules. *)
Inductive Event : Type :=
| ListenerCall (listener : Callback) (data_objects : list DataObjectHolder.t)
| PlotCall (listener : Callback) (trajectories : list (Trajectory float))
           (x_header y_header : option string)
| MeasureCall (listener : Callback) (measures : Measures)
| ResetCall (reset_func : Callback)
| SaveFig (fig : Handle) (path : string)
| ToCsv (path : string) (measures_list : list MeasuresRow).

Definition Py (S A : Type) : Type := S -> PyResult A * S * list Event.

Definition ret {S A : Type} (a : A) : Py S A :=
  fun s => (Returns a, s, []).

Definition raise {S A : Type} (e : PyError) : Py S A :=
  fun s => (Raises e, s, []).

Definition bind {S A B : Type} (m : Py S A) (k : A -> Py S B) : Py S B :=
  fun s =>
    match m s with
    | (Returns a, s1, t1) =>
        match k a s1 with
        | (r, s2, t2) => (r, s2, t1 ++ t2)
        end
    | (Raises e, s1, t1) => (Raises e, s1, t1)
    end.

Definition get {S : Type} : Py S S :=
  fun s => (Returns s, s, []).

Definition modify {S : Type} (f : S -> S) : Py S unit :=
  fun s => (Returns tt, f s, []).

Definition call {S : Type} (e : Event) : Py S unit :=
  fun s => (Returns tt, s, [e]).

Definition of_result {S A : Type} (r : PyResult A) : Py S A :=
  fun s => (r, s, []).

Fixpoint for_each {S A : Type} (l : list A) (body : A -> Py S unit) : Py S unit :=
  match l with
  | [] => ret tt
  | a :: l' => bind (body a) (fun _ => for_each l' body)
  end.

(** The parts of an outcome. *)
Definition result_of {S A : Type} (o : PyResult A * S * list Event) : PyResult A :=
  fst (fst o).

Definition state_of {S A : Type} (o : PyResult A * S * list Event) : S :=
  snd (fst o).

Definition trace_of {S A : Type} (o : PyResult A * S * list Event) : list Event :=
  snd o.

End Effects.

Declare Scope py_scope.
Delimit Scope py_scope with py.
Notation "x <- m ;; k" := (bind m (fun x => k))
  (at level 61, m at next level, right associativity) : py_scope.
Notation "m ;; k" := (bind m (fun _ => k))
  (at level 61, right associativity) : py_scope.

(** ** model.py: [AppState] *)

Module AppState.

Record t : Type := {
  data_objects : list DataObjectHolder.t;
  split_data_objects : list DataObjectHolder.t;
  split_by_id : option string;
  y_header : option string;
  x_header : option string;
  t_header : option string;
  x_range : list string;
  y_range : list string;
  matpltlib_fig : option Handle;
  matpltlib_ax : option Handle;
  data_object_listeners : list Callback
}.

(** [AppState()]: every field at its default. *)
Definition init : t :=
  {| data_objects := []; split_data_objects := []; split_by_id := None;
     y_header := None; x_header := None; t_header := None;
     x_range := []; y_range := [];
     matpltlib_fig := None; matpltlib_ax := None;
     data_object_listeners := [] |}.

(** Assignments to one attribute. *)
Definition with_data_objects (v : list DataObjectHolder.t) (s : t) : t :=
  {| data_objects := v; split_data_objects := split_data_objects s;
     split_by_id := split_by_id s; y_header := y_header s; x_header := x_header s;
     t_header := t_header s; x_range := x_range s; y_range := y_range s;
     matpltlib_fig := matpltlib_fig s; matpltlib_ax := matpltlib_ax s;
     data_object_listeners := data_object_listeners s |}.

Definition with_split_data_objects (v : list DataObjectHolder.t) (s : t) : t :=
  {| data_objects := data_objects s; split_data_objects := v;
     split_by_id := split_by_id s; y_header := y_header s; x_header := x_header s;
     t_header := t_header s; x_range := x_range s; y_range := y_range s;
     matpltlib_fig := matpltlib_fig s; matpltlib_ax := matpltlib_ax s;
     data_object_listeners := data_object_listeners s |}.

Definition with_split_by_id (v : option string) (s : t) : t :=
  {| data_objects := data_objects s; split_data_objects := split_data_objects s;
     split_by_id := v; y_header := y_header s; x_header := x_header s;
     t_header := t_header s; x_range := x_range s; y_range := y_range s;
     matpltlib_fig := matpltlib_fig s; matpltlib_ax := matpltlib_ax s;
     data_object_listeners := data_object_listeners s |}.

Definition with_y_header (v : option string) (s : t) : t :=
  {| data_objects := data_objects s; split_data_objects := split_data_objects s;
     split_by_id := split_by_id s; y_header := v; x_header := x_header s;
     t_header := t_header s; x_range := x_range s; y_range := y_range s;
     matpltlib_fig := matpltlib_fig s; matpltlib_ax := matpltlib_ax s;
     data_object_listeners := data_object_listeners s |}.

Definition with_x_header (v : option string) (s : t) : t :=
  {| data_objects := data_objects s; split_data_objects := split_data_objects s;
     split_by_id := split_by_id s; y_header := y_header s; x_header := v;
     t_header := t_header s; x_range := x_range s; y_range := y_range s;
     matpltlib_fig := matpltlib_fig s; matpltlib_ax := matpltlib_ax s;
     data_object_listeners := data_object_listeners s |}.

Definition with_t_header (v : option string) (s : t) : t :=
  {| data_objects := data_objects s; split_data_objects := split_data_objects s;
     split_by_id := split_by_id s; y_header := y_header s; x_header := x_header s;
     t_header := v; x_range := x_range s; y_range := y_range s;
     matpltlib_fig := matpltlib_fig s; matpltlib_ax := matpltlib_ax s;
     data_object_listeners := data_object_listeners s |}.

Definition with_x_range (v : list string) (s : t) : t :=
  {| data_objects := data_objects s; split_data_objects := split_data_objects s;
     split_by_id := split_by_id s; y_header := y_header s; x_header := x_header s;
     t_header := t_header s; x_range := v; y_range := y_range s;
     matpltlib_fig := matpltlib_fig s; matpltlib_ax := matpltlib_ax s;
     data_object_listeners := data_object_listeners s |}.

Definition with_y_range (v : list string) (s : t) : t :=
  {| data_objects := data_objects s; split_data_objects := split_data_objects s;
     split_by_id := split_by_id s; y_header := y_header s; x_header := x_header s;
     t_header := t_header s; x_range := x_range s; y_range := v;
     matpltlib_fig := matpltlib_fig s; matpltlib_ax := matpltlib_ax s;
     data_object_listeners := data_object_listeners s |}.

Definition with_plot_structures (fig ax : Handle) (s : t) : t :=
  {| data_objects := data_objects s; split_data_objects := split_data_objects s;
     split_by_id := split_by_id s; y_header := y_header s; x_header := x_header s;
     t_header := t_header s; x_range := x_range s; y_range := y_range s;
     matpltlib_fig := Some fig; matpltlib_ax := Some ax;
     data_object_listeners := data_object_listeners s |}.

Definition with_listeners (v : list Callback) (s : t) : t :=
  {| data_objects := data_objects s; split_data_objects := split_data_objects s;
     split_by_id := split_by_id s; y_header := y_header s; x_header := x_header s;
     t_header := t_header s; x_range := x_range s; y_range := y_range s;
     matpltlib_fig := matpltlib_fig s; matpltlib_ax := matpltlib_ax s;
     data_object_listeners := v |}.

(** [self.split_data_objects if self.split_data_objects else self.data_objects] *)
Definition getDataObjects (self : t) : list DataObjectHolder.t :=
  match split_data_objects self with
  | [] => data_objects self
  | _ :: _ => split_data_objects self
  end.

Definition getIDs (self : t) : list string :=
  map (fun data_obj => DataObjectIdentifier.str (DataObjectHolder.filename data_obj))
      (getDataObjects self).

(** The setters that touch neither the data objects nor the listeners. *)
Definition set_x_header (header : string) (self : t) : t :=
  with_x_header (Some header) self.

Definition set_y_header (header : string) (self : t) : t :=
  with_y_header (Some header) self.

Definition set_t_header (header : string) (self : t) : t :=
  with_t_header (Some header) self.

Definition set_x_range (range_list : string) (self : t) : t :=
  with_x_range (map PyStr.strip (PyStr.split "," range_list)) self.

Definition set_y_range (range_list : string) (self : t) : t :=
  with_y_range (map PyStr.strip (PyStr.split "," range_list)) self.

Definition set_plot_structures (fig ax : Handle) (self : t) : t :=
  with_plot_structures fig ax self.

Definition addDataListener (listener : Callback) (self : t) : t :=
  with_listeners (data_object_listeners self ++ [listener]) self.

Section Methods.

Context {X : Externals}.

Local Open Scope py_scope.

(** [update]: every listener is handed the sorted data objects. *)
Definition update : Py t unit :=
  self <- get ;;
  data_objects <- of_result (Builtins.sorted (getDataObjects self)) ;;
  for_each (data_object_listeners self)
           (fun listener => call (ListenerCall listener data_objects)).

(** [if self.split_by_id:] is the truth value of an optional string. *)
Definition truthy (v : option string) : bool :=
  match v with
  | Some text => negb (String.eqb text "")
  | None => false
  end.

(** The holder [_splitByID] builds for one group of a data object. *)
Definition split_entry (data_object : DataObjectHolder.t)
                       (group : string * Pandas.DataFrame) : DataObjectHolder.t :=
  {| DataObjectHolder.filename :=
       {| DataObjectIdentifier.filename :=
            DataObjectIdentifier.filename (DataObjectHolder.filename data_object);
          DataObjectIdentifier.id := Some (fst group) |};
     DataObjectHolder.headers := DataObjectHolder.headers data_object;
     DataObjectHolder.data := snd group;
     DataObjectHolder.selected := true |}.

Definition _splitByID (data_object : DataObjectHolder.t) : Py t unit :=
  self <- get ;;
  split_data <-
    match split_by_id self with
    | Some column => of_result (Pandas.groupby (DataObjectHolder.data data_object) column)
    | None => raise TypeError
    end ;;
  for_each split_data
    (fun group =>
       modify (fun self =>
         with_split_data_objects
           (split_data_objects self ++ [split_entry data_object group]) self)).

(** The holder [addDataObject] builds. *)
Definition new_holder (file_path : string) (data : Pandas.DataFrame)
  : DataObjectHolder.t :=
  let headers := Pandas.keys data in
  let filename := OsPath.basename file_path in
  {| DataObjectHolder.filename :=
       {| DataObjectIdentifier.filename := filename; DataObjectIdentifier.id := None |};
     DataObjectHolder.headers := headers;
     DataObjectHolder.data := data;
     DataObjectHolder.selected := true |}.

Definition addDataObject (file_path : string) (data : Pandas.DataFrame) : Py t unit :=
  modify (fun self =>
            with_data_objects (data_objects self ++ [new_holder file_path data]) self) ;;
  self <- get ;;
  (if truthy (split_by_id self) then _splitByID (new_holder file_path data) else ret tt) ;;
  update.

Definition addSplitByID (id : string) : Py t unit :=
  modify (with_split_data_objects []) ;;
  (if String.eqb id "" then
     modify (with_split_by_id None)
   else
     modify (with_split_by_id (Some id)) ;;
     self <- get ;;
     for_each (data_objects self) _splitByID) ;;
  update.

Definition reset : Py t unit :=
  modify (with_data_objects []) ;;
  modify (with_split_data_objects []) ;;
  modify (with_split_by_id None) ;;
  modify (with_x_header None) ;;
  modify (with_y_header None) ;;
  modify (with_t_header None) ;;
  update.

End Methods.

End AppState.

(** ** controller.py: [AppControl] *)

Module AppControl.

(** The methods carrying the [@file_reader] decoration. *)
Inductive Reader : Type :=
| read_csv
| read_traj
| read_tsv
| read_xls.

(** A [dict] keyed by strings, in insertion order. *)
Definition dict (V : Type) : Type := list (string * V).

Fixpoint dict_get {V : Type} (key : string) (d : dict V) : option V :=
  match d with
  | [] => None
  | (k, v) :: d' => if String.eqb k key then Some v else dict_get key d'
  end.

(** [key in d] *)
Definition dict_in {V : Type} (key : string) (d : dict V) : bool :=
  match dict_get key d with
  | Some _ => true
  | None => false
  end.

(** [d[key] = v]: an existing key keeps its place. *)
Fixpoint dict_set {V : Type} (key : string) (v : V) (d : dict V) : dict V :=
  match d with
  | [] => [(key, v)]
  | (k, v') :: d' =>
      if String.eqb k key then (k, v) :: d' else (k, v') :: dict_set key v d'
  end.

(** [d.keys()] *)
Definition dict_keys {V : Type} (d : dict V) : list string := map fst d.

Record t : Type := {
  state : AppState.t;
  file_readers : dict Reader;
  plot_listener : option Callback;
  measure_listener : option Callback;
  resets : list Callback
}.

Definition with_state (v : AppState.t) (self : t) : t :=
  {| state := v; file_readers := file_readers self;
     plot_listener := plot_listener self;
     measure_listener := measure_listener self; resets := resets self |}.

Definition with_plot_listener (v : option Callback) (self : t) : t :=
  {| state := state self; file_readers := file_readers self;
     plot_listener := v;
     measure_listener := measure_listener self; resets := resets self |}.

Definition with_measure_listener (v : option Callback) (self : t) : t :=
  {| state := state self; file_readers := file_readers self;
     plot_listener := plot_listener self;
     measure_listener := v; resets := resets self |}.

Definition with_resets (v : list Callback) (self : t) : t :=
  {| state := state self; file_readers := file_readers self;
     plot_listener := plot_listener self;
     measure_listener := measure_listener self; resets := v |}.

(** [dir(AppControl)], without the names inherited from [object]: the
    attribute names in ascending order, each with the [extension_handler]
    the decorator [file_reader] attached to it, if any. *)
Definition dir_AppControl : list (string * option (string * Reader)) :=
  [ ("addDataListener", None);
    ("canHandle", None);
    ("export_measures", None);
    ("export_plot", None);
    ("getTrajectories", None);
    ("plot", None);
    ("read_csv", Some (".csv", read_csv));
    ("read_file", None);
    ("read_traj", Some (".traj", read_traj));
    ("read_tsv", Some (".tsv", read_tsv));
    ("read_xls", Some ("xls", read_xls));
    ("reset", None);
    ("set_plot_structures", None) ].

(** The loop of [__init__] that fills [file_readers]. *)
Definition collect_readers (attrs : list (string * option (string * Reader)))
  : dict Reader :=
  fold_left
    (fun readers attr =>
       match snd attr with
       | Some (extension_handler, method) => dict_set extension_handler method readers
       | None => readers
       end)
    attrs [].

(** [AppControl()] *)
Definition init : t :=
  {| state := AppState.init;
     file_readers := collect_readers dir_AppControl;
     plot_listener := None;
     measure_listener := None;
     resets := [] |}.

Definition canHandle (extension : string) (self : t) : bool :=
  dict_in extension (file_readers self).

Definition addDataListener (listener : Callback) (self : t) : t :=
  with_state (AppState.addDataListener listener (state self)) self.

Definition set_plot_structures (fig ax : Handle) (self : t) : t :=
  with_state (AppState.set_plot_structures fig ax (state self)) self.

Section Methods.

Context {X : Externals}.

Local Open Scope py_scope.

(** A method of [self.state] called from the controller. *)
Definition on_state {A : Type} (m : Py AppState.t A) : Py t A :=
  fun self =>
    match m (state self) with
    | (r, s', trace) => (r, with_state s' self, trace)
    end.

Definition then_result {A B : Type} (r : PyResult A) (k : A -> PyResult B)
  : PyResult B :=
  match r with
  | Returns a => k a
  | Raises e => Raises e
  end.

(** [series.astype(float).tolist()] *)
Fixpoint astype_float (values : list string) : PyResult (list float) :=
  match values with
  | [] => Returns []
  | v :: rest =>
      match parse_float v with
      | Some f => then_result (astype_float rest) (fun fs => Returns (f :: fs))
      | None => Raises (ValueError v)
      end
  end.

(** One element of the comprehension in [getTrajectories]; the keyword
    arguments are evaluated in the order they are written. *)
Definition trajectory_of (st : AppState.t) (x_header y_header t_header : string)
                         (data : DataObjectHolder.t)
  : PyResult (Trajectory float) :=
  let table := DataObjectHolder.data data in
  then_result (Pandas.getitem table x_header) (fun xs =>
  then_result (Pandas.getitem table y_header) (fun ys =>
  then_result (Pandas.getitem table t_header) (fun ts =>
  then_result (astype_float (Pandas.dropna ts)) (fun ticks =>
  Returns {| traj_x_range := AppState.x_range st;
             traj_y_range := AppState.y_range st;
             states := combine (Pandas.dropna xs) (Pandas.dropna ys);
             times := ticks |})))).

Fixpoint comprehension {A B : Type} (f : A -> PyResult B) (l : list A)
  : PyResult (list B) :=
  match l with
  | [] => Returns []
  | a :: l' =>
      then_result (f a) (fun b =>
      then_result (comprehension f l') (fun bs => Returns (b :: bs)))
  end.

Definition msg_select_headers : string :=
  "Select a value for the x header, y header and time header before plotting".

Definition msg_set_ranges : string :=
  "Set the x and y range as a comma separated list in the for '1,2,3' or 'a,b,c' before plotting".

Definition msg_no_plot_function : string :=
  "Problem with app generation - no associated plot function for plot display".

Definition msg_no_measure_function : string :=
  "Problem with app generation - no associated function for measure display".

Definition msg_no_grid : string :=
  "Problem with app generation - no associated grid to save".

Definition is_empty {A : Type} (l : list A) : bool :=
  match l with
  | [] => true
  | _ :: _ => false
  end.

Definition getTrajectories (self : t) : PyResult (list (Trajectory float)) :=
  let st := state self in
  match AppState.x_header st, AppState.y_header st, AppState.t_header st with
  | Some x_header, Some y_header, Some t_header =>
      if is_empty (AppState.x_range st) || is_empty (AppState.y_range st) then
        Raises (AppError msg_set_ranges)
      else
        comprehension (trajectory_of st x_header y_header t_header)
                      (filter DataObjectHolder.selected (AppState.getDataObjects st))
  | _, _, _ => Raises (AppError msg_select_headers)
  end.

Definition plot : Py t unit :=
  self <- get ;;
  trajectories <- of_result (getTrajectories self) ;;
  match plot_listener self with
  | None => raise (AppError msg_no_plot_function)
  | Some plot_listener =>
      call (PlotCall plot_listener trajectories
                     (AppState.x_header (state self)) (AppState.y_header (state self))) ;;
      match measure_listener self with
      | None => raise (AppError msg_no_measure_function)
      | Some measure_listener =>
          if is_empty trajectories then ret tt
          else call (MeasureCall measure_listener (get_measures trajectories))
      end
  end.

Definition export_plot (path : string) : Py t unit :=
  self <- get ;;
  match AppState.matpltlib_fig (state self) with
  | None => raise (AppError msg_no_grid)
  | Some fig => call (SaveFig fig path)
  end.

(** The rows collected in [measures_list]. *)
Definition measures_rows (do_for_individual_trajectories : bool)
                         (trajectory_ids : list string)
                         (trajectories : list (Trajectory float))
  : list MeasuresRow :=
  if do_for_individual_trajectories then
    map (fun '(id, traj) => {| row_id := Some id; row_measures := get_measures [traj] |})
        (combine trajectory_ids trajectories)
  else
    [ {| row_id := None; row_measures := get_measures trajectories |} ].

(** The rows are collected first; then [open(path, "w")] comes before the
    table is written to the path, so a file that cannot be opened raises
    and nothing is written. *)
Definition export_measures (path : string) (do_for_individual_trajectories : bool)
  : Py t unit :=
  self <- get ;;
  trajectories <- of_result (getTrajectories self) ;;
  let trajectory_ids := AppState.getIDs (state self) in
  let measures_list :=
    measures_rows do_for_individual_trajectories trajectory_ids trajectories in
  of_result (open_w path) ;;
  call (ToCsv path measures_list).

Definition reset : Py t unit :=
  self <- get ;;
  for_each (resets self) (fun reset_func => call (ResetCall reset_func)) ;;
  on_state AppState.reset.

(** The decorated reader methods. *)
Definition run_reader (reader : Reader) (file_path : string) : Py t unit :=
  match reader with
  | read_csv =>
      data <- of_result (pd_read_csv file_path ",") ;;
      on_state (AppState.addDataObject file_path data)
  | read_traj =>
      data <- of_result (pd_read_csv file_path (String (ascii_of_nat 9) "")) ;;
      on_state (AppState.addDataObject file_path data)
  | read_tsv =>
      data <- of_result (pd_read_csv file_path (String (ascii_of_nat 9) "")) ;;
      on_state (AppState.addDataObject file_path data)
  | read_xls =>
      data <- of_result (pd_read_excel file_path) ;;
      on_state (AppState.addDataObject file_path data)
  end.

Definition msg_cannot_handle (extension : string) (readers : dict Reader) : string :=
  "StateSpaceGridApp can't handle file of extension type " ++ extension
  ++ ". Please use one of " ++ PyStr.join ", " (dict_keys readers).

Definition read_file (file_path : string) : Py t unit :=
  self <- get ;;
  let extension := snd (OsPath.splitext file_path) in
  match dict_get extension (file_readers self) with
  | Some reader => run_reader reader file_path
  | None => raise (AppError (msg_cannot_handle extension (file_readers self)))
  end.

End Methods.

End AppControl.

(** ** The calls the GUI makes on the state store *)

Module Session.

(** [holder.setSelected(b)] on the holder at a position of a list; a
    position past the end names no holder. *)
Fixpoint select_at (index : nat) (is_selected : bool) (l : list DataObjectHolder.t)
  : list DataObjectHolder.t :=
  match l, index with
  | [], _ => []
  | d :: l', O => DataObjectHolder.setSelected is_selected d :: l'
  | d :: l', S index' => d :: select_at index' is_selected l'
  end.

(** The mutating entry points of [AppState], and the check box of a row
    (which calls [setSelected] on a holder the state owns). *)
Inductive Op : Type :=
| AddDataObject (file_path : string) (data : Pandas.DataFrame)
| AddSplitByID (id : string)
| Reset
| SetXHeader (header : string)
| SetYHeader (header : string)
| SetTHeader (header : string)
| SetXRange (range_list : string)
| SetYRange (range_list : string)
| SetPlotStructures (fig ax : Handle)
| AddDataListener (listener : Callback)
| SetSelected (in_split : bool) (index : nat) (is_selected : bool).

(** The operations that end in [self.update()]. *)
Definition notifies (op : Op) : bool :=
  match op with
  | AddDataObject _ _ | AddSplitByID _ | Reset => true
  | _ => false
  end.

Section Run.

Context {X : Externals}.

Definition run (op : Op) : Py AppState.t unit :=
  match op with
  | AddDataObject file_path data => AppState.addDataObject file_path data
  | AddSplitByID id => AppState.addSplitByID id
  | Reset => AppState.reset
  | SetXHeader header => modify (AppState.set_x_header header)
  | SetYHeader header => modify (AppState.set_y_header header)
  | SetTHeader header => modify (AppState.set_t_header header)
  | SetXRange range_list => modify (AppState.set_x_range range_list)
  | SetYRange range_list => modify (AppState.set_y_range range_list)
  | SetPlotStructures fig ax => modify (AppState.set_plot_structures fig ax)
  | AddDataListener listener => modify (AppState.addDataListener listener)
  | SetSelected in_split index is_selected =>
      modify (fun self =>
        if in_split then
          AppState.with_split_data_objects
            (select_at index is_selected (AppState.split_data_objects self)) self
        else
          AppState.with_data_objects
            (select_at index is_selected (AppState.data_objects self)) self)
  end.

(** The state a sequence of calls leaves behind; a call that raises keeps
    the mutations it made, and the session goes on. *)
Definition run_all (ops : list Op) (s : AppState.t) : AppState.t :=
  fold_left (fun s op => state_of (run op s)) ops s.

End Run.

End Session.

(** ** Vocabulary of the properties *)

Definition group_id (d : DataObjectHolder.t) : option string :=
  DataObjectIdentifier.id (DataObjectHolder.filename d).

Definition file_name (d : DataObjectHolder.t) : string :=
  DataObjectIdentifier.filename (DataObjectHolder.filename d).

Definition ungrouped (d : DataObjectHolder.t) : Prop :=
  group_id d = None.

Definition grouped (d : DataObjectHolder.t) : Prop :=
  exists g : string, group_id d = Some g.

(** The typing discipline of the two collections. *)
Definition ids_consistent (s : AppState.t) : Prop :=
  Forall ungrouped (AppState.data_objects s)
  /\ Forall grouped (AppState.split_data_objects s).

(** (filename, group id) ascending; an absent group id comes first. *)
Definition ident_le (a b : DataObjectHolder.t) : Prop :=
  String.ltb (file_name a) (file_name b) = true
  \/ (file_name a = file_name b
      /\ match group_id a, group_id b with
         | None, _ => True
         | Some x, Some y => String.leb x y = true
         | Some _, None => False
         end).

(** A list that does not mix the two kinds of identifier. *)
Definition uniform (l : list DataObjectHolder.t) : Prop :=
  Forall ungrouped l \/ Forall grouped l.

(** The grouped entries one data object contributes for a grouping column
    (none when the table has no such column). *)
Definition split_entries (column : string) (d : DataObjectHolder.t)
  : list DataObjectHolder.t :=
  match Pandas.groupby (DataObjectHolder.data d) column with
  | Returns groups => map (AppState.split_entry d) groups
  | Raises _ => []
  end.

(** The last character of a text. *)
Fixpoint last_char (s : string) : option ascii :=
  match s with
  | EmptyString => None
  | String c EmptyString => Some c
  | String _ rest => last_char rest
  end.

(** The distinct values of a column of a table (none when the table has no
    such column), and their number. *)
Definition distinct_values (column : string) (df : Pandas.DataFrame) : list string :=
  match Pandas.getitem df column with
  | Returns series => Pandas.unique series
  | Raises _ => []
  end.

Definition distinct_count (column : string) (df : Pandas.DataFrame) : nat :=
  List.length (distinct_values column df).

Definition has_column (column : string) (d : DataObjectHolder.t) : Prop :=
  In column (Pandas.columns (DataObjectHolder.data d)).

Definition sum_distinct (column : string) (ds : list DataObjectHolder.t) : nat :=
  list_sum (map (fun d => distinct_count column (DataObjectHolder.data d)) ds).

(** A data object from which [getTrajectories] can build a trajectory: its
    table has the three columns and every value present in the time column
    parses as a float. *)
Definition readable {X : Externals} (x_header y_header t_header : string)
           (d : DataObjectHolder.t) : Prop :=
  has_column x_header d /\ has_column y_header d /\ has_column t_header d
  /\ match Pandas.getitem (DataObjectHolder.data d) t_header with
     | Returns ts => Forall (fun v => parse_float v <> None) (Pandas.dropna ts)
     | Raises _ => False
     end.

(** The condition under which [getTrajectories] refuses to start. *)
Definition unconfigured (st : AppState.t) : Prop :=
  AppState.x_header st = None \/ AppState.y_header st = None
  \/ AppState.t_header st = None
  \/ AppState.x_range st = [] \/ AppState.y_range st = [].

(** A call raised without having called out and left [s'], or it did what
    [update] does on [s']. *)
Definition raised_or_notified {X : Externals}
           (o : PyResult unit * AppState.t * list Event) (s' : AppState.t) : Prop :=
  (exists e, o = (Raises e, s', [])) \/ o = AppState.update s'.

(** ** A small instance of the externals, for running the model

    Times are kept as their text; a text of digits and dots parses.  The
    measures of a trajectory list are the list itself, so that a row shows
    what it was computed from.  One file exists. *)

Module Demo.

Definition digit_or_dot (c : ascii) : bool :=
  let n := nat_of_ascii c in
  (Nat.leb 48 n && Nat.leb n 57) || Nat.eqb n 46.

Fixpoint all_chars (p : ascii -> bool) (s : string) : bool :=
  match s with
  | EmptyString => true
  | String c rest => p c && all_chars p rest
  end.

Definition parse (s : string) : option string :=
  match s with
  | EmptyString => None
  | _ => if all_chars digit_or_dot s then Some s else None
  end.

(** Columns [A,B,T,ID], rows (1,2,0.0,g1), (3,4,1.0,g1), (5,6,0.0,g2). *)
Definition table : Pandas.DataFrame :=
  {| Pandas.columns := ["A"; "B"; "T"; "ID"];
     Pandas.rows := [ [Some "1"; Some "2"; Some "0.0"; Some "g1"];
                      [Some "3"; Some "4"; Some "1.0"; Some "g1"];
                      [Some "5"; Some "6"; Some "0.0"; Some "g2"] ] |}.

(** The same columns and no rows. *)
Definition empty_table : Pandas.DataFrame :=
  {| Pandas.columns := ["A"; "B"; "T"; "ID"]; Pandas.rows := [] |}.

(** A table without the columns [A] and [B]. *)
Definition other_table : Pandas.DataFrame :=
  {| Pandas.columns := ["P"; "Q"; "T"];
     Pandas.rows := [ [Some "7"; Some "8"; Some "0.5"] ] |}.

(** Columns [A,B,T] and one row (7,8,0.5). *)
Definition second_table : Pandas.DataFrame :=
  {| Pandas.columns := ["A"; "B"; "T"];
     Pandas.rows := [ [Some "7"; Some "8"; Some "0.5"] ] |}.

Definition read_csv (path sep : string) : PyResult Pandas.DataFrame :=
  if String.eqb path "/data/run1.csv" then Returns table else Raises (OSError path).

Definition read_excel (path : string) : PyResult Pandas.DataFrame :=
  Raises (OSError path).

(** Files can be written below [/out/] and nowhere else. *)
Definition open_for_writing (path : string) : PyResult unit :=
  if String.prefix "/out/" path then Returns tt else Raises (OSError path).

Definition externals : Externals :=
  {| float := string;
     parse_float := parse;
     Measures := list (Trajectory string);
     get_measures := fun trajectories => trajectories;
     pd_read_csv := read_csv;
     pd_read_excel := read_excel;
     open_w := open_for_writing |}.

(** The example session: the file dropped in, roles and ranges set, then
    split by the column [ID]. *)
Definition split_by_ID : AppState.t :=
  Session.run_all (X := externals)
    [ Session.AddDataObject "/data/run1.csv" table;
      Session.SetXHeader "A"; Session.SetYHeader "B"; Session.SetTHeader "T";
      Session.SetXRange "1,3,5"; Session.SetYRange "2,4,6";
      Session.AddSplitByID "ID" ]
    AppState.init.

(** Two files loaded, the three roles and both ranges set, and the check box
    of the first file cleared. *)
Definition first_unselected : AppState.t :=
  Session.run_all (X := externals)
    [ Session.AddDataObject "/data/a.csv" table;
      Session.AddDataObject "/data/b.csv" second_table;
      Session.SetXHeader "A"; Session.SetYHeader "B"; Session.SetTHeader "T";
      Session.SetXRange "1,3,5"; Session.SetYRange "2,4,6";
      Session.SetSelected false 0 false ]
    AppState.init.

(** Two files loaded, the second without the column chosen for x (the
    drop-down lists offer the headers of every loaded file). *)
Definition missing_column : AppState.t :=
  Session.run_all (X := externals)
    [ Session.AddDataObject "/data/run1.csv" table;
      Session.AddDataObject "/data/other.csv" other_table;
      Session.SetXHeader "A"; Session.SetYHeader "B"; Session.SetTHeader "T";
      Session.SetXRange "1,3,5"; Session.SetYRange "2,4,6" ]
    AppState.init.

(** One file loaded and everything set, nothing wired. *)
Definition configured : AppState.t :=
  Session.run_all (X := externals)
    [ Session.AddDataObject "/data/run1.csv" table;
      Session.SetXHeader "A"; Session.SetYHeader "B"; Session.SetTHeader "T";
      Session.SetXRange "1,3,5"; Session.SetYRange "2,4,6" ]
    AppState.init.

(** The same with the check box of the only file cleared. *)
Definition none_selected : AppState.t :=
  Session.run_all (X := externals) [ Session.SetSelected false 0 false ] configured.

(** A controller holding a given state, nothing wired. *)
Definition control (st : AppState.t) : AppControl.t :=
  AppControl.with_state st AppControl.init.

(** A controller holding a given state with both callbacks wired, as the
    widgets do on construction. *)
Definition wired (st : AppState.t) : AppControl.t :=
  AppControl.with_measure_listener (Some 2)
    (AppControl.with_plot_listener (Some 1) (control st)).

End Demo.

(** ** Further vocabulary *)

(** Whether the table of a data object has a column. *)
Definition has_columnb (column : string) (d : DataObjectHolder.t) : bool :=
  match Pandas.position column (Pandas.columns (DataObjectHolder.data d)) with
  | Some _ => true
  | None => false
  end.

(** The longest prefix of a list whose elements all pass a test. *)
Fixpoint take_while {A : Type} (p : A -> bool) (l : list A) : list A :=
  match l with
  | [] => []
  | a :: l' => if p a then a :: take_while p l' else []
  end.

(** Loading files one after the other, each given by its path and the table
    read from it. *)
Definition load_ops (files : list (string * Pandas.DataFrame)) : list Session.Op :=
  map (fun f => Session.AddDataObject (fst f) (snd f)) files.

(** The values present in a column of a table (none when there is no such
    column). *)
Definition present (column : string) (df : Pandas.DataFrame) : list string :=
  match Pandas.getitem df column with
  | Returns series => Pandas.dropna series
  | Raises _ => []
  end.

(** A text that [strip] leaves as it is and that holds no comma. *)
Definition clean_token (token : string) : Prop :=
  PyStr.strip token = token /\ PyStr.count "," token = 0.

(** The method an attribute list registers last for an extension. *)
Fixpoint last_handler (extension : string)
         (attrs : list (string * option (string * AppControl.Reader)))
  : option AppControl.Reader :=
  match attrs with
  | [] => None
  | attr :: attrs' =>
      match last_handler extension attrs' with
      | Some method => Some method
      | None =>
          match snd attr with
          | Some (extension_handler, method) =>
              if String.eqb extension_handler extension then Some method else None
          | None => None
          end
      end
  end.

(** ** app.py: the two drag-and-drop handlers of [AppWindow]

    A dragged or dropped URL is the local path [toLocalFile] gives.  The
    list widget created on the first drop is known by the handles of the
    two bound methods it registers with the controller. *)

Module AppWindow.

Record TrajectoryListWidget : Type := {
  widget_reset : Callback;
  updateTrajectories : Callback
}.

Record t : Type := {
  controller : AppControl.t;
  trajectory_list : option TrajectoryListWidget
}.

(** [dragEnterEvent]: the proposed action is accepted when one of the URLs
    has an extension the controller can handle, and the event is ignored
    otherwise (also when there are no URLs). *)
Definition dragEnterEvent (urls : list string) (self : t) : bool :=
  existsb (fun url => AppControl.canHandle (snd (OsPath.splitext url)) (controller self))
          urls.

(** [TrajectoryListWidget.__init__], as far as the controller sees it:
    [controller.resets.append(self.reset)] and then
    [controller.addDataListener(self.updateTrajectories)]. *)
Definition register_list (widget : TrajectoryListWidget) (c : AppControl.t)
  : AppControl.t :=
  AppControl.addDataListener (updateTrajectories widget)
    (AppControl.with_resets (AppControl.resets c ++ [widget_reset widget]) c).

Section Methods.

Context {X : Externals}.

Local Open Scope py_scope.

(** A method of [self.controller] called from the window. *)
Definition on_controller {A : Type} (m : Py AppControl.t A) : Py t A :=
  fun self =>
    match m (controller self) with
    | (r, c', trace) =>
        (r, {| controller := c'; trajectory_list := trajectory_list self |}, trace)
    end.

(** [dropEvent]; [widget] is the list widget the constructor call yields
    when the window has none yet. *)
Definition dropEvent (widget : TrajectoryListWidget) (urls : list string) : Py t unit :=
  self <- get ;;
  match trajectory_list self with
  | None =>
      modify (fun self =>
        {| controller := register_list widget (controller self);
           trajectory_list := Some widget |})
  | Some _ => ret tt
  end ;;
  for_each urls (fun file_path => on_controller (AppControl.read_file file_path)).

End Methods.

End AppWindow.

(** Whether a call is [set_plot_structures]. *)
Definition sets_plot (op : Session.Op) : bool :=
  match op with
  | Session.SetPlotStructures _ _ => true
  | _ => false
  end.

(** The listeners a sequence of calls registers, in order. *)
Definition registered (ops : list Session.Op) : list Callback :=
  flat_map (fun op => match op with
                      | Session.AddDataListener listener => [listener]
                      | _ => []
                      end) ops.

(** The table a decorated reader method parses from a path: comma separated
    for [read_csv], tab separated for [read_traj] and [read_tsv], a
    spreadsheet for [read_xls]. *)
Definition parsed {X : Externals} (reader : AppControl.Reader) (file_path : string)
  : PyResult Pandas.DataFrame :=
  match reader with
  | AppControl.read_csv => pd_read_csv file_path ","
  | AppControl.read_traj => pd_read_csv file_path (String (ascii_of_nat 9) "")
  | AppControl.read_tsv => pd_read_csv file_path (String (ascii_of_nat 9) "")
  | AppControl.read_xls => pd_read_excel file_path
  end.

(** The controller a drop reads its files into: the one of the window, with
    the list widget registered when the window has none yet. *)
Definition drop_controller (widget : AppWindow.TrajectoryListWidget)
           (self : AppWindow.t) : AppControl.t :=
  match AppWindow.trajectory_list self with
  | None => AppWindow.register_list widget (AppWindow.controller self)
  | Some _ => AppWindow.controller self
  end.

(** The list widget of the window after a drop. *)
Definition drop_widget (widget : AppWindow.TrajectoryListWidget)
           (self : AppWindow.t) : AppWindow.TrajectoryListWidget :=
  match AppWindow.trajectory_list self with
  | None => widget
  | Some existing => existing
  end.

(** Two controllers with the same registry, callbacks and listeners. *)
Definition same_wiring (c c' : AppControl.t) : Prop :=
  AppControl.file_readers c' = AppControl.file_readers c
  /\ AppControl.plot_listener c' = AppControl.plot_listener c
  /\ AppControl.measure_listener c' = AppControl.measure_listener c
  /\ AppControl.resets c' = AppControl.resets c
  /\ AppState.data_object_listeners (AppControl.state c')
     = AppState.data_object_listeners (AppControl.state c).

(** A window with no list widget yet around a fresh controller on which one
    listener is registered, and the list widget of its first drop. *)
Definition demo_window : AppWindow.t :=
  {| AppWindow.controller := AppControl.addDataListener 7 AppControl.init;
     AppWindow.trajectory_list := None |}.

Definition demo_list : AppWindow.TrajectoryListWidget :=
  {| AppWindow.widget_reset := 8; AppWindow.updateTrajectories := 9 |}.

(** A grouped entry stems from a data object: same file name, same headers. *)
Definition stems_from (ds : list DataObjectHolder.t) (e : DataObjectHolder.t) : Prop :=
  exists d, In d ds /\ file_name e = file_name d
            /\ DataObjectHolder.headers e = DataObjectHolder.headers d.

(** How the grouping key and the grouped entries hang together. *)
Definition grouping_consistent (s : AppState.t) : Prop :=
  AppState.split_by_id s <> Some ""
  /\ (AppState.split_by_id s = None -> AppState.split_data_objects s = [])
  /\ Forall (stems_from (AppState.data_objects s)) (AppState.split_data_objects s).

(** The example session with the column roles set and the ranges never
    set, and the same after the two range boxes were filled in and then
    emptied. *)
Definition roles_only : AppState.t :=
  Session.run_all (X := Demo.externals)
    [ Session.AddDataObject "/data/run1.csv" Demo.table;
      Session.SetXHeader "A"; Session.SetYHeader "B"; Session.SetTHeader "T" ]
    AppState.init.

Definition ranges_emptied : AppState.t :=
  Session.run_all (X := Demo.externals)
    [ Session.SetXRange "1,3,5"; Session.SetYRange "2,4,6";
      Session.SetXRange ""; Session.SetYRange "" ]
    roles_only.

(** No suffix of the text is one white space character. *)
Fixpoint no_space_suffix (s : string) : bool :=
  match s with
  | EmptyString => true
  | String c rest => negb (PyStr.isspace s) && no_space_suffix rest
  end.

(** U+00A0 and U+3000 in UTF-8. *)
Definition nbsp : string :=
  String (ascii_of_nat 194) (String (ascii_of_nat 160) EmptyString).

Definition ideographic_space : string :=
  String (ascii_of_nat 227)
    (String (ascii_of_nat 128) (String (ascii_of_nat 128) EmptyString)).

(** * Properties *)

(** ** Running the model on small inputs *)

Example split_abc : PyStr.split "," "1, 2,3" = ["1"; " 2"; "3"].
Proof. reflexivity. Qed.

Example split_trailing : PyStr.split "," "a," = ["a"; ""].
Proof. reflexivity. Qed.

Example strip_inner : PyStr.strip "  a b  " = "a b".
Proof. reflexivity. Qed.

Example strip_unicode :
  PyStr.strip (String.append nbsp (String.append " a b" ideographic_space)) = "a b".
Proof. reflexivity. Qed.

Example strip_keeps_inner :
  PyStr.strip (String.append "a" (String.append nbsp "b"))
  = String.append "a" (String.append nbsp "b").
Proof. reflexivity. Qed.

Example splitext_csv : OsPath.splitext "/tmp/a.b/data.csv" = ("/tmp/a.b/data", ".csv").
Proof. reflexivity. Qed.

Example splitext_dotfile : OsPath.splitext "/tmp/a.b/.bashrc" = ("/tmp/a.b/.bashrc", "").
Proof. reflexivity. Qed.

Example splitext_none : OsPath.splitext "/tmp/a.b/data" = ("/tmp/a.b/data", "").
Proof. reflexivity. Qed.

Example basename_csv : OsPath.basename "/tmp/a.b/data.csv" = "data.csv".
Proof. reflexivity. Qed.

Example registry_keys :
  AppControl.dict_keys (AppControl.file_readers AppControl.init)
  = [".csv"; ".traj"; ".tsv"; "xls"].
Proof. reflexivity. Qed.

Example groupby_demo :
  option_map (map fst)
    (match Pandas.groupby Demo.table "ID" with Returns g => Some g | Raises _ => None end)
  = Some ["g1"; "g2"].
Proof. reflexivity. Qed.

Example read_csv_notifies :
  AppControl.read_file (X := Demo.externals) "/data/run1.csv"
    (AppControl.addDataListener 7 AppControl.init)
  = (Returns tt,
     Demo.control
       (AppState.with_data_objects
          [AppState.new_holder "/data/run1.csv" Demo.table]
          (AppState.addDataListener 7 AppState.init)),
     [ListenerCall 7 [AppState.new_holder "/data/run1.csv" Demo.table]]).
Proof. reflexivity. Qed.

Example notification_in_order :
  trace_of (Session.run (X := Demo.externals)
              (Session.AddDataObject "/data/a.csv" Demo.second_table)
              (Session.run_all (X := Demo.externals)
                 [ Session.AddDataListener 7;
                   Session.AddDataObject "/data/b.csv" Demo.table ] AppState.init))
  = [ListenerCall 7 [ AppState.new_holder "/data/a.csv" Demo.second_table;
                      AppState.new_holder "/data/b.csv" Demo.table ]].
Proof. reflexivity. Qed.

Example trajectories_ungrouped :
  AppControl.getTrajectories (X := Demo.externals) (Demo.control Demo.configured)
  = Returns [ {| traj_x_range := ["1"; "3"; "5"]; traj_y_range := ["2"; "4"; "6"];
                 states := [("1", "2"); ("3", "4"); ("5", "6")];
                 times := ["0.0"; "1.0"; "0.0"] |} ].
Proof. reflexivity. Qed.

Example trajectories_grouped :
  AppState.getIDs Demo.split_by_ID = ["run1.csv::g1"; "run1.csv::g2"]
  /\ AppControl.getTrajectories (X := Demo.externals) (Demo.control Demo.split_by_ID)
     = Returns [ {| traj_x_range := ["1"; "3"; "5"]; traj_y_range := ["2"; "4"; "6"];
                    states := [("1", "2"); ("3", "4")]; times := ["0.0"; "1.0"] |};
                 {| traj_x_range := ["1"; "3"; "5"]; traj_y_range := ["2"; "4"; "6"];
                    states := [("5", "6")]; times := ["0.0"] |} ].
Proof. split; reflexivity. Qed.

(** ** Laws of the effect monad *)

Section MonadLaws.

Context {X : Externals}.
Context {S : Type}.

Lemma bind_ret {A B : Type} (a : A) (k : A -> Py S B) (s : S) :
  bind (ret a) k s = k a s.
Proof. unfold bind, ret. destruct (k a s) as [[r s2] t2]. reflexivity. Qed.

Lemma bind_get {B : Type} (k : S -> Py S B) (s : S) :
  bind get k s = k s s.
Proof. unfold bind, get. destruct (k s s) as [[r s2] t2]. reflexivity. Qed.

Lemma bind_modify {B : Type} (f : S -> S) (k : unit -> Py S B) (s : S) :
  bind (modify f) k s = k tt (f s).
Proof. unfold bind, modify. destruct (k tt (f s)) as [[r s2] t2]. reflexivity. Qed.

Lemma bind_raise {A B : Type} (e : PyError) (k : A -> Py S B) (s : S) :
  bind (raise e) k s = (Raises e, s, []).
Proof. reflexivity. Qed.

Lemma bind_of_result {A B : Type} (r : PyResult A) (k : A -> Py S B) (s : S) :
  bind (of_result r) k s
  = match r with
    | Returns a => k a s
    | Raises e => (Raises e, s, [])
    end.
Proof.
  unfold bind, of_result. destruct r as [a | e]; [ | reflexivity ].
  destruct (k a s) as [[r s2] t2]. reflexivity.
Qed.

Lemma bind_call {B : Type} (ev : Event) (k : unit -> Py S B) (s : S) :
  bind (call ev) k s
  = (result_of (k tt s), state_of (k tt s), ev :: trace_of (k tt s)).
Proof. unfold bind, call. destruct (k tt s) as [[r s2] t2]. reflexivity. Qed.

(** A loop whose body only calls out returns, leaves the object alone and
    makes the calls in order. *)
Lemma for_each_call {A : Type} (l : list A) (f : A -> Event) (s : S) :
  for_each l (fun a => call (f a)) s = (Returns tt, s, map f l).
Proof.
  induction l as [ | a l IH ]; simpl; [ reflexivity | ].
  rewrite bind_call, IH. reflexivity.
Qed.

(** A loop whose body only assigns returns. *)
Lemma for_each_modify {A : Type} (l : list A) (f : A -> S -> S) (s : S) :
  for_each l (fun a => modify (f a)) s
  = (Returns tt, fold_left (fun s a => f a s) l s, []).
Proof.
  revert s. induction l as [ | a l IH ]; intros s; simpl; [ reflexivity | ].
  rewrite bind_modify. apply IH.
Qed.

End MonadLaws.

Create Rewrite HintDb py.

#[local] Hint Rewrite @bind_ret @bind_get @bind_modify @bind_raise
  @bind_of_result @for_each_call : py.

Ltac py_step := autorewrite with py; cbn beta iota.

(** ** The state store *)

Section StateStore.

Context {X : Externals}.

Lemma sorted_nil : Builtins.sorted [] = Returns [].
Proof. reflexivity. Qed.

(** [update] never assigns; it raises exactly when the sort does. *)
Lemma update_eq (s : AppState.t) :
  AppState.update s
  = match Builtins.sorted (AppState.getDataObjects s) with
    | Returns ds =>
        (Returns tt, s, map (fun l => ListenerCall l ds) (AppState.data_object_listeners s))
    | Raises e => (Raises e, s, [])
    end.
Proof.
  unfold AppState.update. py_step.
  destruct (Builtins.sorted (AppState.getDataObjects s)); [ | reflexivity ].
  py_step. reflexivity.
Qed.

Lemma update_state (s : AppState.t) : state_of (AppState.update s) = s.
Proof.
  rewrite update_eq.
  destruct (Builtins.sorted (AppState.getDataObjects s)); reflexivity.
Qed.

(** What [reset] computes, on any state. *)
Lemma reset_eq (s : AppState.t) :
  AppState.reset s
  = (Returns tt,
     AppState.with_t_header None
       (AppState.with_y_header None
          (AppState.with_x_header None
             (AppState.with_split_by_id None
                (AppState.with_split_data_objects []
                   (AppState.with_data_objects [] s))))),
     map (fun l => ListenerCall l []) (AppState.data_object_listeners s)).
Proof.
  unfold AppState.reset. py_step. rewrite update_eq. reflexivity.
Qed.

End StateStore.

(** ** Splitting and trimming *)

Lemma split_length (c : ascii) (s : string) :
  List.length (PyStr.split c s) = S (PyStr.count c s).
Proof.
  induction s as [ | d rest IH ]; simpl; [ reflexivity | ].
  destruct (Ascii.eqb d c); simpl.
  - now rewrite IH.
  - destruct (PyStr.split c rest) as [ | piece pieces ]; simpl in *; congruence.
Qed.

(** Joining the pieces with the separator gives the text back. *)
Lemma join_split (c : ascii) (s : string) :
  PyStr.join (String c "") (PyStr.split c s) = s.
Proof.
  unfold PyStr.join.
  induction s as [ | d rest IH ]; simpl; [ reflexivity | ].
  destruct (Ascii.eqb_spec d c) as [ -> | Hne ].
  - pose proof (split_length c rest) as Hlen.
    destruct (PyStr.split c rest) as [ | piece pieces ]; [ discriminate | ].
    simpl in *. now rewrite IH.
  - pose proof (split_length c rest) as Hlen.
    destruct (PyStr.split c rest) as [ | piece pieces ]; [ discriminate | ].
    simpl in *. destruct pieces; simpl in *; now rewrite <- IH.
Qed.

(** No piece holds the separator. *)
Lemma split_pieces_clean (c : ascii) (s : string) :
  Forall (fun piece => PyStr.count c piece = 0) (PyStr.split c s).
Proof.
  induction s as [ | d rest IH ]; simpl.
  - constructor; [ reflexivity | constructor ].
  - destruct (Ascii.eqb d c) eqn:E.
    + constructor; [ reflexivity | exact IH ].
    + destruct (PyStr.split c rest) as [ | piece pieces ].
      * constructor; [ simpl; now rewrite E | constructor ].
      * inversion IH; subst. constructor; [ simpl; now rewrite E | assumption ].
Qed.

(** White space in front of a text is recognised whatever follows. *)
Lemma starts_with_space_app (p v : string) :
  PyStr.starts_with_space p = true ->
  PyStr.starts_with_space (String.append p v) = true.
Proof.
  destruct p as [ | c1 [ | c2 [ | c3 r3 ] ] ]; simpl; try discriminate.
  - rewrite orb_false_r. intros ->. reflexivity.
  - rewrite orb_false_r. intros H. apply orb_true_iff in H.
    destruct H as [ -> | -> ]; [ reflexivity | ]. simpl. apply orb_true_r.
  - trivial.
Qed.

(** [lstrip] takes a piece off the front and leaves no white space there. *)
Lemma lstrip_spec (n : nat) (s : string) :
  String.length s <= n ->
  PyStr.starts_with_space (PyStr.lstrip s) = false
  /\ exists u, s = String.append u (PyStr.lstrip s).
Proof.
  revert s. induction n as [ | n IH ]; intros s Hlen.
  - destruct s; simpl in Hlen; [ | lia ]. split; [ reflexivity | now exists "" ].
  - destruct s as [ | c1 r1 ]; [ split; [ reflexivity | now exists "" ] | ].
    simpl in Hlen. cbn [PyStr.lstrip].
    destruct (PyStr.space1 c1) eqn:E1.
    { destruct (IH r1) as (Hc & u & Hu); [ lia | ]. split; [ exact Hc | ].
      exists (String c1 u). simpl. now rewrite <- Hu. }
    destruct r1 as [ | c2 r2 ].
    { split; [ simpl; now rewrite E1 | now exists "" ]. }
    simpl in Hlen.
    destruct (PyStr.space2 c1 c2) eqn:E2.
    { destruct (IH r2) as (Hc & u & Hu); [ lia | ]. split; [ exact Hc | ].
      exists (String c1 (String c2 u)). simpl. now rewrite <- Hu. }
    destruct r2 as [ | c3 r3 ].
    { split; [ simpl; now rewrite E1, E2 | now exists "" ]. }
    simpl in Hlen.
    destruct (PyStr.space3 c1 c2 c3) eqn:E3.
    { destruct (IH r3) as (Hc & u & Hu); [ lia | ]. split; [ exact Hc | ].
      exists (String c1 (String c2 (String c3 u))). simpl. now rewrite <- Hu. }
    split; [ simpl; now rewrite E1, E2, E3 | now exists "" ].
Qed.

Lemma lstrip_clean (s : string) : PyStr.starts_with_space (PyStr.lstrip s) = false.
Proof. apply (lstrip_spec (String.length s) s). lia. Qed.

Lemma lstrip_suffix (s : string) : exists u, s = String.append u (PyStr.lstrip s).
Proof. apply (lstrip_spec (String.length s) s). lia. Qed.

(** [rstrip] takes a piece off the end and leaves no white space there. *)
Lemma rstrip_clean (s : string) : no_space_suffix (PyStr.rstrip s) = true.
Proof.
  induction s as [ | c rest IH ]; [ reflexivity | ].
  cbn [PyStr.rstrip]. cbv zeta.
  destruct (PyStr.isspace (String c (PyStr.rstrip rest))) eqn:E; [ reflexivity | ].
  cbn [no_space_suffix]. now rewrite E, IH.
Qed.

Lemma rstrip_prefix (s : string) : exists v, s = String.append (PyStr.rstrip s) v.
Proof.
  induction s as [ | c rest IH ]; [ now exists "" | ].
  cbn [PyStr.rstrip]. cbv zeta.
  destruct (PyStr.isspace (String c (PyStr.rstrip rest))).
  - now exists (String c rest).
  - destruct IH as (v & Hv). exists v. simpl. now rewrite <- Hv.
Qed.

(** A trimmed text neither starts nor ends with a white space character. *)
Lemma strip_clean (s : string) :
  PyStr.starts_with_space (PyStr.strip s) = false
  /\ no_space_suffix (PyStr.strip s) = true.
Proof.
  unfold PyStr.strip. split; [ | apply rstrip_clean ].
  destruct (PyStr.starts_with_space (PyStr.rstrip (PyStr.lstrip s))) eqn:E;
    [ | reflexivity ].
  destruct (rstrip_prefix (PyStr.lstrip s)) as (v & Hv).
  pose proof (starts_with_space_app _ v E) as H. rewrite <- Hv in H.
  now rewrite lstrip_clean in H.
Qed.

(** What the two range setters store: the pieces of the text between its
    commas, each trimmed; there is one piece more than there are commas, so
    the stored list is never empty, and for the empty text it is the list
    holding one empty token. *)
Lemma set_range_splits_and_trims (range_list : string) (s : AppState.t) :
  AppState.x_range (AppState.set_x_range range_list s)
  = map PyStr.strip (PyStr.split "," range_list)
  /\ AppState.y_range (AppState.set_y_range range_list s)
     = map PyStr.strip (PyStr.split "," range_list)
  /\ List.length (AppState.x_range (AppState.set_x_range range_list s))
     = S (PyStr.count "," range_list)
  /\ List.length (AppState.y_range (AppState.set_y_range range_list s))
     = S (PyStr.count "," range_list)
  /\ AppState.x_range (AppState.set_x_range "" s) = [""]
  /\ AppState.y_range (AppState.set_y_range "" s) = [""].
Proof.
  repeat split; simpl; try reflexivity;
    now rewrite length_map, split_length.
Qed.

(** C1, on the code.  [set_x_range("")] and [set_y_range("")] store the list
    holding one empty token, not the empty list.  The guard of
    [getTrajectories] refuses a range that is the empty list, as it is
    before a range was ever set; after the two range boxes were filled in
    and emptied again the guard lets the ranges pass and a trajectory is
    built over the range [[""]]. *)
Theorem set_range_empty_text_defeats_guard :
  (forall s : AppState.t,
      AppState.x_range (AppState.set_x_range "" s) = [""]
      /\ AppState.y_range (AppState.set_y_range "" s) = [""])
  /\ AppState.x_range roles_only = []
  /\ AppState.y_range roles_only = []
  /\ AppControl.getTrajectories (X := Demo.externals) (Demo.control roles_only)
     = Raises (AppError AppControl.msg_set_ranges)
  /\ AppState.x_range ranges_emptied = [""]
  /\ AppState.y_range ranges_emptied = [""]
  /\ AppControl.getTrajectories (X := Demo.externals) (Demo.control ranges_emptied)
     = Returns [ {| traj_x_range := [""]; traj_y_range := [""];
                    states := [("1", "2"); ("3", "4"); ("5", "6")];
                    times := ["0.0"; "1.0"; "0.0"] |} ].
Proof. repeat split. Qed.

Section StateStoreClaims.

Context {X : Externals}.

(** C6.  On every state, [reset] returns; afterwards there are no data
    objects, grouped or not, the grouping key and the three column roles are
    [None], each registered listener has been called once with the empty
    list, and both ranges (and the listener list) are what they were. *)
Theorem reset_clears_all_but_ranges (s : AppState.t) :
  let o := AppState.reset s in
  result_of o = Returns tt
  /\ AppState.getDataObjects (state_of o) = []
  /\ AppState.data_objects (state_of o) = []
  /\ AppState.split_data_objects (state_of o) = []
  /\ AppState.split_by_id (state_of o) = None
  /\ AppState.x_header (state_of o) = None
  /\ AppState.y_header (state_of o) = None
  /\ AppState.t_header (state_of o) = None
  /\ trace_of o = map (fun l => ListenerCall l []) (AppState.data_object_listeners s)
  /\ AppState.data_object_listeners (state_of o) = AppState.data_object_listeners s
  /\ AppState.x_range (state_of o) = AppState.x_range s
  /\ AppState.y_range (state_of o) = AppState.y_range s.
Proof.
  cbv zeta. rewrite reset_eq. repeat split.
Qed.

End StateStoreClaims.

(** ** Reading files *)

Section ReadFile.

Context {X : Externals}.

(** C2, on the code.  The registry built by [__init__] has the key [xls],
    without the dot, where [os.path.splitext] yields [.xls]: the predicate
    rejects the extension of an Excel file and [read_file] raises instead of
    calling [read_xls]. *)
Theorem xls_extension_not_dispatched :
  snd (OsPath.splitext "/data/run1.xls") = ".xls"
  /\ AppControl.canHandle ".xls" AppControl.init = false
  /\ AppControl.canHandle ".csv" AppControl.init = true
  /\ AppControl.canHandle ".traj" AppControl.init = true
  /\ AppControl.canHandle ".tsv" AppControl.init = true
  /\ AppControl.read_file "/data/run1.xls" AppControl.init
     = (Raises (AppError
          "StateSpaceGridApp can't handle file of extension type .xls. Please use one of .csv, .traj, .tsv, xls"),
        AppControl.init, []).
Proof. repeat split. Qed.

(** The same for every path with that extension, as long as the registry
    is the one [__init__] built. *)
Lemma xls_paths_rejected (file_path : string) (self : AppControl.t) :
  snd (OsPath.splitext file_path) = ".xls" ->
  AppControl.file_readers self = AppControl.file_readers AppControl.init ->
  AppControl.canHandle ".xls" self = false
  /\ AppControl.read_file file_path self
     = (Raises (AppError
          "StateSpaceGridApp can't handle file of extension type .xls. Please use one of .csv, .traj, .tsv, xls"),
        self, []).
Proof.
  intros Hext Hreg.
  unfold AppControl.canHandle, AppControl.read_file, AppControl.msg_cannot_handle.
  rewrite bind_get, Hext, Hreg. split; reflexivity.
Qed.

(** C8.  When the extension of the path is not a key of the registry,
    [read_file] raises [AppError] with the message that names the extension
    and lists the registered ones, calls nothing, and leaves the controller,
    and so both collections of data objects, as they were. *)
Theorem read_file_unsupported (file_path : string) (self : AppControl.t)
  (Hnone : AppControl.canHandle (snd (OsPath.splitext file_path)) self = false) :
  let o := AppControl.read_file file_path self in
  result_of o
  = Raises (AppError
      ("StateSpaceGridApp can't handle file of extension type "
       ++ snd (OsPath.splitext file_path) ++ ". Please use one of "
       ++ PyStr.join ", " (AppControl.dict_keys (AppControl.file_readers self))))
  /\ AppState.data_objects (AppControl.state (state_of o))
     = AppState.data_objects (AppControl.state self)
  /\ AppState.split_data_objects (AppControl.state (state_of o))
     = AppState.split_data_objects (AppControl.state self)
  /\ state_of o = self
  /\ trace_of o = [].
Proof.
  cbv zeta. unfold AppControl.read_file. py_step.
  unfold AppControl.canHandle, AppControl.dict_in in Hnone.
  destruct (AppControl.dict_get (snd (OsPath.splitext file_path))
                                (AppControl.file_readers self));
    [ discriminate | ].
  repeat split.
Qed.

End ReadFile.

Lemma read_file_unsupported_witness :
  let o := AppControl.read_file (X := Demo.externals) "/data/run1.xyz" AppControl.init in
  result_of o
  = Raises (AppError
      "StateSpaceGridApp can't handle file of extension type .xyz. Please use one of .csv, .traj, .tsv, xls")
  /\ state_of o = AppControl.init.
Proof.
  pose proof (read_file_unsupported (X := Demo.externals)
                "/data/run1.xyz" AppControl.init eq_refl) as H.
  cbv zeta in H. destruct H as (Hr & _ & _ & Hs & _).
  split; [ exact Hr | exact Hs ].
Defined.

(** ** The order on identifiers *)

Lemma ascii_compare_refl (a : ascii) : Ascii.compare a a = Eq.
Proof. unfold Ascii.compare. apply N.compare_refl. Qed.

Lemma ascii_compare_lt_trans (a b c : ascii) :
  Ascii.compare a b = Lt -> Ascii.compare b c = Lt -> Ascii.compare a c = Lt.
Proof.
  unfold Ascii.compare. rewrite !N.compare_lt_iff. apply N.lt_trans.
Qed.

Lemma string_compare_lt_trans (x y z : string) :
  String.compare x y = Lt -> String.compare y z = Lt -> String.compare x z = Lt.
Proof.
  revert y z. induction x as [ | a x IH ]; intros [ | b y ] [ | c z ]; simpl;
    try discriminate; try reflexivity.
  destruct (Ascii.compare a b) eqn:Eab; try discriminate;
    destruct (Ascii.compare b c) eqn:Ebc; try discriminate; intros Hxy Hyz.
  - apply Ascii.compare_eq_iff in Eab, Ebc. subst.
    rewrite ascii_compare_refl. now apply IH with y.
  - apply Ascii.compare_eq_iff in Eab. subst. now rewrite Ebc.
  - apply Ascii.compare_eq_iff in Ebc. subst. now rewrite Eab.
  - now rewrite (ascii_compare_lt_trans a b c Eab Ebc).
Qed.

Lemma string_ltb_trans (x y z : string) :
  String.ltb x y = true -> String.ltb y z = true -> String.ltb x z = true.
Proof.
  unfold String.ltb. intros Hxy Hyz.
  destruct (String.compare x y) eqn:Exy; try discriminate.
  destruct (String.compare y z) eqn:Eyz; try discriminate.
  now rewrite (string_compare_lt_trans x y z Exy Eyz).
Qed.

Lemma string_leb_cases (x y : string) :
  String.leb x y = true <-> x = y \/ String.ltb x y = true.
Proof.
  unfold String.leb, String.ltb. split.
  - destruct (String.compare x y) eqn:E; intros H; try discriminate.
    + left. now apply String.compare_eq_iff.
    + now right.
  - intros [ -> | H ].
    + destruct (String.compare y y) eqn:E; try reflexivity.
      pose proof (String.compare_antisym y y) as Ha. rewrite E in Ha. discriminate.
    + destruct (String.compare x y); try reflexivity; discriminate.
Qed.

Lemma string_leb_trans (x y z : string) :
  String.leb x y = true -> String.leb y z = true -> String.leb x z = true.
Proof.
  rewrite !string_leb_cases. intros [ -> | Hxy ] [ -> | Hyz ]; auto.
  right. now apply string_ltb_trans with y.
Qed.

Lemma string_ltb_false (x y : string) :
  String.ltb x y = false -> String.leb y x = true.
Proof.
  unfold String.ltb, String.leb. rewrite (String.compare_antisym y x).
  destruct (String.compare x y); simpl; congruence.
Qed.

Lemma string_ltb_false_neq (x y : string) :
  String.ltb x y = false -> x <> y -> String.ltb y x = true.
Proof.
  intros H Hne. apply string_ltb_false in H. apply string_leb_cases in H.
  destruct H as [ -> | H ]; [ contradiction | exact H ].
Qed.

Lemma ident_le_trans (a b c : DataObjectHolder.t) :
  ident_le a b -> ident_le b c -> ident_le a c.
Proof.
  unfold ident_le.
  intros [ Hab | [Eab Iab] ] [ Hbc | [Ebc Ibc] ].
  - left. now apply string_ltb_trans with (file_name b).
  - left. now rewrite <- Ebc.
  - left. now rewrite Eab.
  - right. split; [ congruence | ].
    destruct (group_id a), (group_id b), (group_id c); try tauto.
    now apply string_leb_trans with s0.
Qed.

(** On two holders of the same kind the comparison of the sort returns, and
    its answer is the order on identifiers. *)
Lemma key_lt_same_kind (a b : DataObjectHolder.t) :
  (ungrouped a /\ ungrouped b) \/ (grouped a /\ grouped b) ->
  exists r : bool,
    Builtins.key_lt (Builtins.sort_key a) (Builtins.sort_key b) = Returns r
    /\ (r = true -> ident_le a b)
    /\ (r = false -> ident_le b a).
Proof.
  unfold Builtins.key_lt, Builtins.sort_key, ident_le, ungrouped, grouped,
    group_id, file_name. simpl.
  set (fa := DataObjectIdentifier.filename (DataObjectHolder.filename a)).
  set (fb := DataObjectIdentifier.filename (DataObjectHolder.filename b)).
  intros Hkind.
  destruct (String.eqb_spec fa fb) as [ Heq | Hne ].
  - destruct Hkind as [ [ -> -> ] | [ [x ->] [y ->] ] ].
    + exists false. repeat split; try discriminate. intros _. right. auto.
    + exists (String.ltb x y). split; [ reflexivity | ]. split; intros H; right.
      * split; [ exact Heq | ]. apply string_leb_cases. now right.
      * split; [ now symmetry | ]. now apply string_ltb_false.
  - exists (String.ltb fa fb). split; [ reflexivity | ]. split; intros H.
    + now left.
    + left. now apply string_ltb_false_neq.
Qed.

Lemma uniform_pair (l : list DataObjectHolder.t) (a b : DataObjectHolder.t) :
  uniform l -> In a l -> In b l ->
  (ungrouped a /\ ungrouped b) \/ (grouped a /\ grouped b).
Proof.
  intros [ H | H ] Ha Hb; rewrite Forall_forall in H; [ left | right ]; auto.
Qed.

Lemma uniform_incl (l l' : list DataObjectHolder.t) :
  incl l' l -> uniform l -> uniform l'.
Proof.
  intros Hincl [ H | H ]; [ left | right ];
    rewrite Forall_forall in *; intros d Hd; apply H, Hincl, Hd.
Qed.

(** One insertion. *)
Lemma insort_same_kind (x : DataObjectHolder.t) (done : list DataObjectHolder.t) :
  uniform (x :: done) -> Sorted ident_le done ->
  exists r,
    Builtins.insort x done = Returns r
    /\ Permutation (x :: done) r
    /\ Sorted ident_le r
    /\ (forall z, ident_le z x -> HdRel ident_le z done -> HdRel ident_le z r).
Proof.
  induction done as [ | y done IH ]; intros Hu Hs.
  - exists [x]. simpl. repeat split; auto.
  - simpl.
    destruct (key_lt_same_kind x y) as (r & -> & Htrue & Hfalse).
    { apply uniform_pair with (x :: y :: done); simpl; auto. }
    destruct r.
    + exists (x :: y :: done). repeat split; auto.
    + destruct IH as (r' & -> & Hperm & Hsorted & Hhd).
      { apply uniform_incl with (x :: y :: done); [ | exact Hu ].
        intros d [ -> | Hd ]; simpl; auto. }
      { now inversion Hs. }
      exists (y :: r'). repeat split.
      * rewrite perm_swap. now apply perm_skip.
      * constructor; [ exact Hsorted | ].
        apply Hhd; [ now apply Hfalse | now inversion Hs ].
      * intros z _ Hz. inversion Hz; subst. now constructor.
Qed.

Lemma sorted_from (l acc : list DataObjectHolder.t) :
  uniform (acc ++ l) -> Sorted ident_le acc ->
  exists r,
    fold_left
      (fun acc x =>
         match acc with
         | Returns done => Builtins.insort x done
         | Raises e => Raises e
         end) l (Returns acc) = Returns r
    /\ Permutation (acc ++ l) r
    /\ Sorted ident_le r.
Proof.
  revert acc. induction l as [ | x l IH ]; intros acc Hu Hs.
  - exists acc. rewrite app_nil_r. auto.
  - simpl.
    destruct (insort_same_kind x acc) as (r1 & -> & Hperm1 & Hs1 & _).
    { apply uniform_incl with (acc ++ x :: l); [ | exact Hu ].
      intros d [ -> | Hd ]; apply in_or_app; simpl; auto. }
    { exact Hs. }
    destruct (IH r1) as (r & Hr & Hperm & Hsorted).
    { destruct Hu as [ H | H ]; [ left | right ];
        rewrite Forall_forall in *; intros d Hd; apply H;
        (apply in_app_or in Hd; destruct Hd as [ Hd | Hd ];
         [ apply (Permutation_in d (Permutation_sym Hperm1)) in Hd;
           destruct Hd as [ -> | Hd ]; apply in_or_app; simpl; auto
         | apply in_or_app; simpl; auto ]). }
    { exact Hs1. }
    exists r. split; [ exact Hr | ]. split; [ | exact Hsorted ].
    rewrite <- Hperm, <- Hperm1.
    rewrite <- Permutation_middle. reflexivity.
Qed.

(** On a list of one kind, [sorted] returns a rearrangement of its argument
    in ascending order of (filename, group id). *)
Lemma sorted_same_kind (l : list DataObjectHolder.t) :
  uniform l ->
  exists r,
    Builtins.sorted l = Returns r
    /\ Permutation l r
    /\ StronglySorted ident_le r.
Proof.
  intros Hu. destruct (sorted_from l [] Hu) as (r & Hr & Hperm & Hs).
  { constructor. }
  exists r. repeat split; auto.
  apply Sorted_StronglySorted; [ | exact Hs ].
  intros a b c. apply ident_le_trans.
Qed.

(** ** What the grouping methods compute *)

Section Grouping.

Context {X : Externals}.

Lemma result_of_bind {S A B : Type} (m : Py S A) (k : A -> Py S B) (s : S) :
  result_of (bind m k s)
  = match result_of (m s) with
    | Returns a => result_of (k a (state_of (m s)))
    | Raises e => Raises e
    end.
Proof.
  unfold bind, result_of, state_of. destruct (m s) as [[[a | e] s1] t1]; simpl;
    [ destruct (k a s1) as [[r s2] t2] | ]; reflexivity.
Qed.

Lemma state_of_bind {S A B : Type} (m : Py S A) (k : A -> Py S B) (s : S) :
  state_of (bind m k s)
  = match result_of (m s) with
    | Returns a => state_of (k a (state_of (m s)))
    | Raises _ => state_of (m s)
    end.
Proof.
  unfold bind, result_of, state_of. destruct (m s) as [[[a | e] s1] t1]; simpl;
    [ destruct (k a s1) as [[r s2] t2] | ]; reflexivity.
Qed.

Lemma with_split_same (s : AppState.t) :
  AppState.with_split_data_objects (AppState.split_data_objects s ++ []) s = s.
Proof. destruct s. unfold AppState.with_split_data_objects. simpl. now rewrite app_nil_r. Qed.

Lemma fold_split_append (d : DataObjectHolder.t)
      (groups : list (string * Pandas.DataFrame)) (s : AppState.t) :
  fold_left
    (fun s g =>
       AppState.with_split_data_objects
         (AppState.split_data_objects s ++ [AppState.split_entry d g]) s)
    groups s
  = AppState.with_split_data_objects
      (AppState.split_data_objects s ++ map (AppState.split_entry d) groups) s.
Proof.
  revert s. induction groups as [ | g groups IH ]; intros s; simpl.
  - symmetry. apply with_split_same.
  - rewrite IH. unfold AppState.with_split_data_objects. simpl.
    now rewrite <- app_assoc.
Qed.

(** [_splitByID] appends one entry per group, or raises and appends
    nothing. *)
Lemma splitByID_eq (d : DataObjectHolder.t) (s : AppState.t) :
  AppState._splitByID d s
  = match AppState.split_by_id s with
    | Some column =>
        match Pandas.groupby (DataObjectHolder.data d) column with
        | Returns groups =>
            (Returns tt,
             AppState.with_split_data_objects
               (AppState.split_data_objects s ++ map (AppState.split_entry d) groups) s,
             [])
        | Raises e => (Raises e, s, [])
        end
    | None => (Raises TypeError, s, [])
    end.
Proof.
  unfold AppState._splitByID. rewrite bind_get.
  destruct (AppState.split_by_id s) as [ column | ]; [ | reflexivity ].
  rewrite bind_of_result.
  destruct (Pandas.groupby (DataObjectHolder.data d) column) as [ groups | e ];
    [ | reflexivity ].
  rewrite (for_each_modify groups
             (fun g self =>
                AppState.with_split_data_objects
                  (AppState.split_data_objects self ++ [AppState.split_entry d g]) self)).
  now rewrite fold_split_append.
Qed.

Lemma split_entry_grouped (d : DataObjectHolder.t) (groups : list (string * Pandas.DataFrame)) :
  Forall grouped (map (AppState.split_entry d) groups).
Proof.
  apply Forall_forall. intros e He. apply in_map_iff in He.
  destruct He as (g & <- & _). exists (fst g). reflexivity.
Qed.

Lemma split_entries_grouped (column : string) (d : DataObjectHolder.t) :
  Forall grouped (split_entries column d).
Proof.
  unfold split_entries.
  destruct (Pandas.groupby (DataObjectHolder.data d) column);
    [ apply split_entry_grouped | constructor ].
Qed.

(** Whatever happens in [_splitByID], the state differs from the one
    before by grouped entries appended to [split_data_objects]. *)
Lemma splitByID_shape (d : DataObjectHolder.t) (s : AppState.t) :
  exists added,
    state_of (AppState._splitByID d s)
    = AppState.with_split_data_objects (AppState.split_data_objects s ++ added) s
    /\ Forall grouped added.
Proof.
  rewrite splitByID_eq.
  destruct (AppState.split_by_id s) as [ column | ].
  - destruct (Pandas.groupby (DataObjectHolder.data d) column) as [ groups | e ].
    + exists (map (AppState.split_entry d) groups). split;
        [ reflexivity | apply split_entry_grouped ].
    + exists []. split; [ symmetry; apply with_split_same | constructor ].
  - exists []. split; [ symmetry; apply with_split_same | constructor ].
Qed.

Lemma split_loop_shape (ds : list DataObjectHolder.t) (s : AppState.t) :
  exists added,
    state_of (for_each ds AppState._splitByID s)
    = AppState.with_split_data_objects (AppState.split_data_objects s ++ added) s
    /\ Forall grouped added.
Proof.
  revert s. induction ds as [ | d ds IH ]; intros s.
  - exists []. split; [ symmetry; apply with_split_same | constructor ].
  - simpl. rewrite state_of_bind.
    destruct (splitByID_shape d s) as (added1 & Hs1 & Hg1).
    destruct (result_of (AppState._splitByID d s)).
    + destruct (IH (state_of (AppState._splitByID d s))) as (added2 & Hs2 & Hg2).
      exists (added1 ++ added2). split; [ | now apply Forall_app ].
      rewrite Hs2, Hs1. unfold AppState.with_split_data_objects. simpl.
      now rewrite app_assoc.
    + exists added1. auto.
Qed.

Lemma position_in (name : string) (names : list string) :
  In name names -> exists i, Pandas.position name names = Some i.
Proof.
  induction names as [ | n names IH ]; simpl; [ tauto | ].
  intros Hin. destruct (String.eqb_spec n name) as [ _ | Hne ].
  - now exists 0.
  - destruct Hin as [ Heq | Hin ]; [ contradiction | ].
    destruct (IH Hin) as (i & ->). now exists (S i).
Qed.

Lemma position_not_in (name : string) (names : list string) :
  ~ In name names -> Pandas.position name names = None.
Proof.
  induction names as [ | n names IH ]; simpl; [ reflexivity | ].
  intros Hnot. destruct (String.eqb_spec n name) as [ Heq | Hne ].
  - exfalso. auto.
  - rewrite IH; [ reflexivity | tauto ].
Qed.

Lemma groupby_has_column (column : string) (d : DataObjectHolder.t) :
  has_column column d ->
  exists groups, Pandas.groupby (DataObjectHolder.data d) column = Returns groups.
Proof.
  unfold has_column, Pandas.groupby. intros Hin.
  destruct (position_in _ _ Hin) as (i & ->). eauto.
Qed.

(** When every data object has the grouping column the loop of
    [addSplitByID] returns, having appended the entries of each data object
    in turn. *)
Lemma split_loop_ok (column : string) (ds : list DataObjectHolder.t) (s : AppState.t) :
  AppState.split_by_id s = Some column ->
  Forall (has_column column) ds ->
  for_each ds AppState._splitByID s
  = (Returns tt,
     AppState.with_split_data_objects
       (AppState.split_data_objects s ++ flat_map (split_entries column) ds) s,
     []).
Proof.
  revert s. induction ds as [ | d ds IH ]; intros s Hcol Hall.
  - simpl. unfold ret. now rewrite with_split_same.
  - inversion Hall as [ | d' ds' Hd Hds ]; subst. simpl.
    unfold bind at 1. rewrite splitByID_eq, Hcol.
    unfold split_entries at 1.
    destruct (groupby_has_column column d Hd) as (groups & ->).
    rewrite IH; [ | exact Hcol | exact Hds ].
    unfold AppState.with_split_data_objects. simpl.
    now rewrite <- app_assoc.
Qed.

(** [addSplitByID] with the empty name. *)
Lemma addSplitByID_empty (s : AppState.t) :
  AppState.addSplitByID "" s
  = AppState.update
      (AppState.with_split_by_id None (AppState.with_split_data_objects [] s)).
Proof.
  unfold AppState.addSplitByID. simpl. now rewrite !bind_modify.
Qed.

(** [addSplitByID] with a column every data object has. *)
Lemma addSplitByID_ok (id : string) (s : AppState.t) :
  id <> "" ->
  Forall (has_column id) (AppState.data_objects s) ->
  AppState.addSplitByID id s
  = AppState.update
      (AppState.with_split_data_objects
         (flat_map (split_entries id) (AppState.data_objects s))
         (AppState.with_split_by_id (Some id) s)).
Proof.
  intros Hid Hall. unfold AppState.addSplitByID.
  apply String.eqb_neq in Hid. rewrite Hid.
  rewrite bind_modify. unfold bind at 1.
  rewrite bind_modify, bind_get.
  rewrite (split_loop_ok id); [ | reflexivity | exact Hall ].
  simpl.
  change (AppState.with_split_data_objects
            (flat_map (split_entries id) (AppState.data_objects s))
            (AppState.with_split_by_id (Some id)
               (AppState.with_split_data_objects [] s)))
    with (AppState.with_split_data_objects
            (flat_map (split_entries id) (AppState.data_objects s))
            (AppState.with_split_by_id (Some id) s)).
  now destruct (AppState.update _) as [[r s2] t2].
Qed.

End Grouping.

(** ** Each notifying call either raises before [update] or ends in it *)

Section Outcomes.

Context {X : Externals}.

Lemma bind_returned {S A B : Type} (m : Py S A) (k : A -> Py S B) (s s1 : S) (a : A) :
  m s = (Returns a, s1, []) -> bind m k s = k a s1.
Proof.
  intros H. unfold bind. rewrite H. now destruct (k a s1) as [[r s2] t2].
Qed.

Lemma bind_raised {S A B : Type} (m : Py S A) (k : A -> Py S B) (s s1 : S)
      (e : PyError) (t : list Event) :
  m s = (Raises e, s1, t) -> bind m k s = (Raises e, s1, t).
Proof. intros H. unfold bind. now rewrite H. Qed.

Lemma split_loop_quiet (ds : list DataObjectHolder.t) (s : AppState.t) :
  trace_of (for_each ds AppState._splitByID s) = [].
Proof.
  revert s. induction ds as [ | d ds IH ]; intros s; [ reflexivity | ].
  simpl. unfold bind. rewrite splitByID_eq.
  destruct (AppState.split_by_id s) as [ column | ]; [ | reflexivity ].
  destruct (Pandas.groupby (DataObjectHolder.data d) column) as [ groups | e ];
    [ | reflexivity ].
  match goal with
  | |- context [ for_each ds AppState._splitByID ?s1 ] =>
      specialize (IH s1); destruct (for_each ds AppState._splitByID s1) as [[r s2] t2]
  end.
  simpl in *. exact IH.
Qed.

Lemma addDataObject_cases (file_path : string) (data : Pandas.DataFrame) (s : AppState.t) :
  exists added,
    Forall grouped added
    /\ raised_or_notified
         (AppState.addDataObject file_path data s)
         (AppState.with_split_data_objects
            (AppState.split_data_objects s ++ added)
            (AppState.with_data_objects
               (AppState.data_objects s ++ [AppState.new_holder file_path data]) s)).
Proof.
  unfold AppState.addDataObject.
  rewrite bind_modify, bind_get.
  set (s1 := AppState.with_data_objects _ s).
  destruct (AppState.truthy (AppState.split_by_id s1)).
  - pose proof (splitByID_eq (AppState.new_holder file_path data) s1) as Heq.
    destruct (AppState.split_by_id s1) as [ column | ].
    + destruct (Pandas.groupby _ column) as [ groups | e ].
      * exists (map (AppState.split_entry (AppState.new_holder file_path data)) groups).
        split; [ apply split_entry_grouped | ]. right.
        now rewrite (bind_returned _ _ _ _ _ Heq).
      * exists []. split; [ constructor | ]. left. exists e.
        rewrite (bind_raised _ _ _ _ _ _ Heq).
        change (AppState.split_data_objects s) with (AppState.split_data_objects s1).
        now rewrite with_split_same.
    + exists []. split; [ constructor | ]. left. exists TypeError.
      rewrite (bind_raised _ _ _ _ _ _ Heq).
      change (AppState.split_data_objects s) with (AppState.split_data_objects s1).
      now rewrite with_split_same.
  - exists []. split; [ constructor | ]. right. rewrite bind_ret.
    change (AppState.split_data_objects s) with (AppState.split_data_objects s1).
    now rewrite with_split_same.
Qed.

Lemma addSplitByID_cases (id : string) (s : AppState.t) :
  exists added key,
    Forall grouped added
    /\ raised_or_notified
         (AppState.addSplitByID id s)
         (AppState.with_split_data_objects added (AppState.with_split_by_id key s)).
Proof.
  destruct (String.eqb_spec id "") as [ -> | Hid ].
  - exists [], None. split; [ constructor | ]. right. apply addSplitByID_empty.
  - unfold AppState.addSplitByID. apply String.eqb_neq in Hid. rewrite Hid.
    rewrite bind_modify.
    set (s1 := AppState.with_split_data_objects [] s).
    set (s2 := AppState.with_split_by_id (Some id) s1).
    destruct (split_loop_shape (AppState.data_objects s2) s2) as (added & Hstate & Hg).
    pose proof (split_loop_quiet (AppState.data_objects s2) s2) as Hquiet.
    exists added, (Some id). split; [ exact Hg | ].
    assert (Hloop :
      (bind (modify (AppState.with_split_by_id (Some id)))
            (fun _ => bind get (fun self =>
               for_each (AppState.data_objects self) AppState._splitByID))) s1
      = for_each (AppState.data_objects s2) AppState._splitByID s2).
    { now rewrite bind_modify, bind_get. }
    destruct (for_each (AppState.data_objects s2) AppState._splitByID s2)
      as [[[ [] | e ] s3] t3] eqn:E; unfold state_of, trace_of in Hstate, Hquiet;
      simpl in Hstate, Hquiet; rewrite Hquiet, Hstate in *.
    + right. now rewrite (bind_returned _ _ _ _ _ Hloop).
    + left. exists e. now rewrite (bind_raised _ _ _ _ _ _ Hloop).
Qed.

Lemma raised_or_notified_state (o : PyResult unit * AppState.t * list Event)
      (s' : AppState.t) :
  raised_or_notified o s' -> state_of o = s'.
Proof.
  intros [ (e & ->) | -> ]; [ reflexivity | apply update_state ].
Qed.

(** ** The two collections keep their kinds *)

Lemma select_at_kind (P : DataObjectHolder.t -> Prop) (index : nat) (b : bool)
      (l : list DataObjectHolder.t) :
  (forall d, P d -> P (DataObjectHolder.setSelected b d)) ->
  Forall P l -> Forall P (Session.select_at index b l).
Proof.
  intros HP. revert index. induction l as [ | d l IH ]; intros index Hl; simpl.
  - destruct index; constructor.
  - inversion Hl; subst. destruct index; constructor; auto.
Qed.

Lemma run_consistent (op : Session.Op) (s : AppState.t) :
  ids_consistent s -> ids_consistent (state_of (Session.run op s)).
Proof.
  intros [Hd Hs]. destruct op; simpl; try (split; assumption).
  - destruct (addDataObject_cases file_path data s) as (added & Hg & Hcase).
    rewrite (raised_or_notified_state _ _ Hcase). split; simpl.
    + apply Forall_app. split; [ exact Hd | ]. repeat constructor.
    + apply Forall_app. now split.
  - destruct (addSplitByID_cases id s) as (added & key & Hg & Hcase).
    rewrite (raised_or_notified_state _ _ Hcase). split; simpl; assumption.
  - rewrite reset_eq. split; constructor.
  - destruct in_split; split; simpl; try assumption;
      apply select_at_kind; auto.
Qed.

Lemma init_consistent : ids_consistent AppState.init.
Proof. split; constructor. Qed.

Lemma run_all_consistent (ops : list Session.Op) (s : AppState.t) :
  ids_consistent s -> ids_consistent (Session.run_all ops s).
Proof.
  revert s. induction ops as [ | op ops IH ]; intros s Hs; simpl; [ exact Hs | ].
  apply IH, run_consistent, Hs.
Qed.

Lemma consistent_uniform (s : AppState.t) :
  ids_consistent s -> uniform (AppState.getDataObjects s).
Proof.
  intros [Hd Hs]. unfold AppState.getDataObjects.
  destruct (AppState.split_data_objects s); [ now left | now right ].
Qed.

End Outcomes.

(** ** Claims on the state store *)

Section SessionClaims.

Context {X : Externals}.

(** C10.  After any sequence of calls on a fresh state, every entry of
    [data_objects] has the group id [None] and every entry of
    [split_data_objects] has a group id that is a string; so the list
    [getDataObjects] returns is of one kind. *)
Theorem identifiers_never_mixed (ops : list Session.Op) :
  let s := Session.run_all ops AppState.init in
  Forall (fun d => DataObjectIdentifier.id (DataObjectHolder.filename d) = None)
         (AppState.data_objects s)
  /\ Forall (fun d => exists g : string,
                 DataObjectIdentifier.id (DataObjectHolder.filename d) = Some g)
            (AppState.split_data_objects s)
  /\ (Forall ungrouped (AppState.getDataObjects s)
      \/ Forall grouped (AppState.getDataObjects s)).
Proof.
  cbv zeta.
  pose proof (run_all_consistent ops AppState.init init_consistent) as Hc.
  destruct (consistent_uniform _ Hc) as [ Hu | Hg ];
    destruct Hc as [Hd Hs]; repeat split; auto.
Qed.

(** What a notification carries when the state is of consistent kinds. *)
Lemma update_consistent (s : AppState.t) :
  ids_consistent s ->
  exists ds,
    AppState.update s
    = (Returns tt, s, map (fun l => ListenerCall l ds) (AppState.data_object_listeners s))
    /\ Permutation (AppState.getDataObjects s) ds
    /\ StronglySorted ident_le ds.
Proof.
  intros Hc. destruct (sorted_same_kind _ (consistent_uniform _ Hc)) as (ds & Hs & Hp & Hss).
  exists ds. rewrite update_eq, Hs. auto.
Qed.

Lemma run_cases (op : Session.Op) (s : AppState.t) :
  ids_consistent s ->
  if Session.notifies op then
    raised_or_notified (Session.run op s) (state_of (Session.run op s))
  else trace_of (Session.run op s) = [].
Proof.
  intros Hc. destruct op; simpl; try reflexivity.
  - destruct (addDataObject_cases file_path data s) as (added & _ & Hcase).
    now rewrite (raised_or_notified_state _ _ Hcase).
  - destruct (addSplitByID_cases id s) as (added & key & _ & Hcase).
    now rewrite (raised_or_notified_state _ _ Hcase).
  - right. rewrite reset_eq. simpl. now rewrite update_eq.
Qed.

(** C9.  In a session, whatever call comes next: every listener call it
    makes carries the data objects in effect after the call, rearranged in
    ascending order of (filename, group id); and when the call is one of
    [addDataObject], [addSplitByID], [reset] and returns, every registered
    listener has been called exactly once, in registration order, with that
    one list. *)
Theorem notification_sorted (ops : list Session.Op) (op : Session.Op) :
  let s := Session.run_all ops AppState.init in
  let o := Session.run op s in
  (forall listener ds,
      In (ListenerCall listener ds) (trace_of o) ->
      In listener (AppState.data_object_listeners (state_of o))
      /\ Permutation (AppState.getDataObjects (state_of o)) ds
      /\ StronglySorted ident_le ds)
  /\ (Session.notifies op = true ->
      result_of o = Returns tt ->
      exists ds,
        trace_of o
        = map (fun l => ListenerCall l ds) (AppState.data_object_listeners (state_of o))
        /\ Permutation (AppState.getDataObjects (state_of o)) ds
        /\ StronglySorted ident_le ds).
Proof.
  cbv zeta.
  pose proof (run_all_consistent ops AppState.init init_consistent) as Hc.
  set (s := Session.run_all ops AppState.init) in *.
  pose proof (run_consistent op s Hc) as Hc'.
  pose proof (run_cases op s Hc) as Hcases.
  destruct (update_consistent _ Hc') as (ds & Hupd & Hperm & Hsorted).
  destruct (Session.notifies op).
  - destruct Hcases as [ (e & Ho) | Ho ]; rewrite Ho.
    + split; [ intros l ds' [] | intros _ Hr; discriminate Hr ].
    + rewrite Hupd. simpl. split.
      * intros l ds' Hin. apply in_map_iff in Hin.
        destruct Hin as (l' & Heq & Hl). inversion Heq; subst. auto.
      * intros _ _. exists ds. auto.
  - rewrite Hcases. split; [ intros l ds' [] | discriminate ].
Qed.

End SessionClaims.

(** ** Grouping by a column *)

Lemma insert_key_perm (k : string) (ks : list string) :
  Permutation (k :: ks) (Pandas.insert_key k ks).
Proof.
  induction ks as [ | k' ks IH ]; simpl; [ reflexivity | ].
  destruct (String.ltb k k'); [ reflexivity | ].
  rewrite perm_swap. now apply perm_skip.
Qed.

Lemma sort_keys_perm (ks : list string) : Permutation ks (Pandas.sort_keys ks).
Proof.
  induction ks as [ | k ks IH ]; simpl; [ reflexivity | ].
  rewrite <- insert_key_perm. now apply perm_skip.
Qed.

Lemma unique_nodup (series : list Pandas.cell) : NoDup (Pandas.unique series).
Proof. apply NoDup_nodup. Qed.

Lemma flat_map_length_sum {A B : Type} (f : A -> list B) (l : list A) :
  List.length (flat_map f l) = list_sum (map (fun a => List.length (f a)) l).
Proof.
  induction l as [ | a l IH ]; simpl; [ reflexivity | ].
  now rewrite length_app, IH.
Qed.

(** The entries one data object contributes: its file name on each, and as
    group ids the distinct values of the column, ascending. *)
Lemma split_entries_ids (column : string) (d : DataObjectHolder.t) :
  has_column column d ->
  map group_id (split_entries column d)
  = map Some (Pandas.sort_keys (distinct_values column (DataObjectHolder.data d)))
  /\ Forall (fun e => file_name e = file_name d) (split_entries column d).
Proof.
  unfold has_column, split_entries, distinct_values, Pandas.groupby, Pandas.getitem.
  intros Hin. destruct (position_in _ _ Hin) as (i & ->). split.
  - rewrite !map_map. reflexivity.
  - apply Forall_forall. intros e He. rewrite map_map in He.
    apply in_map_iff in He. now destruct He as (k & <- & _).
Qed.

Lemma split_entries_count (column : string) (d : DataObjectHolder.t) :
  has_column column d ->
  List.length (split_entries column d)
  = distinct_count column (DataObjectHolder.data d).
Proof.
  intros Hcol. destruct (split_entries_ids column d Hcol) as [Hids _].
  apply (f_equal (@List.length _)) in Hids. rewrite !length_map in Hids.
  rewrite Hids. unfold distinct_count.
  symmetry. apply Permutation_length, sort_keys_perm.
Qed.

Lemma split_all_count (column : string) (ds : list DataObjectHolder.t) :
  Forall (has_column column) ds ->
  List.length (flat_map (split_entries column) ds) = sum_distinct column ds.
Proof.
  intros Hall. rewrite flat_map_length_sum. unfold sum_distinct. f_equal.
  apply map_ext_in. intros d Hd. apply split_entries_count.
  rewrite Forall_forall in Hall. auto.
Qed.

Section GroupingClaim.

Context {X : Externals}.

(** C5, as the code has it.  In a session whose data objects all have the
    column, [addSplitByID] with a non-empty column name returns and leaves in
    [split_data_objects] one entry per data object and distinct value of the
    column (the file name of the data object, the value as group id), their
    number the sum of the distinct-value counts.  [getDataObjects] then
    returns these entries if there is at least one, and the ungrouped data
    objects if there is none.  A following [addSplitByID("")] returns and
    makes [getDataObjects] return the original data objects. *)
Theorem grouping_counts (ops : list Session.Op) (id : string)
  (Hid : id <> "")
  (Hcols : Forall (has_column id)
                  (AppState.data_objects (Session.run_all ops AppState.init))) :
  let s := Session.run_all ops AppState.init in
  let o := AppState.addSplitByID id s in
  let o' := AppState.addSplitByID "" (state_of o) in
  result_of o = Returns tt
  /\ AppState.data_objects (state_of o) = AppState.data_objects s
  /\ AppState.split_data_objects (state_of o)
     = flat_map (split_entries id) (AppState.data_objects s)
  /\ (forall d, In d (AppState.data_objects s) ->
        map group_id (split_entries id d)
        = map Some (Pandas.sort_keys (distinct_values id (DataObjectHolder.data d)))
        /\ Forall (fun e => file_name e = file_name d) (split_entries id d))
  /\ List.length (AppState.split_data_objects (state_of o))
     = sum_distinct id (AppState.data_objects s)
  /\ (sum_distinct id (AppState.data_objects s) <> 0 ->
      AppState.getDataObjects (state_of o) = AppState.split_data_objects (state_of o)
      /\ AppState.getDataObjects (state_of o)
         = flat_map (split_entries id) (AppState.data_objects s)
      /\ List.length (AppState.getDataObjects (state_of o))
         = sum_distinct id (AppState.data_objects s))
  /\ (sum_distinct id (AppState.data_objects s) = 0 ->
      AppState.getDataObjects (state_of o) = AppState.data_objects s)
  /\ result_of o' = Returns tt
  /\ AppState.getDataObjects (state_of o') = AppState.data_objects s
  /\ List.length (AppState.getDataObjects (state_of o'))
     = List.length (AppState.data_objects s).
Proof.
  cbv zeta.
  pose proof (run_all_consistent ops AppState.init init_consistent) as Hc.
  set (s := Session.run_all ops AppState.init) in *.
  pose proof (run_consistent (Session.AddSplitByID id) s Hc) as Hc1.
  simpl in Hc1.
  rewrite (addSplitByID_ok id s Hid Hcols) in *.
  rewrite update_state in *.
  set (s1 := AppState.with_split_data_objects _ _) in *.
  destruct (update_consistent s1 Hc1) as (ds & Hupd & _).
  pose proof (split_all_count id (AppState.data_objects s) Hcols) as Hcount.
  assert (Hc2 : ids_consistent
                  (AppState.with_split_by_id None
                     (AppState.with_split_data_objects [] s1))).
  { destruct Hc as [Hd _]. split; [ exact Hd | constructor ]. }
  destruct (update_consistent _ Hc2) as (ds' & Hupd' & _).
  rewrite addSplitByID_empty, update_state.
  split; [ now rewrite Hupd | ].
  split; [ reflexivity | ].
  split; [ reflexivity | ].
  split.
  { intros d Hd. apply split_entries_ids. rewrite Forall_forall in Hcols. auto. }
  split; [ exact Hcount | ].
  split.
  { intros Hpos. unfold AppState.getDataObjects. simpl.
    destruct (flat_map (split_entries id) (AppState.data_objects s)) eqn:E;
      [ simpl in Hcount; congruence | ].
    split; [ reflexivity | split; [ reflexivity | exact Hcount ] ]. }
  split.
  { intros Hzero. unfold AppState.getDataObjects. simpl.
    destruct (flat_map (split_entries id) (AppState.data_objects s)) eqn:E;
      [ reflexivity | simpl in Hcount; congruence ]. }
  split; [ now rewrite Hupd' | ].
  split; reflexivity.
Qed.

End GroupingClaim.

(** C5, as stated, fails: one data object whose table has the column [ID]
    and no rows has no distinct value, yet after [addSplitByID("ID")] the
    data objects in effect are one, not none. *)
Lemma grouping_empty_table_falls_back :
  let s := Session.run_all (X := Demo.externals)
             [Session.AddDataObject "/data/empty.csv" Demo.empty_table] AppState.init in
  let o := AppState.addSplitByID (X := Demo.externals) "ID" s in
  result_of o = Returns tt
  /\ sum_distinct "ID" (AppState.data_objects s) = 0
  /\ List.length (AppState.getDataObjects (state_of o)) = 1
  /\ List.length (AppState.getDataObjects (state_of o))
     <> sum_distinct "ID" (AppState.data_objects s).
Proof. cbv zeta. repeat split. vm_compute. discriminate. Qed.

Lemma grouping_counts_witness :
  let s := Session.run_all (X := Demo.externals)
             [Session.AddDataObject "/data/run1.csv" Demo.table] AppState.init in
  let o := AppState.addSplitByID (X := Demo.externals) "ID" s in
  List.length (AppState.getDataObjects (state_of o)) = 2
  /\ AppState.getDataObjects
       (state_of (AppState.addSplitByID (X := Demo.externals) "" (state_of o)))
     = AppState.data_objects s.
Proof.
  assert (Hid : "ID" <> "") by discriminate.
  assert (Hcols : Forall (has_column "ID")
            (AppState.data_objects
               (Session.run_all (X := Demo.externals)
                  [Session.AddDataObject "/data/run1.csv" Demo.table] AppState.init))).
  { vm_compute. constructor; [ | constructor ]. do 3 right. left. reflexivity. }
  pose proof (grouping_counts (X := Demo.externals)
                [Session.AddDataObject "/data/run1.csv" Demo.table] "ID" Hid Hcols) as H.
  cbv zeta in H. destruct H as (_ & _ & _ & _ & _ & Hgrouped & _ & _ & Hback & _).
  cbv zeta. split; [ | exact Hback ].
  destruct Hgrouped as (_ & _ & Hlen); [ discriminate | ].
  rewrite Hlen. reflexivity.
Defined.

(** ** The controller: trajectories *)

Section Trajectories.

Context {X : Externals}.

Lemma astype_float_returns (values : list string) :
  (exists fs, AppControl.astype_float values = Returns fs)
  <-> Forall (fun v => parse_float v <> None) values.
Proof.
  induction values as [ | v values IH ]; simpl.
  - split; [ constructor | eauto ].
  - destruct (parse_float v) as [ f | ] eqn:E.
    + split.
      * intros (fs & Hfs). constructor; [ congruence | ]. apply IH.
        destruct (AppControl.astype_float values); [ eauto | discriminate ].
      * intros H. inversion H; subst.
        destruct (proj2 IH) as (fs & ->); [ assumption | ]. simpl. eauto.
    + split.
      * intros (fs & Hfs). discriminate.
      * intros H. inversion H; subst. congruence.
Qed.

Lemma astype_float_error (values : list string) (e : PyError) :
  AppControl.astype_float values = Raises e -> exists v, e = ValueError v.
Proof.
  induction values as [ | v values IH ]; simpl; [ discriminate | ].
  destruct (parse_float v); [ | intros H; inversion H; eauto ].
  destruct (AppControl.astype_float values); simpl; [ discriminate | ].
  intros H. inversion H; subst. now apply IH.
Qed.

Lemma getitem_returns (df : Pandas.DataFrame) (name : string) :
  (exists series, Pandas.getitem df name = Returns series)
  <-> In name (Pandas.columns df).
Proof.
  unfold Pandas.getitem. split.
  - intros (series & H).
    destruct (in_dec string_dec name (Pandas.columns df)) as [ Hin | Hnot ];
      [ assumption | ].
    rewrite (position_not_in _ _ Hnot) in H. discriminate.
  - intros Hin. destruct (position_in _ _ Hin) as (i & ->). eauto.
Qed.

Lemma getitem_error (df : Pandas.DataFrame) (name : string) (e : PyError) :
  Pandas.getitem df name = Raises e -> e = KeyError name.
Proof.
  unfold Pandas.getitem. destruct (Pandas.position name (Pandas.columns df));
    [ discriminate | congruence ].
Qed.

(** One trajectory is built exactly from a readable data object. *)
Lemma trajectory_of_returns (st : AppState.t) (xh yh th : string)
      (d : DataObjectHolder.t) :
  (exists traj, AppControl.trajectory_of st xh yh th d = Returns traj)
  <-> readable xh yh th d.
Proof.
  unfold AppControl.trajectory_of, readable, has_column.
  rewrite <- !getitem_returns.
  destruct (Pandas.getitem (DataObjectHolder.data d) xh) as [ xs | ex ]; simpl.
  2:{ split; [ intros (t & H); discriminate | intros ((s & H) & _); discriminate ]. }
  destruct (Pandas.getitem (DataObjectHolder.data d) yh) as [ ys | ey ]; simpl.
  2:{ split; [ intros (t & H); discriminate | intros (_ & (s & H) & _); discriminate ]. }
  destruct (Pandas.getitem (DataObjectHolder.data d) th) as [ ts | et ]; simpl.
  2:{ split; [ intros (t & H); discriminate | intros (_ & _ & (s & H) & _); discriminate ]. }
  rewrite <- astype_float_returns.
  destruct (AppControl.astype_float (Pandas.dropna ts)) as [ fs | e ]; simpl.
  - split; eauto 10.
  - split; [ intros (t & H); discriminate | intros (_ & _ & _ & (s & H)); discriminate ].
Qed.

Lemma trajectory_of_error (st : AppState.t) (xh yh th : string)
      (d : DataObjectHolder.t) (e : PyError) :
  AppControl.trajectory_of st xh yh th d = Raises e ->
  exists text, e = KeyError text \/ e = ValueError text.
Proof.
  unfold AppControl.trajectory_of.
  destruct (Pandas.getitem (DataObjectHolder.data d) xh) as [ xs | ex ] eqn:Ex; simpl.
  2:{ intros H. inversion H; subst. apply getitem_error in Ex. eauto. }
  destruct (Pandas.getitem (DataObjectHolder.data d) yh) as [ ys | ey ] eqn:Ey; simpl.
  2:{ intros H. inversion H; subst. apply getitem_error in Ey. eauto. }
  destruct (Pandas.getitem (DataObjectHolder.data d) th) as [ ts | et ] eqn:Et; simpl.
  2:{ intros H. inversion H; subst. apply getitem_error in Et. eauto. }
  destruct (AppControl.astype_float (Pandas.dropna ts)) as [ fs | e' ] eqn:Ef; simpl;
    [ discriminate | ].
  intros H. inversion H; subst. apply astype_float_error in Ef.
  destruct Ef as (v & ->). eauto.
Qed.

Lemma comprehension_returns {A B : Type} (f : A -> PyResult B) (l : list A) :
  (exists bs, AppControl.comprehension f l = Returns bs)
  <-> Forall (fun a => exists b, f a = Returns b) l.
Proof.
  induction l as [ | a l IH ]; simpl.
  - split; [ constructor | eauto ].
  - destruct (f a) as [ b | e ] eqn:E; simpl.
    + destruct (AppControl.comprehension f l) as [ bs | e ]; simpl.
      * split; [ | eauto ]. intros _. constructor; [ eauto | ]. apply IH. eauto.
      * split; [ intros (bs & H); discriminate | ].
        intros H. inversion H as [ | a' l' Ha Hl ]; subst.
        apply IH in Hl. destruct Hl; discriminate.
    + split; [ intros (bs & H); discriminate | ].
      intros H. inversion H as [ | a' l' Ha Hl ]; subst.
      destruct Ha as (b & Hb). congruence.
Qed.

Lemma comprehension_length {A B : Type} (f : A -> PyResult B) (l : list A) (bs : list B) :
  AppControl.comprehension f l = Returns bs -> List.length bs = List.length l.
Proof.
  revert bs. induction l as [ | a l IH ]; simpl; intros bs H.
  - now inversion H.
  - destruct (f a); simpl in H; [ | discriminate ].
    destruct (AppControl.comprehension f l); simpl in H; [ | discriminate ].
    inversion H; subst. simpl. f_equal. now apply IH.
Qed.

Lemma comprehension_error {A B : Type} (f : A -> PyResult B) (l : list A) (e : PyError) :
  AppControl.comprehension f l = Raises e -> exists a, In a l /\ f a = Raises e.
Proof.
  induction l as [ | a l IH ]; simpl; [ discriminate | ].
  destruct (f a) as [ b | e' ] eqn:E; simpl.
  - destruct (AppControl.comprehension f l); simpl; [ discriminate | ].
    intros H. inversion H; subst. destruct IH as (a' & Hin & Ha'); eauto.
  - intros H. inversion H; subst. eauto.
Qed.

Lemma is_empty_nil {A : Type} (l : list A) : AppControl.is_empty l = true <-> l = [].
Proof. destruct l; simpl; split; congruence. Qed.

(** Past its two guards, [getTrajectories] is the comprehension. *)
Lemma getTrajectories_configured (self : AppControl.t) (xh yh th : string) :
  AppState.x_header (AppControl.state self) = Some xh ->
  AppState.y_header (AppControl.state self) = Some yh ->
  AppState.t_header (AppControl.state self) = Some th ->
  AppState.x_range (AppControl.state self) <> [] ->
  AppState.y_range (AppControl.state self) <> [] ->
  AppControl.getTrajectories self
  = AppControl.comprehension
      (AppControl.trajectory_of (AppControl.state self) xh yh th)
      (filter DataObjectHolder.selected
              (AppState.getDataObjects (AppControl.state self))).
Proof.
  intros Hx Hy Ht Hxr Hyr. unfold AppControl.getTrajectories.
  rewrite Hx, Hy, Ht.
  destruct (AppState.x_range (AppControl.state self)); [ congruence | ].
  destruct (AppState.y_range (AppControl.state self)); [ congruence | ].
  reflexivity.
Qed.

(** C4, as the code has it.  [getTrajectories] raises the [AppError] of a
    missing configuration exactly when a column role is [None] or a range
    list is empty.  Otherwise it never raises [AppError]: it returns one
    trajectory per selected data object in effect when each of them is
    readable, and raises the [KeyError] or [ValueError] of pandas when one
    is not. *)
Theorem getTrajectories_errors (self : AppControl.t) :
  ((exists message, AppControl.getTrajectories self = Raises (AppError message))
   <-> unconfigured (AppControl.state self))
  /\ (forall xh yh th,
        AppState.x_header (AppControl.state self) = Some xh ->
        AppState.y_header (AppControl.state self) = Some yh ->
        AppState.t_header (AppControl.state self) = Some th ->
        AppState.x_range (AppControl.state self) <> [] ->
        AppState.y_range (AppControl.state self) <> [] ->
        let chosen := filter DataObjectHolder.selected
                             (AppState.getDataObjects (AppControl.state self)) in
        ((exists trajectories, AppControl.getTrajectories self = Returns trajectories)
         <-> Forall (readable xh yh th) chosen)
        /\ (forall trajectories,
              AppControl.getTrajectories self = Returns trajectories ->
              List.length trajectories = List.length chosen)
        /\ (forall e,
              AppControl.getTrajectories self = Raises e ->
              exists text, e = KeyError text \/ e = ValueError text)).
Proof.
  assert (Hconf : forall xh yh th,
        AppState.x_header (AppControl.state self) = Some xh ->
        AppState.y_header (AppControl.state self) = Some yh ->
        AppState.t_header (AppControl.state self) = Some th ->
        AppState.x_range (AppControl.state self) <> [] ->
        AppState.y_range (AppControl.state self) <> [] ->
        forall e, AppControl.getTrajectories self = Raises e ->
                  exists text, e = KeyError text \/ e = ValueError text).
  { intros xh yh th Hx Hy Ht Hxr Hyr e.
    rewrite (getTrajectories_configured self xh yh th Hx Hy Ht Hxr Hyr).
    intros He. apply comprehension_error in He. destruct He as (d & _ & Hd).
    now apply trajectory_of_error in Hd. }
  split.
  - unfold unconfigured. split.
    + intros (message & Hm).
      destruct (AppState.x_header (AppControl.state self)) as [ xh | ] eqn:Hx; [ | tauto ].
      destruct (AppState.y_header (AppControl.state self)) as [ yh | ] eqn:Hy; [ | tauto ].
      destruct (AppState.t_header (AppControl.state self)) as [ th | ] eqn:Ht; [ | tauto ].
      destruct (AppState.x_range (AppControl.state self)) as [ | x xr ] eqn:Hxr; [ tauto | ].
      destruct (AppState.y_range (AppControl.state self)) as [ | y yr ] eqn:Hyr; [ tauto | ].
      exfalso.
      destruct (Hconf xh yh th eq_refl eq_refl eq_refl) with (e := AppError message)
        as (text & [ H | H ]); try discriminate; try assumption.
    + unfold AppControl.getTrajectories.
      intros [ -> | [ -> | [ -> | [ -> | -> ] ] ] ];
        repeat match goal with
               | |- context [ match ?h with Some _ => _ | None => _ end ] => destruct h
               end;
        simpl; rewrite ?orb_true_r; eauto.
  - intros xh yh th Hx Hy Ht Hxr Hyr chosen. split; [ | split ].
    + rewrite (getTrajectories_configured self xh yh th Hx Hy Ht Hxr Hyr).
      rewrite comprehension_returns. subst chosen.
      rewrite !Forall_forall. split; intros H d Hd.
      * apply (proj1 (trajectory_of_returns (AppControl.state self) xh yh th d)). auto.
      * apply (proj2 (trajectory_of_returns (AppControl.state self) xh yh th d)). auto.
    + intros trajectories.
      rewrite (getTrajectories_configured self xh yh th Hx Hy Ht Hxr Hyr).
      apply comprehension_length.
    + apply (Hconf xh yh th Hx Hy Ht Hxr Hyr).
Qed.

End Trajectories.

(** C4, as stated, fails: with the three roles and both ranges set,
    [getTrajectories] on a selected data object that lacks the x column
    returns no trajectory list; it raises [KeyError]. *)
Lemma getTrajectories_missing_column_raises :
  let self := Demo.control Demo.missing_column in
  ~ unconfigured (AppControl.state self)
  /\ AppControl.getTrajectories (X := Demo.externals) self = Raises (KeyError "A")
  /\ ~ (exists trajectories,
          AppControl.getTrajectories (X := Demo.externals) self = Returns trajectories).
Proof.
  cbv zeta. split; [ | split ].
  - unfold unconfigured. vm_compute. intuition discriminate.
  - reflexivity.
  - intros (trajectories & H). vm_compute in H. discriminate.
Qed.

Lemma getTrajectories_errors_witness :
  exists trajectories,
    AppControl.getTrajectories (X := Demo.externals) (Demo.control Demo.configured)
    = Returns trajectories
    /\ List.length trajectories = 1.
Proof.
  destruct (getTrajectories_errors (X := Demo.externals) (Demo.control Demo.configured))
    as [_ H].
  specialize (H "A" "B" "T" eq_refl eq_refl eq_refl).
  destruct H as (Hret & Hlen & _); [ discriminate | discriminate | ].
  exists [ {| traj_x_range := ["1"; "3"; "5"]; traj_y_range := ["2"; "4"; "6"];
              states := [("1", "2"); ("3", "4"); ("5", "6")];
              times := ["0.0"; "1.0"; "0.0"] |} ].
  split; [ reflexivity | ]. apply Hlen. reflexivity.
Defined.

(** ** The controller: plotting and exporting *)

Section PlotAndExport.

Context {X : Externals}.

Lemma getTrajectories_length (self : AppControl.t)
      (trajectories : list (Trajectory float)) :
  AppControl.getTrajectories self = Returns trajectories ->
  List.length trajectories
  = List.length (filter DataObjectHolder.selected
                        (AppState.getDataObjects (AppControl.state self))).
Proof.
  unfold AppControl.getTrajectories.
  destruct (AppState.x_header (AppControl.state self)); [ | discriminate ].
  destruct (AppState.y_header (AppControl.state self)); [ | discriminate ].
  destruct (AppState.t_header (AppControl.state self)); [ | discriminate ].
  destruct (AppControl.is_empty (AppState.x_range (AppControl.state self))
            || AppControl.is_empty (AppState.y_range (AppControl.state self)));
    [ discriminate | ].
  apply comprehension_length.
Qed.

(** What [plot] does, by the outcome of [getTrajectories] and the wiring. *)
Lemma plot_eq (self : AppControl.t) :
  AppControl.plot self
  = match AppControl.getTrajectories self with
    | Raises e => (Raises e, self, [])
    | Returns trajectories =>
        match AppControl.plot_listener self with
        | None => (Raises (AppError AppControl.msg_no_plot_function), self, [])
        | Some render =>
            let shown := PlotCall render trajectories
                           (AppState.x_header (AppControl.state self))
                           (AppState.y_header (AppControl.state self)) in
            match AppControl.measure_listener self with
            | None => (Raises (AppError AppControl.msg_no_measure_function), self, [shown])
            | Some measure =>
                (Returns tt, self,
                 shown :: (if AppControl.is_empty trajectories then []
                           else [MeasureCall measure (get_measures trajectories)]))
            end
        end
    end.
Proof.
  unfold AppControl.plot. rewrite bind_get, bind_of_result.
  destruct (AppControl.getTrajectories self) as [ trajectories | e ]; [ | reflexivity ].
  destruct (AppControl.plot_listener self) as [ render | ]; [ | reflexivity ].
  rewrite bind_call.
  destruct (AppControl.measure_listener self) as [ measure | ]; [ | reflexivity ].
  destruct (AppControl.is_empty trajectories); reflexivity.
Qed.

(** C7, as the code has it.  With both callbacks wired, the configuration
    complete and no data object selected, [getTrajectories] returns the empty
    list and [plot] returns after exactly one call, the render callback on
    the empty list; the measure callback is not called.  With no render
    callback wired, [plot] raises the wiring error, and calls nothing, when
    [getTrajectories] returns; an error of [getTrajectories] is raised
    first, whatever the wiring. *)
Theorem plot_outcomes (self : AppControl.t) :
  (forall render measure xh yh th,
      AppControl.plot_listener self = Some render ->
      AppControl.measure_listener self = Some measure ->
      AppState.x_header (AppControl.state self) = Some xh ->
      AppState.y_header (AppControl.state self) = Some yh ->
      AppState.t_header (AppControl.state self) = Some th ->
      AppState.x_range (AppControl.state self) <> [] ->
      AppState.y_range (AppControl.state self) <> [] ->
      filter DataObjectHolder.selected
             (AppState.getDataObjects (AppControl.state self)) = [] ->
      AppControl.getTrajectories self = Returns []
      /\ AppControl.plot self
         = (Returns tt, self, [PlotCall render [] (Some xh) (Some yh)]))
  /\ (AppControl.plot_listener self = None ->
      forall trajectories,
        AppControl.getTrajectories self = Returns trajectories ->
        AppControl.plot self
        = (Raises (AppError AppControl.msg_no_plot_function), self, []))
  /\ (forall e,
        AppControl.getTrajectories self = Raises e ->
        AppControl.plot self = (Raises e, self, [])).
Proof.
  split; [ | split ].
  - intros render measure xh yh th Hr Hm Hx Hy Ht Hxr Hyr Hnone.
    assert (Hget : AppControl.getTrajectories self = Returns []).
    { rewrite (getTrajectories_configured self xh yh th Hx Hy Ht Hxr Hyr), Hnone.
      reflexivity. }
    split; [ exact Hget | ].
    rewrite plot_eq, Hget, Hr, Hm, Hx, Hy. reflexivity.
  - intros Hr trajectories Hget. now rewrite plot_eq, Hget, Hr.
  - intros e Hget. now rewrite plot_eq, Hget.
Qed.

(** What [export_measures] does, by the outcome of [getTrajectories] and of
    opening the file. *)
Lemma export_measures_eq (self : AppControl.t) (path : string) (individual : bool) :
  AppControl.export_measures path individual self
  = match AppControl.getTrajectories self with
    | Raises e => (Raises e, self, [])
    | Returns trajectories =>
        match open_w path with
        | Raises e => (Raises e, self, [])
        | Returns _ =>
            (Returns tt, self,
             [ToCsv path
                    (AppControl.measures_rows individual
                       (AppState.getIDs (AppControl.state self)) trajectories)])
        end
    end.
Proof.
  unfold AppControl.export_measures. rewrite bind_get, bind_of_result.
  destruct (AppControl.getTrajectories self) as [ trajectories | e ]; [ | reflexivity ].
  cbv zeta. rewrite bind_of_result.
  destruct (open_w path); reflexivity.
Qed.

(** The rows of an export to a file that can be opened: as many as there
    are selected data objects in effect when exporting per trajectory, one
    otherwise. *)
Lemma export_measures_rows (self : AppControl.t) (path : string) (individual : bool)
      (trajectories : list (Trajectory float)) :
  AppControl.getTrajectories self = Returns trajectories ->
  open_w path = Returns tt ->
  exists rows,
    AppControl.export_measures path individual self
    = (Returns tt, self, [ToCsv path rows])
    /\ List.length rows
       = if individual
         then List.length (filter DataObjectHolder.selected
                                  (AppState.getDataObjects (AppControl.state self)))
         else 1.
Proof.
  intros Hget Hopen. rewrite export_measures_eq, Hget, Hopen.
  eexists. split; [ reflexivity | ].
  unfold AppControl.measures_rows. destruct individual; [ | reflexivity ].
  rewrite length_map, length_combine.
  rewrite (getTrajectories_length self trajectories Hget).
  unfold AppState.getIDs. rewrite length_map.
  apply Nat.min_r, filter_length_le.
Qed.

End PlotAndExport.

(** C7, as stated, fails: on a fresh controller, where no render callback
    was ever wired, [plot] raises the error of the missing column roles, not
    the wiring error; and on a fresh controller with both callbacks wired,
    where no data object is selected, [plot] raises the same error and the
    render callback is not called. *)
Lemma plot_unwired_raises_configuration_error :
  AppControl.plot_listener AppControl.init = None
  /\ result_of (AppControl.plot (X := Demo.externals) AppControl.init)
     = Raises (AppError AppControl.msg_select_headers)
  /\ result_of (AppControl.plot (X := Demo.externals) AppControl.init)
     <> Raises (AppError AppControl.msg_no_plot_function)
  /\ filter DataObjectHolder.selected
            (AppState.getDataObjects (AppControl.state (Demo.wired AppState.init))) = []
  /\ AppControl.plot (X := Demo.externals) (Demo.wired AppState.init)
     = (Raises (AppError AppControl.msg_select_headers), Demo.wired AppState.init, []).
Proof. split; [ | split; [ | split; [ | split ] ] ]; try reflexivity. discriminate. Qed.

Lemma plot_outcomes_witness :
  AppControl.plot (X := Demo.externals) (Demo.wired Demo.none_selected)
  = (Returns tt, Demo.wired Demo.none_selected, [PlotCall 1 [] (Some "A") (Some "B")])
  /\ AppControl.plot (X := Demo.externals) (Demo.control Demo.configured)
     = (Raises (AppError AppControl.msg_no_plot_function),
        Demo.control Demo.configured, []).
Proof.
  destruct (plot_outcomes (X := Demo.externals) (Demo.wired Demo.none_selected))
    as (Hempty & _ & _).
  destruct (plot_outcomes (X := Demo.externals) (Demo.control Demo.configured))
    as (_ & Hunwired & _).
  split.
  - apply (Hempty 1 2 "A" "B" "T"); try reflexivity; discriminate.
  - eapply Hunwired; reflexivity.
Defined.

(** C3, on the code.  Two files are loaded and the first is deselected.
    The per-trajectory export writes one row, which is the number of
    selected data objects; the measures of the row are those of the
    trajectory of [b.csv], the selected one, and its id is [a.csv]: the ids
    are taken from all data objects in effect and paired by position with
    the trajectories of the selected ones. *)
Theorem export_measures_mislabels_rows :
  let self := Demo.control Demo.first_unselected in
  let b := AppState.new_holder "/data/b.csv" Demo.second_table in
  let traj_b := {| traj_x_range := ["1"; "3"; "5"]; traj_y_range := ["2"; "4"; "6"];
                   states := [("7", "8")]; times := ["0.5"] |} in
  filter DataObjectHolder.selected (AppState.getDataObjects (AppControl.state self)) = [b]
  /\ DataObjectIdentifier.str (DataObjectHolder.filename b) = "b.csv"
  /\ AppControl.trajectory_of (X := Demo.externals) (AppControl.state self) "A" "B" "T" b
     = Returns traj_b
  /\ AppControl.export_measures (X := Demo.externals) "/out/measures.csv" true self
     = (Returns tt, self,
        [ToCsv "/out/measures.csv"
               [ {| row_id := Some "a.csv";
                    row_measures := get_measures (Externals := Demo.externals) [traj_b] |} ]]).
Proof. repeat split. Qed.

(** * Further properties of the state store *)

Lemma has_columnb_spec (column : string) (d : DataObjectHolder.t) :
  has_columnb column d = true <-> has_column column d.
Proof.
  unfold has_columnb, has_column. split.
  - intros H.
    destruct (in_dec string_dec column (Pandas.columns (DataObjectHolder.data d)))
      as [ Hin | Hnot ]; [ assumption | ].
    rewrite (position_not_in _ _ Hnot) in H. discriminate.
  - intros Hin. destruct (position_in _ _ Hin) as (i & ->). reflexivity.
Qed.

Lemma split_entries_without_column (column : string) (d : DataObjectHolder.t) :
  has_columnb column d = false -> split_entries column d = [].
Proof.
  unfold has_columnb, split_entries, Pandas.groupby.
  destruct (Pandas.position column (Pandas.columns (DataObjectHolder.data d)));
    [ discriminate | reflexivity ].
Qed.

Lemma groupby_without_column (column : string) (d : DataObjectHolder.t) :
  has_columnb column d = false ->
  Pandas.groupby (DataObjectHolder.data d) column = Raises (KeyError column).
Proof.
  unfold has_columnb, Pandas.groupby.
  destruct (Pandas.position column (Pandas.columns (DataObjectHolder.data d)));
    [ discriminate | reflexivity ].
Qed.

Lemma take_while_all {A : Type} (p : A -> bool) (l : list A) :
  forallb p l = true -> take_while p l = l.
Proof.
  induction l as [ | a l IH ]; simpl; [ reflexivity | ].
  destruct (p a); simpl; [ | discriminate ]. intros H. now rewrite IH.
Qed.

Lemma forallb_has_column (column : string) (ds : list DataObjectHolder.t) :
  forallb (has_columnb column) ds = true <-> Forall (has_column column) ds.
Proof.
  rewrite forallb_forall, Forall_forall.
  split; intros H d Hd; apply has_columnb_spec, H, Hd.
Qed.

Section GroupingOutcome.

Context {X : Externals}.

(** The loop of [addSplitByID], in full: it stops at the first data object
    without the column, keeping the entries made until then. *)
Lemma split_loop_outcome (column : string) (ds : list DataObjectHolder.t)
      (s : AppState.t) :
  AppState.split_by_id s = Some column ->
  for_each ds AppState._splitByID s
  = (if forallb (has_columnb column) ds then Returns tt else Raises (KeyError column),
     AppState.with_split_data_objects
       (AppState.split_data_objects s
        ++ flat_map (split_entries column) (take_while (has_columnb column) ds)) s,
     []).
Proof.
  revert s. induction ds as [ | d ds IH ]; intros s Hcol.
  - simpl. unfold ret. now rewrite with_split_same.
  - simpl. unfold bind at 1. rewrite splitByID_eq, Hcol.
    destruct (has_columnb column d) eqn:Hd.
    + apply has_columnb_spec in Hd.
      destruct (groupby_has_column column d Hd) as (groups & Hg).
      assert (He : split_entries column d = map (AppState.split_entry d) groups).
      { unfold split_entries. now rewrite Hg. }
      rewrite Hg, IH; [ | exact Hcol ]. simpl. rewrite He.
      unfold AppState.with_split_data_objects. simpl.
      now rewrite <- app_assoc.
    + rewrite (groupby_without_column column d Hd). simpl.
      now rewrite with_split_same.
Qed.

(** [addSplitByID] with a non-empty name, whatever the tables hold. *)
Lemma addSplitByID_outcome (id : string) (s : AppState.t) :
  id <> "" ->
  let s' :=
    AppState.with_split_data_objects
      (flat_map (split_entries id)
                (take_while (has_columnb id) (AppState.data_objects s)))
      (AppState.with_split_by_id (Some id) s) in
  AppState.addSplitByID id s
  = if forallb (has_columnb id) (AppState.data_objects s)
    then AppState.update s'
    else (Raises (KeyError id), s', []).
Proof.
  intros Hid. cbv zeta. unfold AppState.addSplitByID.
  apply String.eqb_neq in Hid. rewrite Hid.
  rewrite bind_modify. unfold bind at 1.
  rewrite bind_modify, bind_get.
  rewrite (split_loop_outcome id); [ | reflexivity ].
  simpl.
  change (AppState.with_split_data_objects
            (flat_map (split_entries id)
                      (take_while (has_columnb id) (AppState.data_objects s)))
            (AppState.with_split_by_id (Some id)
               (AppState.with_split_data_objects [] s)))
    with (AppState.with_split_data_objects
            (flat_map (split_entries id)
                      (take_while (has_columnb id) (AppState.data_objects s)))
            (AppState.with_split_by_id (Some id) s)).
  destruct (forallb (has_columnb id) (AppState.data_objects s)); [ | reflexivity ].
  now destruct (AppState.update _) as [[r s2] t2].
Qed.

Lemma addSplitByID_state (id : string) (s : AppState.t) :
  id <> "" ->
  state_of (AppState.addSplitByID id s)
  = AppState.with_split_data_objects
      (flat_map (split_entries id)
                (take_while (has_columnb id) (AppState.data_objects s)))
      (AppState.with_split_by_id (Some id) s).
Proof.
  intros Hid. pose proof (addSplitByID_outcome id s Hid) as H. cbv zeta in H.
  rewrite H.
  destruct (forallb (has_columnb id) (AppState.data_objects s));
    [ apply update_state | reflexivity ].
Qed.

(** X1.  When a data object lacks the grouping column, [addSplitByID] raises
    the [KeyError] of that column and calls no listener, and the grouping is
    left half done: the grouping key is set, the data objects are untouched,
    and [split_data_objects] holds the entries of the data objects that come
    before the first one without the column. *)
Theorem addSplitByID_missing_column (id : string) (s : AppState.t)
  (Hid : id <> "")
  (Hmissing : forallb (has_columnb id) (AppState.data_objects s) = false) :
  let o := AppState.addSplitByID id s in
  result_of o = Raises (KeyError id)
  /\ trace_of o = []
  /\ AppState.split_by_id (state_of o) = Some id
  /\ AppState.data_objects (state_of o) = AppState.data_objects s
  /\ AppState.split_data_objects (state_of o)
     = flat_map (split_entries id)
                (take_while (has_columnb id) (AppState.data_objects s)).
Proof.
  cbv zeta. pose proof (addSplitByID_outcome id s Hid) as H. cbv zeta in H.
  rewrite H, Hmissing. repeat split.
Qed.

(** X2.  [addSplitByID] is idempotent on the state: calling it a second time
    with the same name, whether the first call returned or raised, leaves
    the state the first call left. *)
Theorem addSplitByID_idempotent (id : string) (s : AppState.t) :
  state_of (AppState.addSplitByID id (state_of (AppState.addSplitByID id s)))
  = state_of (AppState.addSplitByID id s).
Proof.
  destruct (String.eqb_spec id "") as [ -> | Hid ].
  - rewrite !addSplitByID_empty, !update_state. reflexivity.
  - rewrite !(addSplitByID_state id) by exact Hid. reflexivity.
Qed.

(** The state [addDataObject] leaves, whether it returns or raises. *)
Lemma addDataObject_state (file_path : string) (data : Pandas.DataFrame)
      (s : AppState.t) :
  state_of (AppState.addDataObject file_path data s)
  = let s1 := AppState.with_data_objects
                (AppState.data_objects s ++ [AppState.new_holder file_path data]) s in
    match AppState.split_by_id s with
    | Some column =>
        if String.eqb column "" then s1
        else AppState.with_split_data_objects
               (AppState.split_data_objects s
                ++ split_entries column (AppState.new_holder file_path data)) s1
    | None => s1
    end.
Proof.
  cbv zeta. unfold AppState.addDataObject.
  rewrite bind_modify, bind_get.
  set (s1 := AppState.with_data_objects _ s).
  change (AppState.split_by_id s1) with (AppState.split_by_id s).
  unfold AppState.truthy.
  destruct (AppState.split_by_id s) as [ column | ] eqn:Hcol.
  - destruct (String.eqb column ""); simpl.
    + rewrite bind_ret. apply update_state.
    + pose proof (splitByID_eq (AppState.new_holder file_path data) s1) as Heq.
      change (AppState.split_by_id s1) with (AppState.split_by_id s) in Heq.
      rewrite Hcol in Heq. unfold split_entries.
      destruct (Pandas.groupby _ column) as [ groups | e ].
      * rewrite (bind_returned _ _ _ _ _ Heq). apply update_state.
      * rewrite (bind_raised _ _ _ _ _ _ Heq). simpl.
        change (AppState.split_data_objects s) with (AppState.split_data_objects s1).
        now rewrite with_split_same.
  - simpl. rewrite bind_ret. apply update_state.
Qed.

Lemma addDataObject_data_objects (file_path : string) (data : Pandas.DataFrame)
      (s : AppState.t) :
  AppState.data_objects (state_of (AppState.addDataObject file_path data s))
  = AppState.data_objects s ++ [AppState.new_holder file_path data].
Proof.
  rewrite addDataObject_state. cbv zeta.
  destruct (AppState.split_by_id s) as [ column | ]; [ | reflexivity ].
  destruct (String.eqb column ""); reflexivity.
Qed.

(** X3.  [addDataObject] has appended the new data object (base name of the
    path, no group id, the headers of the table, selected) to [data_objects]
    even when it raises, and when it raises no listener has been called: a
    failed load is not rolled back and is not announced. *)
Theorem addDataObject_appends_even_when_raising (file_path : string)
        (data : Pandas.DataFrame) (s : AppState.t) :
  let o := AppState.addDataObject file_path data s in
  AppState.data_objects (state_of o)
  = AppState.data_objects s ++ [AppState.new_holder file_path data]
  /\ (forall e, result_of o = Raises e -> trace_of o = [])
  /\ AppState.split_by_id (state_of o) = AppState.split_by_id s
  /\ AppState.data_object_listeners (state_of o) = AppState.data_object_listeners s.
Proof.
  cbv zeta. split; [ | split; [ | split ] ].
  - rewrite addDataObject_state. cbv zeta.
    destruct (AppState.split_by_id s) as [ column | ]; [ | reflexivity ].
    destruct (String.eqb column ""); reflexivity.
  - intros e He.
    destruct (addDataObject_cases file_path data s) as (added & _ & [ (e' & Ho) | Ho ]).
    + now rewrite Ho.
    + rewrite Ho in *. rewrite update_eq in *.
      destruct (Builtins.sorted _); [ discriminate | reflexivity ].
  - rewrite addDataObject_state. cbv zeta.
    destruct (AppState.split_by_id s) as [ column | ] eqn:E; [ | simpl; congruence ].
    destruct (String.eqb column ""); simpl; congruence.
  - rewrite addDataObject_state. cbv zeta.
    destruct (AppState.split_by_id s) as [ column | ]; [ | reflexivity ].
    destruct (String.eqb column ""); reflexivity.
Qed.

End GroupingOutcome.

Lemma take_while_snoc {A : Type} (p : A -> bool) (l : list A) (a : A) :
  forallb p l = true ->
  take_while p (l ++ [a]) = l ++ (if p a then [a] else []).
Proof.
  induction l as [ | b l IH ]; simpl.
  - intros _. now destruct (p a).
  - destruct (p b); simpl; [ | discriminate ]. intros H. now rewrite IH.
Qed.

Lemma split_entries_selected (column : string) (d : DataObjectHolder.t) :
  Forall (fun e => DataObjectHolder.selected e = true) (split_entries column d).
Proof.
  unfold split_entries.
  destruct (Pandas.groupby (DataObjectHolder.data d) column); [ | constructor ].
  apply Forall_forall. intros e He. apply in_map_iff in He.
  now destruct He as (g & <- & _).
Qed.

Lemma filter_all {A : Type} (p : A -> bool) (l : list A) :
  Forall (fun a => p a = true) l -> filter p l = l.
Proof.
  induction 1 as [ | a l Ha Hl IH ]; simpl; [ reflexivity | ].
  now rewrite Ha, IH.
Qed.

Section StateStoreMore.

Context {X : Externals}.

(** X4.  Loading a file and grouping commute on the state: when every data
    object already loaded has the column, loading a file and then grouping
    by the column leaves the state that grouping first and loading the file
    afterwards leaves (whether or not the new file has the column). *)
Theorem load_and_group_commute (file_path : string) (data : Pandas.DataFrame)
        (id : string) (s : AppState.t)
  (Hid : id <> "")
  (Hcols : Forall (has_column id) (AppState.data_objects s)) :
  state_of (AppState.addSplitByID id
              (state_of (AppState.addDataObject file_path data s)))
  = state_of (AppState.addDataObject file_path data
                (state_of (AppState.addSplitByID id s))).
Proof.
  apply forallb_has_column in Hcols.
  rewrite !(addSplitByID_state id) by exact Hid.
  rewrite (take_while_all _ _ Hcols).
  rewrite (addDataObject_state file_path data
             (AppState.with_split_data_objects _ (AppState.with_split_by_id (Some id) s))).
  cbv zeta. simpl AppState.split_by_id. cbv iota beta.
  apply String.eqb_neq in Hid. rewrite Hid. simpl AppState.data_objects.
  simpl AppState.split_data_objects.
  rewrite addDataObject_data_objects, (take_while_snoc _ _ _ Hcols), flat_map_app.
  assert (Hnew : flat_map (split_entries id)
                   (if has_columnb id (AppState.new_holder file_path data)
                    then [AppState.new_holder file_path data] else [])
                 = split_entries id (AppState.new_holder file_path data)).
  { destruct (has_columnb id (AppState.new_holder file_path data)) eqn:E; simpl.
    - apply app_nil_r.
    - symmetry. now apply split_entries_without_column. }
  rewrite Hnew.
  rewrite addDataObject_state. cbv zeta.
  destruct (AppState.split_by_id s) as [ column | ]; [ | reflexivity ].
  destruct (String.eqb column ""); reflexivity.
Qed.

Lemma loads_from (files : list (string * Pandas.DataFrame)) (s : AppState.t) :
  AppState.split_by_id s = None ->
  Session.run_all (load_ops files) s
  = AppState.with_data_objects
      (AppState.data_objects s
       ++ map (fun f => AppState.new_holder (fst f) (snd f)) files) s.
Proof.
  unfold Session.run_all.
  revert s. induction files as [ | f files IH ]; intros s Hkey; simpl.
  - destruct s. unfold AppState.with_data_objects. simpl. now rewrite app_nil_r.
  - rewrite addDataObject_state. cbv zeta.
    rewrite Hkey. rewrite IH by exact Hkey.
    unfold AppState.with_data_objects. simpl. now rewrite <- app_assoc.
Qed.

(** X5.  With no grouping column set, loading files one after the other
    into a fresh state makes [getDataObjects] return exactly one data object
    per load, in load order, and [getIDs] the base names of the paths. *)
Theorem loads_without_grouping (files : list (string * Pandas.DataFrame)) :
  let s := Session.run_all (load_ops files) AppState.init in
  AppState.getDataObjects s = map (fun f => AppState.new_holder (fst f) (snd f)) files
  /\ List.length (AppState.getDataObjects s) = List.length files
  /\ AppState.getIDs s = map (fun f => OsPath.basename (fst f)) files
  /\ AppState.split_data_objects s = [].
Proof.
  cbv zeta. rewrite (loads_from files AppState.init eq_refl).
  unfold AppState.getIDs, AppState.getDataObjects. simpl.
  repeat split.
  - apply length_map.
  - rewrite map_map. reflexivity.
Qed.

(** X6.  Grouping does not inherit the selection: every entry
    [addSplitByID] leaves in [split_data_objects] is selected, whatever the
    check boxes of the data objects were, so when there is such an entry
    [getTrajectories] considers all data objects in effect; the data objects
    themselves keep their flags. *)
Theorem grouping_reselects (id : string) (s : AppState.t) :
  let s' := state_of (AppState.addSplitByID id s) in
  Forall (fun e => DataObjectHolder.selected e = true) (AppState.split_data_objects s')
  /\ (AppState.split_data_objects s' <> [] ->
      filter DataObjectHolder.selected (AppState.getDataObjects s')
      = AppState.getDataObjects s')
  /\ AppState.data_objects s' = AppState.data_objects s.
Proof.
  cbv zeta.
  assert (Hsel : Forall (fun e => DataObjectHolder.selected e = true)
                   (AppState.split_data_objects
                      (state_of (AppState.addSplitByID id s)))
                 /\ AppState.data_objects (state_of (AppState.addSplitByID id s))
                    = AppState.data_objects s).
  { destruct (String.eqb_spec id "") as [ -> | Hid ].
    - rewrite addSplitByID_empty, update_state. split; [ constructor | reflexivity ].
    - rewrite (addSplitByID_state id s Hid). split; [ | reflexivity ]. simpl.
      apply Forall_flat_map, Forall_forall. intros d _. apply split_entries_selected. }
  destruct Hsel as [Hsel Hdata]. split; [ exact Hsel | split; [ | exact Hdata ] ].
  intros Hne. unfold AppState.getDataObjects.
  destruct (AppState.split_data_objects (state_of (AppState.addSplitByID id s)))
    as [ | e es ] eqn:E; [ congruence | ].
  now apply filter_all.
Qed.

(** What a call leaves of the listener list and of the figure. *)
Lemma run_frame (op : Session.Op) (s : AppState.t) :
  AppState.data_object_listeners (state_of (Session.run op s))
  = AppState.data_object_listeners s ++ registered [op]
  /\ (sets_plot op = false ->
      AppState.matpltlib_fig (state_of (Session.run op s)) = AppState.matpltlib_fig s).
Proof.
  destruct op; simpl; try (split; [ now rewrite ?app_nil_r | reflexivity ]).
  - destruct (addDataObject_cases file_path data s) as (added & _ & Hcase).
    rewrite (raised_or_notified_state _ _ Hcase). simpl.
    split; [ now rewrite app_nil_r | reflexivity ].
  - destruct (addSplitByID_cases id s) as (added & key & _ & Hcase).
    rewrite (raised_or_notified_state _ _ Hcase). simpl.
    split; [ now rewrite app_nil_r | reflexivity ].
  - rewrite reset_eq. simpl. split; [ now rewrite app_nil_r | reflexivity ].
  - split; [ now rewrite app_nil_r | discriminate ].
  - destruct in_split; simpl; split; try reflexivity; now rewrite app_nil_r.
Qed.

(** X7.  Listeners are never removed: after any sequence of calls the
    listener list is the one before, followed by the listeners the sequence
    registered, in registration order; [reset] does not unregister. *)
Theorem listeners_only_grow (ops : list Session.Op) (s : AppState.t) :
  AppState.data_object_listeners (Session.run_all ops s)
  = AppState.data_object_listeners s ++ registered ops.
Proof.
  unfold Session.run_all.
  revert s. induction ops as [ | op ops IH ]; intros s; simpl.
  - now rewrite app_nil_r.
  - rewrite IH.
    destruct (run_frame op s) as [Hl _]. rewrite Hl.
    unfold registered. simpl. rewrite <- app_assoc. now rewrite app_nil_r.
Qed.

Lemma figure_kept (ops : list Session.Op) (s : AppState.t) :
  forallb (fun op => negb (sets_plot op)) ops = true ->
  AppState.matpltlib_fig (Session.run_all ops s) = AppState.matpltlib_fig s.
Proof.
  unfold Session.run_all.
  revert s. induction ops as [ | op ops IH ]; intros s; simpl; [ reflexivity | ].
  intros H. apply andb_prop in H. destruct H as [Hop Hops].
  rewrite IH by exact Hops.
  destruct (run_frame op s) as [_ Hf]. apply Hf.
  now destruct (sets_plot op).
Qed.

(** X8.  [export_plot] raises the [AppError] of the missing grid, saving
    nothing, exactly as long as no figure was ever set; once a figure is
    set, no later call on the state (loading, grouping, [reset], ...)
    clears it, and [export_plot] saves that figure to the path and leaves
    the controller as it was. *)
Theorem export_plot_outcome (path : string) (self : AppControl.t) :
  (AppState.matpltlib_fig (AppControl.state self) = None ->
   AppControl.export_plot path self
   = (Raises (AppError AppControl.msg_no_grid), self, []))
  /\ (forall fig ops s,
        AppState.matpltlib_fig s = Some fig ->
        forallb (fun op => negb (sets_plot op)) ops = true ->
        AppControl.state self = Session.run_all ops s ->
        AppControl.export_plot path self = (Returns tt, self, [SaveFig fig path])).
Proof.
  unfold AppControl.export_plot. split.
  - intros Hnone. now rewrite bind_get, Hnone.
  - intros fig ops s Hfig Hops Hstate.
    rewrite bind_get, Hstate, (figure_kept ops s Hops), Hfig. reflexivity.
Qed.

End StateStoreMore.

Section ControllerReset.

Context {X : Externals}.

(** X9.  [AppControl.reset] on any controller returns after calling every
    registered reset callback in registration order and then every data
    listener with the empty list; the state is reset as [AppState.reset]
    does (ranges and the figure kept), and the registry, the two display
    callbacks and the reset callbacks stay. *)
Theorem controller_reset_outcome (self : AppControl.t) :
  let o := AppControl.reset self in
  result_of o = Returns tt
  /\ trace_of o
     = map ResetCall (AppControl.resets self)
       ++ map (fun l => ListenerCall l [])
              (AppState.data_object_listeners (AppControl.state self))
  /\ AppControl.state (state_of o) = state_of (AppState.reset (AppControl.state self))
  /\ AppState.getDataObjects (AppControl.state (state_of o)) = []
  /\ AppState.x_range (AppControl.state (state_of o))
     = AppState.x_range (AppControl.state self)
  /\ AppState.y_range (AppControl.state (state_of o))
     = AppState.y_range (AppControl.state self)
  /\ AppState.matpltlib_fig (AppControl.state (state_of o))
     = AppState.matpltlib_fig (AppControl.state self)
  /\ AppControl.file_readers (state_of o) = AppControl.file_readers self
  /\ AppControl.plot_listener (state_of o) = AppControl.plot_listener self
  /\ AppControl.measure_listener (state_of o) = AppControl.measure_listener self
  /\ AppControl.resets (state_of o) = AppControl.resets self.
Proof.
  cbv zeta. unfold AppControl.reset. rewrite bind_get.
  unfold bind. rewrite for_each_call.
  unfold AppControl.on_state. rewrite reset_eq. simpl. repeat split.
Qed.

End ControllerReset.

Lemma addSplitByID_missing_column_witness :
  let o := AppState.addSplitByID (X := Demo.externals) "ID" Demo.missing_column in
  result_of o = Raises (KeyError "ID")
  /\ AppState.getIDs (state_of o) = ["run1.csv::g1"; "run1.csv::g2"].
Proof.
  assert (Hid : "ID" <> "") by discriminate.
  destruct (addSplitByID_missing_column (X := Demo.externals) "ID" Demo.missing_column
              Hid eq_refl) as (Hr & _).
  cbv zeta. split; [ exact Hr | reflexivity ].
Defined.

Lemma load_and_group_commute_witness :
  state_of (AppState.addSplitByID (X := Demo.externals) "ID"
              (state_of (AppState.addDataObject (X := Demo.externals)
                           "/data/other.csv" Demo.other_table Demo.configured)))
  = state_of (AppState.addDataObject (X := Demo.externals)
                "/data/other.csv" Demo.other_table
                (state_of (AppState.addSplitByID (X := Demo.externals) "ID"
                             Demo.configured))).
Proof.
  assert (Hid : "ID" <> "") by discriminate.
  apply (load_and_group_commute (X := Demo.externals)
           "/data/other.csv" Demo.other_table "ID" Demo.configured Hid).
  vm_compute. constructor; [ | constructor ]. do 3 right. left. reflexivity.
Defined.

Lemma export_plot_outcome_witness :
  AppControl.export_plot (X := Demo.externals) "/out/grid.png" AppControl.init
  = (Raises (AppError AppControl.msg_no_grid), AppControl.init, [])
  /\ AppControl.export_plot (X := Demo.externals) "/out/grid.png"
       (Demo.control
          (Session.run_all (X := Demo.externals) [Session.Reset]
             (AppState.set_plot_structures 5 6 Demo.configured)))
     = (Returns tt,
        Demo.control
          (Session.run_all (X := Demo.externals) [Session.Reset]
             (AppState.set_plot_structures 5 6 Demo.configured)),
        [SaveFig 5 "/out/grid.png"]).
Proof.
  split.
  - apply (proj1 (export_plot_outcome (X := Demo.externals) "/out/grid.png"
                    AppControl.init)). reflexivity.
  - apply (proj2 (export_plot_outcome (X := Demo.externals) "/out/grid.png" _)
             5 [Session.Reset] (AppState.set_plot_structures 5 6 Demo.configured));
      reflexivity.
Defined.

(** * Further properties of the controller *)

Lemma dict_get_set_same {V : Type} (key : string) (v : V) (d : AppControl.dict V) :
  AppControl.dict_get key (AppControl.dict_set key v d) = Some v.
Proof.
  induction d as [ | [k v'] d IH ]; simpl.
  - now rewrite String.eqb_refl.
  - destruct (String.eqb k key) eqn:E; simpl; rewrite E; [ reflexivity | exact IH ].
Qed.

Lemma dict_get_set_other {V : Type} (key key' : string) (v : V) (d : AppControl.dict V) :
  key' <> key ->
  AppControl.dict_get key' (AppControl.dict_set key v d) = AppControl.dict_get key' d.
Proof.
  intros Hne. induction d as [ | [k v'] d IH ]; simpl.
  - destruct (String.eqb_spec key key'); [ congruence | reflexivity ].
  - destruct (String.eqb_spec k key) as [ -> | Hk ]; simpl.
    + destruct (String.eqb_spec key key'); [ congruence | reflexivity ].
    + destruct (String.eqb k key'); [ reflexivity | exact IH ].
Qed.

Lemma dict_keys_set {V : Type} (key : string) (v : V) (d : AppControl.dict V) :
  AppControl.dict_keys (AppControl.dict_set key v d)
  = if AppControl.dict_in key d then AppControl.dict_keys d
    else AppControl.dict_keys d ++ [key].
Proof.
  unfold AppControl.dict_in, AppControl.dict_keys.
  induction d as [ | [k v'] d IH ]; simpl; [ reflexivity | ].
  destruct (String.eqb k key) eqn:E; simpl; [ reflexivity | ].
  rewrite IH. now destruct (AppControl.dict_get key d).
Qed.

Lemma dict_get_in_keys {V : Type} (key : string) (d : AppControl.dict V) :
  AppControl.dict_in key d = false -> ~ In key (AppControl.dict_keys d).
Proof.
  unfold AppControl.dict_in, AppControl.dict_keys.
  induction d as [ | [k v'] d IH ]; simpl; [ tauto | ].
  destruct (String.eqb_spec k key) as [ -> | Hk ]; [ discriminate | ].
  intros H [ Heq | Hin ]; [ contradiction | now apply IH ].
Qed.

Lemma dict_set_nodup {V : Type} (key : string) (v : V) (d : AppControl.dict V) :
  NoDup (AppControl.dict_keys d) ->
  NoDup (AppControl.dict_keys (AppControl.dict_set key v d)).
Proof.
  intros Hd. rewrite dict_keys_set.
  destruct (AppControl.dict_in key d) eqn:E; [ exact Hd | ].
  apply NoDup_app; [ exact Hd | repeat constructor; simpl; tauto | ].
  intros k Hk [ <- | [] ]. now apply (dict_get_in_keys _ _ E).
Qed.

Lemma collect_from (attrs : list (string * option (string * AppControl.Reader)))
      (d : AppControl.dict AppControl.Reader) (extension : string) :
  AppControl.dict_get extension
    (fold_left
       (fun readers attr =>
          match snd attr with
          | Some (extension_handler, method) =>
              AppControl.dict_set extension_handler method readers
          | None => readers
          end) attrs d)
  = match last_handler extension attrs with
    | Some method => Some method
    | None => AppControl.dict_get extension d
    end.
Proof.
  revert d. induction attrs as [ | [name [ [ext method] | ]] attrs IH ]; intros d; simpl.
  - reflexivity.
  - rewrite IH. destruct (last_handler extension attrs); [ reflexivity | ].
    destruct (String.eqb_spec ext extension) as [ -> | Hne ].
    + apply dict_get_set_same.
    + apply dict_get_set_other. congruence.
  - rewrite IH. now destruct (last_handler extension attrs).
Qed.

Lemma collect_nodup (attrs : list (string * option (string * AppControl.Reader)))
      (d : AppControl.dict AppControl.Reader) :
  NoDup (AppControl.dict_keys d) ->
  NoDup (AppControl.dict_keys
           (fold_left
              (fun readers attr =>
                 match snd attr with
                 | Some (extension_handler, method) =>
                     AppControl.dict_set extension_handler method readers
                 | None => readers
                 end) attrs d)).
Proof.
  revert d. induction attrs as [ | [name [ [ext method] | ]] attrs IH ]; intros d Hd; simpl.
  - exact Hd.
  - apply IH, dict_set_nodup, Hd.
  - apply IH, Hd.
Qed.

(** X10.  The registry [__init__] collects from any attribute list maps an
    extension to the method decorated with it that comes last in the list
    (a later decoration of the same extension replaces an earlier one) and
    to nothing when no method is decorated with it; no extension is listed
    twice among its keys.  For the class as written, [canHandle] holds of
    exactly the four strings [.csv], [.traj], [.tsv] and [xls]. *)
Theorem registry_lookup (attrs : list (string * option (string * AppControl.Reader)))
        (extension : string) :
  AppControl.dict_get extension (AppControl.collect_readers attrs)
  = last_handler extension attrs
  /\ NoDup (AppControl.dict_keys (AppControl.collect_readers attrs))
  /\ (AppControl.canHandle extension AppControl.init = true
      <-> In extension [".csv"; ".traj"; ".tsv"; "xls"]).
Proof.
  split; [ | split ].
  - unfold AppControl.collect_readers. rewrite collect_from.
    now destruct (last_handler extension attrs).
  - apply collect_nodup. constructor.
  - unfold AppControl.canHandle, AppControl.dict_in, AppControl.init.
    cbn [AppControl.file_readers].
    unfold AppControl.collect_readers. rewrite collect_from.
    unfold AppControl.dir_AppControl.
    cbn [last_handler snd AppControl.dict_get].
    destruct (String.eqb_spec "xls" extension) as [ <- | Hx ]; [ simpl; tauto | ].
    destruct (String.eqb_spec ".tsv" extension) as [ <- | Ht ]; [ simpl; tauto | ].
    destruct (String.eqb_spec ".traj" extension) as [ <- | Hj ]; [ simpl; tauto | ].
    destruct (String.eqb_spec ".csv" extension) as [ <- | Hc ]; [ simpl; tauto | ].
    simpl. split; [ discriminate | ].
    intros [ H | [ H | [ H | [ H | [] ] ] ] ]; congruence.
Qed.

Section ControllerMore.

Context {X : Externals}.

Lemma on_state_eq {A : Type} (m : Py AppState.t A) (self : AppControl.t) :
  AppControl.on_state m self
  = (result_of (m (AppControl.state self)),
     AppControl.with_state (state_of (m (AppControl.state self))) self,
     trace_of (m (AppControl.state self))).
Proof.
  unfold AppControl.on_state. now destruct (m (AppControl.state self)) as [[r s'] t].
Qed.

Lemma run_reader_eq (reader : AppControl.Reader) (file_path : string)
      (self : AppControl.t) :
  AppControl.run_reader reader file_path self
  = match parsed reader file_path with
    | Returns data => AppControl.on_state (AppState.addDataObject file_path data) self
    | Raises e => (Raises e, self, [])
    end.
Proof.
  destruct reader; simpl; rewrite bind_of_result; reflexivity.
Qed.

(** X11.  For a path whose extension has a registered reader: when the
    reader cannot parse the file its error is raised, no listener is called
    and the controller is exactly as before; when it can, the outcome is
    that of [addDataObject] on the state with the path and the table, so the
    new data object is appended under the base name of the path, and the
    registry and the callbacks of the controller are untouched. *)
Theorem read_file_registered (file_path : string) (self : AppControl.t)
        (reader : AppControl.Reader)
  (Hreader : AppControl.dict_get (snd (OsPath.splitext file_path))
                                 (AppControl.file_readers self) = Some reader) :
  (forall e, parsed reader file_path = Raises e ->
             AppControl.read_file file_path self = (Raises e, self, []))
  /\ (forall data,
        parsed reader file_path = Returns data ->
        let o := AppControl.read_file file_path self in
        let o' := AppState.addDataObject file_path data (AppControl.state self) in
        result_of o = result_of o'
        /\ trace_of o = trace_of o'
        /\ state_of o = AppControl.with_state (state_of o') self
        /\ AppState.data_objects (AppControl.state (state_of o))
           = AppState.data_objects (AppControl.state self)
             ++ [AppState.new_holder file_path data]).
Proof.
  unfold AppControl.read_file. rewrite bind_get, Hreader, run_reader_eq. split.
  - intros e He. now rewrite He.
  - intros data Hdata. cbv zeta. rewrite Hdata, on_state_eq.
    repeat split. simpl. apply addDataObject_data_objects.
Qed.

End ControllerMore.

Section ExportAndTrajectories.

Context {X : Externals}.

Lemma comprehension_Forall2 {A B : Type} (f : A -> PyResult B) (l : list A) (bs : list B) :
  AppControl.comprehension f l = Returns bs ->
  Forall2 (fun a b => f a = Returns b) l bs.
Proof.
  revert bs. induction l as [ | a l IH ]; simpl; intros bs H.
  - inversion H. constructor.
  - destruct (f a) as [ b | e ] eqn:E; simpl in H; [ | discriminate ].
    destruct (AppControl.comprehension f l) as [ bs' | e ]; simpl in H; [ | discriminate ].
    inversion H; subst. constructor; auto.
Qed.

Lemma astype_float_Forall2 (values : list string) (fs : list float) :
  AppControl.astype_float values = Returns fs ->
  Forall2 (fun v f => parse_float v = Some f) values fs.
Proof.
  revert fs. induction values as [ | v values IH ]; simpl; intros fs H.
  - inversion H. constructor.
  - destruct (parse_float v) as [ f | ] eqn:E; [ | discriminate ].
    destruct (AppControl.astype_float values) as [ fs' | e ]; simpl in H; [ | discriminate ].
    inversion H; subst. constructor; auto.
Qed.

(** X12.  A trajectory built from a data object carries the two ranges of
    the state; its states are the values present in the x column paired by
    position with the values present in the y column, as many as the shorter
    of the two; its times are the values present in the time column, each
    parsed, one per value.  Missing values are dropped per column, so the
    number of states and the number of times can differ. *)
Theorem trajectory_shape (st : AppState.t) (x_header y_header t_header : string)
        (d : DataObjectHolder.t) (traj : Trajectory float)
  (Hbuilt : AppControl.trajectory_of st x_header y_header t_header d = Returns traj) :
  let table := DataObjectHolder.data d in
  traj_x_range traj = AppState.x_range st
  /\ traj_y_range traj = AppState.y_range st
  /\ states traj = combine (present x_header table) (present y_header table)
  /\ List.length (states traj)
     = Nat.min (List.length (present x_header table))
               (List.length (present y_header table))
  /\ Forall2 (fun v f => parse_float v = Some f) (present t_header table) (times traj)
  /\ List.length (times traj) = List.length (present t_header table).
Proof.
  cbv zeta. unfold AppControl.trajectory_of, present in *.
  destruct (Pandas.getitem (DataObjectHolder.data d) x_header) as [ xs | ];
    simpl in Hbuilt; [ | discriminate ].
  destruct (Pandas.getitem (DataObjectHolder.data d) y_header) as [ ys | ];
    simpl in Hbuilt; [ | discriminate ].
  destruct (Pandas.getitem (DataObjectHolder.data d) t_header) as [ ts | ];
    simpl in Hbuilt; [ | discriminate ].
  destruct (AppControl.astype_float (Pandas.dropna ts)) as [ fs | ] eqn:Ef;
    simpl in Hbuilt; [ | discriminate ].
  inversion Hbuilt; subst; simpl.
  pose proof (astype_float_Forall2 _ _ Ef) as Hf.
  repeat split; try assumption.
  - apply length_combine.
  - symmetry. eapply Forall2_length, Hf.
Qed.

Lemma rows_aligned (st : AppState.t) (xh yh th : string)
      (l : list DataObjectHolder.t) (trajectories : list (Trajectory float)) :
  Forall2 (fun d traj => AppControl.trajectory_of st xh yh th d = Returns traj)
          l trajectories ->
  Forall2
    (fun d row =>
       exists traj,
         AppControl.trajectory_of st xh yh th d = Returns traj
         /\ row = {| row_id := Some (DataObjectIdentifier.str (DataObjectHolder.filename d));
                     row_measures := get_measures [traj] |})
    l
    (map (fun '(id, traj) => {| row_id := Some id; row_measures := get_measures [traj] |})
         (combine
            (map (fun d => DataObjectIdentifier.str (DataObjectHolder.filename d)) l)
            trajectories)).
Proof.
  induction 1 as [ | d traj l trajectories Hd Hl IH ]; simpl; constructor; eauto.
Qed.

(** X13.  When no data object in effect is deselected, the trajectories
    can be built and the file can be opened for writing, the per-trajectory
    export writes one row per data object in effect, in order, and each row
    carries the identifier string of the data object whose trajectory its
    measures were computed from. *)
Theorem export_measures_aligned (path : string) (self : AppControl.t)
        (trajectories : list (Trajectory float))
  (Hselected : Forall (fun d => DataObjectHolder.selected d = true)
                      (AppState.getDataObjects (AppControl.state self)))
  (Hbuilt : AppControl.getTrajectories self = Returns trajectories)
  (Hopen : open_w path = Returns tt) :
  exists xh yh th rows,
    AppState.x_header (AppControl.state self) = Some xh
    /\ AppState.y_header (AppControl.state self) = Some yh
    /\ AppState.t_header (AppControl.state self) = Some th
    /\ AppControl.export_measures path true self = (Returns tt, self, [ToCsv path rows])
    /\ Forall2
         (fun d row =>
            exists traj,
              AppControl.trajectory_of (AppControl.state self) xh yh th d = Returns traj
              /\ row = {| row_id := Some (DataObjectIdentifier.str
                                            (DataObjectHolder.filename d));
                          row_measures := get_measures [traj] |})
         (AppState.getDataObjects (AppControl.state self)) rows.
Proof.
  pose proof Hbuilt as Hget. unfold AppControl.getTrajectories in Hget.
  destruct (AppState.x_header (AppControl.state self)) as [ xh | ]; [ | discriminate ].
  destruct (AppState.y_header (AppControl.state self)) as [ yh | ]; [ | discriminate ].
  destruct (AppState.t_header (AppControl.state self)) as [ th | ]; [ | discriminate ].
  destruct (AppControl.is_empty (AppState.x_range (AppControl.state self))
            || AppControl.is_empty (AppState.y_range (AppControl.state self)));
    [ discriminate | ].
  rewrite (filter_all _ _ Hselected) in Hget.
  apply comprehension_Forall2 in Hget.
  exists xh, yh, th. eexists. repeat split.
  - rewrite export_measures_eq, Hbuilt, Hopen. reflexivity.
  - unfold AppControl.measures_rows, AppState.getIDs. now apply rows_aligned.
Qed.

(** X14.  [export_measures] raises the error of [getTrajectories] and writes
    nothing when that raises; when the trajectories are built and the file
    cannot be opened for writing it raises the error of [open] and writes
    nothing; otherwise it returns, leaves the controller as it was and
    writes one table to the path: per trajectory, as many rows as there are
    selected data objects in effect, the i-th with the measures of the i-th
    trajectory alone; cumulative, the single row without id holding the
    measures of all the trajectories together. *)
Theorem export_measures_outcome (path : string) (individual : bool)
        (self : AppControl.t) :
  (forall e,
      AppControl.getTrajectories self = Raises e ->
      AppControl.export_measures path individual self = (Raises e, self, []))
  /\ (forall trajectories e,
        AppControl.getTrajectories self = Returns trajectories ->
        open_w path = Raises e ->
        AppControl.export_measures path individual self = (Raises e, self, []))
  /\ (forall trajectories,
        AppControl.getTrajectories self = Returns trajectories ->
        open_w path = Returns tt ->
        exists rows,
          AppControl.export_measures path individual self
          = (Returns tt, self, [ToCsv path rows])
          /\ (individual = true ->
              List.length rows
              = List.length (filter DataObjectHolder.selected
                               (AppState.getDataObjects (AppControl.state self)))
              /\ map row_measures rows = map (fun traj => get_measures [traj]) trajectories)
          /\ (individual = false ->
              rows = [ {| row_id := None; row_measures := get_measures trajectories |} ])).
Proof.
  split; [ | split ].
  - intros e He. now rewrite export_measures_eq, He.
  - intros trajectories e Hget Hopen. now rewrite export_measures_eq, Hget, Hopen.
  - intros trajectories Hget Hopen.
    exists (AppControl.measures_rows individual
              (AppState.getIDs (AppControl.state self)) trajectories).
    split.
    { now rewrite export_measures_eq, Hget, Hopen. }
    pose proof (getTrajectories_length self trajectories Hget) as Hl.
    assert (Hids : List.length trajectories
                   <= List.length (AppState.getIDs (AppControl.state self))).
    { rewrite Hl. unfold AppState.getIDs. rewrite length_map.
      apply filter_length_le. }
    split; intros ->; [ | reflexivity ].
    unfold AppControl.measures_rows. split.
    + rewrite length_map, length_combine, <- Hl. now apply Nat.min_r.
    + clear Hl Hget.
      revert Hids. generalize (AppState.getIDs (AppControl.state self)).
      induction trajectories as [ | traj trajectories IH ]; intros ids Hids.
      * now destruct ids.
      * destruct ids as [ | id ids ]; simpl in *; [ lia | ].
        f_equal. apply IH. lia.
Qed.

End ExportAndTrajectories.

(** * Further properties of the range setters *)

Lemma split_clean_piece (c : ascii) (piece : string) :
  PyStr.count c piece = 0 -> PyStr.split c piece = [piece].
Proof.
  induction piece as [ | d rest IH ]; simpl; [ reflexivity | ].
  destruct (Ascii.eqb d c); simpl; [ discriminate | ].
  intros H. now rewrite IH.
Qed.

Lemma split_append (c : ascii) (piece rest : string) :
  PyStr.count c piece = 0 ->
  PyStr.split c (piece ++ String c rest) = piece :: PyStr.split c rest.
Proof.
  induction piece as [ | d piece IH ]; simpl.
  - intros _. now rewrite Ascii.eqb_refl.
  - destruct (Ascii.eqb d c); simpl; [ discriminate | ].
    intros H. now rewrite IH.
Qed.

(** Splitting a join of clean pieces gives the pieces back. *)
Lemma split_join (c : ascii) (pieces : list string) :
  pieces <> [] ->
  Forall (fun piece => PyStr.count c piece = 0) pieces ->
  PyStr.split c (PyStr.join (String c "") pieces) = pieces.
Proof.
  unfold PyStr.join.
  induction pieces as [ | piece pieces IH ]; [ congruence | ].
  intros _ Hall. inversion Hall as [ | p ps Hp Hps ]; subst.
  destruct pieces as [ | piece' pieces ].
  - simpl. now apply split_clean_piece.
  - change (String.concat (String c "") (piece :: piece' :: pieces))
      with (String.append piece
              (String c (String.concat (String c "") (piece' :: pieces)))).
    rewrite split_append by exact Hp. f_equal. apply IH; [ discriminate | exact Hps ].
Qed.

Lemma rstrip_fixed (s : string) : no_space_suffix s = true -> PyStr.rstrip s = s.
Proof.
  induction s as [ | c rest IH ]; [ reflexivity | ].
  cbn [no_space_suffix]. intros H. apply andb_prop in H. destruct H as [Hs Hrest].
  cbn [PyStr.rstrip]. cbv zeta. rewrite (IH Hrest).
  apply negb_true_iff in Hs. now rewrite Hs.
Qed.

Lemma lstrip_fixed (s : string) :
  PyStr.starts_with_space s = false -> PyStr.lstrip s = s.
Proof.
  destruct s as [ | c1 r1 ]; [ reflexivity | ].
  cbn [PyStr.starts_with_space PyStr.lstrip]. intros H.
  apply orb_false_elim in H. destruct H as [-> H].
  destruct r1 as [ | c2 r2 ]; [ reflexivity | ].
  apply orb_false_elim in H. destruct H as [-> H].
  destruct r2 as [ | c3 r3 ]; [ reflexivity | ]. now rewrite H.
Qed.

Lemma strip_idempotent (s : string) : PyStr.strip (PyStr.strip s) = PyStr.strip s.
Proof.
  destruct (strip_clean s) as [Hfront Hback].
  unfold PyStr.strip at 1. rewrite (lstrip_fixed _ Hfront). now apply rstrip_fixed.
Qed.

Lemma count_app (c : ascii) (u v : string) :
  PyStr.count c (String.append u v) = PyStr.count c u + PyStr.count c v.
Proof.
  induction u as [ | d u IH ]; simpl; [ reflexivity | ]. rewrite IH. lia.
Qed.

Lemma count_lstrip (c : ascii) (s : string) :
  PyStr.count c s = 0 -> PyStr.count c (PyStr.lstrip s) = 0.
Proof.
  destruct (lstrip_suffix s) as (u & Hu). intros H.
  rewrite Hu, count_app in H. lia.
Qed.

Lemma count_rstrip (c : ascii) (s : string) :
  PyStr.count c s = 0 -> PyStr.count c (PyStr.rstrip s) = 0.
Proof.
  destruct (rstrip_prefix s) as (v & Hv). intros H.
  rewrite Hv, count_app in H. lia.
Qed.

Lemma range_tokens_clean (range_list : string) :
  Forall clean_token (map PyStr.strip (PyStr.split "," range_list)).
Proof.
  apply Forall_map. eapply Forall_impl; [ | apply split_pieces_clean ].
  intros piece Hpiece. split.
  - apply strip_idempotent.
  - unfold PyStr.strip. now apply count_rstrip, count_lstrip.
Qed.

Lemma clean_tokens_round_trip (tokens : list string) :
  tokens <> [] -> Forall clean_token tokens ->
  map PyStr.strip (PyStr.split "," (PyStr.join "," tokens)) = tokens.
Proof.
  intros Hne Hclean. rewrite split_join.
  - rewrite <- (map_id tokens) at 2. apply map_ext_in. intros t Ht.
    rewrite Forall_forall in Hclean. now destruct (Hclean t Ht).
  - exact Hne.
  - eapply Forall_impl; [ | exact Hclean ]. now intros t [_ Ht].
Qed.

(** X15.  The tokens a range setter stores are fixed by [strip] (they have
    no white space character, ASCII or not, at either end) and hold no
    comma, and the setters are stable under a round trip:
    joining the stored tokens with commas and setting the range from that
    text stores the same tokens again. *)
Theorem range_round_trip (range_list : string) (s s' : AppState.t) :
  let xs := AppState.x_range (AppState.set_x_range range_list s) in
  let ys := AppState.y_range (AppState.set_y_range range_list s) in
  Forall clean_token xs
  /\ Forall clean_token ys
  /\ Forall (fun token => PyStr.starts_with_space token = false
                          /\ no_space_suffix token = true) xs
  /\ Forall (fun token => PyStr.starts_with_space token = false
                          /\ no_space_suffix token = true) ys
  /\ AppState.x_range (AppState.set_x_range (PyStr.join "," xs) s') = xs
  /\ AppState.y_range (AppState.set_y_range (PyStr.join "," ys) s') = ys.
Proof.
  cbv zeta. simpl.
  assert (Hne : map PyStr.strip (PyStr.split "," range_list) <> []).
  { intros H. apply (f_equal (@List.length _)) in H.
    rewrite length_map, split_length in H. discriminate. }
  pose proof (range_tokens_clean range_list) as Hclean.
  assert (Hends : Forall (fun token => PyStr.starts_with_space token = false
                                       /\ no_space_suffix token = true)
                         (map PyStr.strip (PyStr.split "," range_list))).
  { apply Forall_map, Forall_forall. intros piece _. apply strip_clean. }
  split; [ exact Hclean | ]. split; [ exact Hclean | ].
  split; [ exact Hends | ]. split; [ exact Hends | ].
  split; now apply clean_tokens_round_trip.
Qed.

Example range_unicode_token :
  AppState.x_range
    (AppState.set_x_range
       (String.append nbsp (String.append "a, b" ideographic_space)) AppState.init)
  = ["a"; "b"].
Proof. reflexivity. Qed.

(** * The drag-and-drop handlers *)

Section DragAndDrop.

Context {X : Externals}.

Lemma bind_assoc {S A B C : Type} (m : Py S A) (k : A -> Py S B) (k' : B -> Py S C)
      (s : S) :
  bind (bind m k) k' s = bind m (fun a => bind (k a) k') s.
Proof.
  unfold bind. destruct (m s) as [[[ a | e ] s1] t1]; [ | reflexivity ].
  destruct (k a s1) as [[[ b | e ] s2] t2]; [ | reflexivity ].
  destruct (k' b s2) as [[r s3] t3]. now rewrite app_assoc.
Qed.

Lemma for_each_app {S A : Type} (l1 l2 : list A) (body : A -> Py S unit) (s : S) :
  for_each (l1 ++ l2) body s
  = bind (for_each l1 body) (fun _ => for_each l2 body) s.
Proof.
  revert s. induction l1 as [ | a l1 IH ]; intros s; simpl.
  - now rewrite bind_ret.
  - rewrite bind_assoc. unfold bind.
    destruct (body a s) as [[[ [] | e ] s1] t1]; [ | reflexivity ].
    rewrite IH. reflexivity.
Qed.

(** The loop of [dropEvent] is the loop over [read_file] on the controller. *)
Lemma drop_loop (urls : list string) (self : AppWindow.t) :
  for_each urls (fun file_path => AppWindow.on_controller (AppControl.read_file file_path))
           self
  = (result_of (for_each urls AppControl.read_file (AppWindow.controller self)),
     {| AppWindow.controller :=
          state_of (for_each urls AppControl.read_file (AppWindow.controller self));
        AppWindow.trajectory_list := AppWindow.trajectory_list self |},
     trace_of (for_each urls AppControl.read_file (AppWindow.controller self))).
Proof.
  revert self. induction urls as [ | url urls IH ]; intros self; simpl.
  - now destruct self.
  - unfold bind, AppWindow.on_controller.
    destruct (AppControl.read_file url (AppWindow.controller self))
      as [[[ [] | e ] c1] t1]; [ | reflexivity ].
    rewrite IH. simpl.
    now destruct (for_each urls AppControl.read_file c1) as [[r c2] t2].
Qed.

Lemma dropEvent_eq (widget : AppWindow.TrajectoryListWidget) (urls : list string)
      (self : AppWindow.t) :
  AppWindow.dropEvent widget urls self
  = (result_of (for_each urls AppControl.read_file (drop_controller widget self)),
     {| AppWindow.controller :=
          state_of (for_each urls AppControl.read_file (drop_controller widget self));
        AppWindow.trajectory_list := Some (drop_widget widget self) |},
     trace_of (for_each urls AppControl.read_file (drop_controller widget self))).
Proof.
  unfold AppWindow.dropEvent, drop_controller, drop_widget.
  rewrite bind_get.
  destruct (AppWindow.trajectory_list self) as [ existing | ] eqn:E.
  - rewrite bind_ret, drop_loop, E. reflexivity.
  - rewrite bind_modify, drop_loop. reflexivity.
Qed.

(** X16.  [dropEvent] reads the dropped files in order and stops at the
    first one for which [read_file] raises: the files before it stay loaded
    and have been announced, the error is raised, and the files after it
    are not read, whatever they are. *)
Theorem dropEvent_stops_at_first_error
        (widget : AppWindow.TrajectoryListWidget)
        (before : list string) (bad : string) (after : list string)
        (self : AppWindow.t)
        (c1 c2 : AppControl.t) (t1 t2 : list Event) (e : PyError)
  (Hbefore : for_each before AppControl.read_file (drop_controller widget self)
             = (Returns tt, c1, t1))
  (Hbad : AppControl.read_file bad c1 = (Raises e, c2, t2)) :
  AppWindow.dropEvent widget (before ++ bad :: after) self
  = (Raises e,
     {| AppWindow.controller := c2;
        AppWindow.trajectory_list := Some (drop_widget widget self) |},
     t1 ++ t2).
Proof.
  rewrite dropEvent_eq, for_each_app.
  unfold bind. rewrite Hbefore. simpl. unfold bind. rewrite Hbad. reflexivity.
Qed.

Lemma read_file_wiring (file_path : string) (c : AppControl.t) :
  same_wiring c (state_of (AppControl.read_file file_path c)).
Proof.
  unfold AppControl.read_file. rewrite bind_get.
  destruct (AppControl.dict_get _ (AppControl.file_readers c)) as [ reader | ].
  - rewrite run_reader_eq.
    destruct (parsed reader file_path) as [ data | e ].
    + rewrite on_state_eq. unfold same_wiring. simpl. repeat split.
      destruct (addDataObject_cases file_path data (AppControl.state c))
        as (added & _ & Hcase).
      now rewrite (raised_or_notified_state _ _ Hcase).
    + unfold same_wiring. repeat split.
  - unfold same_wiring. repeat split.
Qed.

Lemma read_loop_wiring (urls : list string) (c : AppControl.t) :
  same_wiring c (state_of (for_each urls AppControl.read_file c)).
Proof.
  revert c. induction urls as [ | url urls IH ]; intros c; simpl.
  - unfold same_wiring. repeat split.
  - rewrite state_of_bind.
    pose proof (read_file_wiring url c) as H1.
    destruct (result_of (AppControl.read_file url c)); [ | exact H1 ].
    specialize (IH (state_of (AppControl.read_file url c))).
    unfold same_wiring in *.
    destruct H1 as (A1 & A2 & A3 & A4 & A5), IH as (B1 & B2 & B3 & B4 & B5).
    repeat split; congruence.
Qed.

(** X17.  Whatever is dropped and whether or not reading succeeds, after
    [dropEvent] the window has a list widget; on the first drop the reset
    callback and the listener of the new widget are added at the end of the
    controller's lists, on later drops nothing is added; the registry and
    the plot and measure callbacks are never touched. *)
Theorem dropEvent_registers_once (widget : AppWindow.TrajectoryListWidget)
        (urls : list string) (self : AppWindow.t) :
  let after := state_of (AppWindow.dropEvent widget urls self) in
  let before := AppWindow.controller self in
  AppWindow.trajectory_list after = Some (drop_widget widget self)
  /\ AppControl.resets (AppWindow.controller after)
     = AppControl.resets before
       ++ match AppWindow.trajectory_list self with
          | None => [AppWindow.widget_reset widget]
          | Some _ => []
          end
  /\ AppState.data_object_listeners (AppControl.state (AppWindow.controller after))
     = AppState.data_object_listeners (AppControl.state before)
       ++ match AppWindow.trajectory_list self with
          | None => [AppWindow.updateTrajectories widget]
          | Some _ => []
          end
  /\ AppControl.file_readers (AppWindow.controller after) = AppControl.file_readers before
  /\ AppControl.plot_listener (AppWindow.controller after) = AppControl.plot_listener before
  /\ AppControl.measure_listener (AppWindow.controller after)
     = AppControl.measure_listener before.
Proof.
  cbv zeta. rewrite dropEvent_eq. simpl.
  destruct (read_loop_wiring urls (drop_controller widget self))
    as (H1 & H2 & H3 & H4 & H5).
  rewrite H1, H2, H3, H4, H5. unfold drop_controller.
  destruct (AppWindow.trajectory_list self); simpl; rewrite ?app_nil_r; repeat split.
Qed.

(** [dragEnterEvent] accepts a drag exactly when the registry has a reader
    for the extension of at least one of the dragged paths. *)
Lemma dragEnterEvent_accepts (urls : list string) (self : AppWindow.t) :
  AppWindow.dragEnterEvent urls self = true
  <-> exists url reader,
        In url urls
        /\ AppControl.dict_get (snd (OsPath.splitext url))
                               (AppControl.file_readers (AppWindow.controller self))
           = Some reader.
Proof.
  unfold AppWindow.dragEnterEvent. rewrite existsb_exists.
  unfold AppControl.canHandle, AppControl.dict_in. split.
  - intros (url & Hin & H).
    destruct (AppControl.dict_get _ _) as [ reader | ] eqn:E; [ | discriminate ].
    eauto.
  - intros (url & reader & Hin & H). exists url. now rewrite H.
Qed.

Lemma drop_controller_frame (widget : AppWindow.TrajectoryListWidget)
      (self : AppWindow.t) :
  AppControl.file_readers (drop_controller widget self)
  = AppControl.file_readers (AppWindow.controller self)
  /\ AppState.data_objects (AppControl.state (drop_controller widget self))
     = AppState.data_objects (AppControl.state (AppWindow.controller self))
  /\ AppState.split_data_objects (AppControl.state (drop_controller widget self))
     = AppState.split_data_objects (AppControl.state (AppWindow.controller self)).
Proof.
  unfold drop_controller. destruct (AppWindow.trajectory_list self); repeat split.
Qed.

(** X18.  The two handlers agree on what cannot be loaded: when
    [dragEnterEvent] ignores a drag, dropping the same URLs loads nothing.
    [dropEvent] then calls no listener and leaves both collections of data
    objects as they were, and, when there is a URL at all, raises the
    [AppError] that names the extension of the first one. *)
Theorem ignored_drag_loads_nothing (widget : AppWindow.TrajectoryListWidget)
        (urls : list string) (self : AppWindow.t)
  (Hignored : AppWindow.dragEnterEvent urls self = false) :
  let o := AppWindow.dropEvent widget urls self in
  trace_of o = []
  /\ AppState.data_objects (AppControl.state (AppWindow.controller (state_of o)))
     = AppState.data_objects (AppControl.state (AppWindow.controller self))
  /\ AppState.split_data_objects (AppControl.state (AppWindow.controller (state_of o)))
     = AppState.split_data_objects (AppControl.state (AppWindow.controller self))
  /\ match urls with
     | [] => result_of o = Returns tt
     | url :: _ =>
         result_of o
         = Raises (AppError
             (AppControl.msg_cannot_handle
                (snd (OsPath.splitext url))
                (AppControl.file_readers (AppWindow.controller self))))
     end.
Proof.
  cbv zeta. rewrite dropEvent_eq.
  destruct (drop_controller_frame widget self) as (Hreg & Hdata & Hsplit).
  destruct urls as [ | url urls ]; simpl.
  - repeat split; assumption.
  - unfold AppWindow.dragEnterEvent in Hignored. simpl in Hignored.
    apply orb_false_elim in Hignored. destruct Hignored as [Hurl _].
    unfold AppControl.canHandle, AppControl.dict_in in Hurl. rewrite <- Hreg in Hurl.
    assert (Hread : AppControl.read_file url (drop_controller widget self)
                    = (Raises (AppError
                         (AppControl.msg_cannot_handle
                            (snd (OsPath.splitext url))
                            (AppControl.file_readers (drop_controller widget self)))),
                       drop_controller widget self, [])).
    { unfold AppControl.read_file. rewrite bind_get.
      destruct (AppControl.dict_get (snd (OsPath.splitext url))
                                    (AppControl.file_readers (drop_controller widget self)));
        [ discriminate | reflexivity ]. }
    rewrite (bind_raised _ _ _ _ _ _ Hread). simpl. rewrite Hreg.
    repeat split; assumption.
Qed.

End DragAndDrop.

(** * Identifiers and the grouping key *)

Lemma rfind_none (c : ascii) (s : string) :
  PyStr.count c s = 0 -> PyStr.rfind c s = None.
Proof.
  induction s as [ | d rest IH ]; simpl; [ reflexivity | ].
  destruct (Ascii.eqb d c); simpl; [ discriminate | ].
  intros H. now rewrite IH.
Qed.

Lemma substring_whole (s : string) : substring 0 (String.length s) s = s.
Proof. induction s as [ | c s IH ]; simpl; [ reflexivity | now rewrite IH ]. Qed.

Lemma rfind_after_dir (c : ascii) (dir name : string) :
  PyStr.count c name = 0 ->
  PyStr.rfind c (String.append dir (String c name)) = Some (String.length dir).
Proof.
  intros Hname. induction dir as [ | d dir IH ]; simpl.
  - now rewrite (rfind_none c name Hname), Ascii.eqb_refl.
  - now rewrite IH.
Qed.

Lemma from_after_dir (c : ascii) (dir name : string) :
  PyStr.from (S (String.length dir)) (String.append dir (String c name)) = name.
Proof.
  unfold PyStr.from. induction dir as [ | d dir IH ]; simpl.
  - rewrite Nat.sub_0_r. apply substring_whole.
  - exact IH.
Qed.

(** X19.  The identifier of a loaded file is the part of the path after the
    last slash: a file in any directory gets its bare name, so files of the
    same name from different directories get the same identifier (and the
    same id in an export). *)
Theorem same_name_same_identifier (dir dir' name : string)
        (data data' : Pandas.DataFrame)
  (Hname : PyStr.count "/" name = 0) :
  let d := AppState.new_holder (String.append dir (String "/" name)) data in
  let d' := AppState.new_holder (String.append dir' (String "/" name)) data' in
  DataObjectIdentifier.str (DataObjectHolder.filename d) = name
  /\ DataObjectHolder.filename d = DataObjectHolder.filename d'
  /\ AppState.new_holder name data = d.
Proof.
  cbv zeta. unfold AppState.new_holder, DataObjectIdentifier.str, OsPath.basename.
  simpl.
  rewrite !(rfind_after_dir "/" _ name Hname), !from_after_dir.
  rewrite (rfind_none "/" name Hname). repeat split.
Qed.

Lemma split_entries_stem (column : string) (d e : DataObjectHolder.t) :
  In e (split_entries column d) ->
  file_name e = file_name d
  /\ DataObjectHolder.headers e = DataObjectHolder.headers d.
Proof.
  unfold split_entries.
  destruct (Pandas.groupby (DataObjectHolder.data d) column); [ | intros [] ].
  intros He. apply in_map_iff in He. destruct He as (g & <- & _). now split.
Qed.

Lemma take_while_incl {A : Type} (p : A -> bool) (l : list A) :
  incl (take_while p l) l.
Proof.
  induction l as [ | a l IH ]; simpl; [ intros x [] | ].
  destruct (p a); [ | intros x [] ].
  intros x [ <- | Hx ]; simpl; auto.
Qed.

Lemma stems_from_incl (ds ds' : list DataObjectHolder.t) (e : DataObjectHolder.t) :
  incl ds ds' -> stems_from ds e -> stems_from ds' e.
Proof. intros Hincl (d & Hd & H). exists d. auto. Qed.

Lemma select_at_stem (index : nat) (b : bool) (l : list DataObjectHolder.t)
      (d : DataObjectHolder.t) :
  In d l ->
  exists d', In d' (Session.select_at index b l)
             /\ file_name d' = file_name d
             /\ DataObjectHolder.headers d' = DataObjectHolder.headers d.
Proof.
  revert index. induction l as [ | a l IH ]; intros index; [ intros [] | ].
  intros [ -> | Hd ].
  - destruct index; simpl.
    + exists (DataObjectHolder.setSelected b d). auto.
    + exists d. auto.
  - destruct index; simpl.
    + exists d. auto.
    + destruct (IH index Hd) as (d' & Hin & H). exists d'. auto.
Qed.

Lemma select_at_stems (index : nat) (b : bool) (ds l : list DataObjectHolder.t) :
  Forall (stems_from ds) l -> Forall (stems_from ds) (Session.select_at index b l).
Proof.
  apply select_at_kind. intros e (d & Hd & H). exists d. auto.
Qed.

Section GroupingInvariant.

Context {X : Externals}.

Lemma run_grouping_consistent (op : Session.Op) (s : AppState.t) :
  grouping_consistent s -> grouping_consistent (state_of (Session.run op s)).
Proof.
  intros (Hkey & Hnone & Hstem). destruct op; simpl; try (repeat split; assumption).
  - rewrite addDataObject_state. cbv zeta.
    assert (Hold : Forall (stems_from (AppState.data_objects s
                                       ++ [AppState.new_holder file_path data]))
                          (AppState.split_data_objects s)).
    { eapply Forall_impl; [ | exact Hstem ]. intros e.
      apply stems_from_incl. intros d Hd. apply in_or_app. now left. }
    destruct (AppState.split_by_id s) as [ column | ] eqn:Ecol.
    + destruct (String.eqb_spec column "") as [ -> | Hne ]; [ congruence | ].
      repeat split; simpl; try congruence.
      apply Forall_app. split; [ exact Hold | ].
      apply Forall_forall. intros e He. apply split_entries_stem in He.
      exists (AppState.new_holder file_path data). split; [ | exact He ].
      apply in_or_app. right. now left.
    + repeat split; simpl; try congruence; auto.
  - destruct (String.eqb_spec id "") as [ -> | Hid ].
    + rewrite addSplitByID_empty, update_state.
      repeat split; simpl; [ discriminate | constructor ].
    + rewrite (addSplitByID_state id s Hid). repeat split; simpl.
      * congruence.
      * discriminate.
      * apply Forall_flat_map, Forall_forall. intros d Hd.
        apply Forall_forall. intros e He. apply split_entries_stem in He.
        exists d. split; [ | exact He ].
        exact (take_while_incl (has_columnb id) (AppState.data_objects s) d Hd).
  - rewrite reset_eq. repeat split; simpl; [ discriminate | constructor ].
  - destruct in_split; repeat split; simpl; try assumption.
    + intros Hn. rewrite (Hnone Hn). now destruct index.
    + now apply select_at_stems.
    + eapply Forall_impl; [ | exact Hstem ].
      intros e (d & Hd & Hfile & Hhead).
      destruct (select_at_stem index is_selected _ d Hd) as (d' & Hd' & Hf' & Hh').
      exists d'. repeat split; congruence.
Qed.

(** X20.  In every session: the grouping key is never the empty string;
    while no grouping key is set there are no grouped entries; and every
    grouped entry stems from a data object that is loaded, with its file
    name and its headers. *)
Theorem grouping_key_invariant (ops : list Session.Op) :
  let s := Session.run_all ops AppState.init in
  AppState.split_by_id s <> Some ""
  /\ (AppState.split_by_id s = None -> AppState.split_data_objects s = [])
  /\ Forall (fun e =>
               exists d, In d (AppState.data_objects s)
                         /\ file_name e = file_name d
                         /\ DataObjectHolder.headers e = DataObjectHolder.headers d)
            (AppState.split_data_objects s).
Proof.
  cbv zeta.
  assert (H : forall s, grouping_consistent s ->
                        grouping_consistent (Session.run_all ops s)).
  { unfold Session.run_all. induction ops as [ | op ops IH ]; intros s Hs; simpl;
      [ exact Hs | ]. apply IH, run_grouping_consistent, Hs. }
  apply (H AppState.init). repeat split; simpl; [ discriminate | constructor ].
Qed.

(** X21.  With both callbacks wired and at least one trajectory, [plot]
    calls the render callback with the trajectories and the two header
    names and then the measure callback with the measures of all the
    trajectories together, and nothing else; with only the measure callback
    missing, it raises the wiring error after the render callback has
    already been called.  In every case the controller is as before. *)
Theorem plot_with_trajectories (self : AppControl.t) (render : Callback)
        (traj : Trajectory float) (trajectories : list (Trajectory float))
  (Hrender : AppControl.plot_listener self = Some render)
  (Hbuilt : AppControl.getTrajectories self = Returns (traj :: trajectories)) :
  let shown := PlotCall render (traj :: trajectories)
                 (AppState.x_header (AppControl.state self))
                 (AppState.y_header (AppControl.state self)) in
  (forall measure,
      AppControl.measure_listener self = Some measure ->
      AppControl.plot self
      = (Returns tt, self,
         [shown; MeasureCall measure (get_measures (traj :: trajectories))]))
  /\ (AppControl.measure_listener self = None ->
      AppControl.plot self
      = (Raises (AppError AppControl.msg_no_measure_function), self, [shown])).
Proof.
  cbv zeta. split.
  - intros measure Hm. now rewrite plot_eq, Hbuilt, Hrender, Hm.
  - intros Hm. now rewrite plot_eq, Hbuilt, Hrender, Hm.
Qed.

End GroupingInvariant.

(** * The further properties at concrete inputs *)

Lemma read_file_registered_witness :
  AppState.data_objects
    (AppControl.state
       (state_of (AppControl.read_file (X := Demo.externals) "/data/run1.csv"
                    AppControl.init)))
  = [AppState.new_holder "/data/run1.csv" Demo.table]
  /\ AppControl.read_file (X := Demo.externals) "/data/missing.csv" AppControl.init
     = (Raises (OSError "/data/missing.csv"), AppControl.init, []).
Proof.
  split.
  - destruct (read_file_registered (X := Demo.externals) "/data/run1.csv"
                AppControl.init AppControl.read_csv eq_refl) as [_ H].
    destruct (H Demo.table eq_refl) as (_ & _ & _ & Hdata). exact Hdata.
  - destruct (read_file_registered (X := Demo.externals) "/data/missing.csv"
                AppControl.init AppControl.read_csv eq_refl) as [H _].
    apply H. reflexivity.
Defined.

Lemma trajectory_shape_witness :
  let traj := {| traj_x_range := ["1"; "3"; "5"]; traj_y_range := ["2"; "4"; "6"];
                 states := [("1", "2"); ("3", "4"); ("5", "6")];
                 times := ["0.0"; "1.0"; "0.0"] |} in
  List.length (states traj) = 3 /\ List.length (times traj) = 3.
Proof.
  cbv zeta.
  destruct (trajectory_shape (X := Demo.externals) Demo.configured "A" "B" "T"
              (AppState.new_holder "/data/run1.csv" Demo.table) _ eq_refl)
    as (_ & _ & _ & Hs & _ & Ht).
  split; [ exact Hs | exact Ht ].
Defined.

Lemma export_measures_aligned_witness :
  exists rows,
    AppControl.export_measures (X := Demo.externals) "/out/measures.csv" true
      (Demo.control Demo.split_by_ID)
    = (Returns tt, Demo.control Demo.split_by_ID, [ToCsv "/out/measures.csv" rows])
    /\ map row_id rows = [Some "run1.csv::g1"; Some "run1.csv::g2"].
Proof.
  assert (Hsel : Forall (fun d => DataObjectHolder.selected d = true)
                        (AppState.getDataObjects
                           (AppControl.state (Demo.control Demo.split_by_ID)))).
  { vm_compute. repeat constructor. }
  destruct (export_measures_aligned (X := Demo.externals) "/out/measures.csv"
              (Demo.control Demo.split_by_ID) _ Hsel eq_refl eq_refl)
    as (xh & yh & th & rows & _ & _ & _ & Hexp & _).
  exists rows. split; [ exact Hexp | ].
  vm_compute in Hexp. inversion Hexp. reflexivity.
Defined.

Lemma dropEvent_stops_at_first_error_witness :
  let o := AppWindow.dropEvent (X := Demo.externals) demo_list
             ["/data/run1.csv"; "/data/notes.txt"; "/data/run1.csv"] demo_window in
  result_of o
  = Raises (AppError
      "StateSpaceGridApp can't handle file of extension type .txt. Please use one of .csv, .traj, .tsv, xls")
  /\ AppState.getIDs (AppControl.state (AppWindow.controller (state_of o)))
     = ["run1.csv"].
Proof.
  pose proof (dropEvent_stops_at_first_error (X := Demo.externals) demo_list
                ["/data/run1.csv"] "/data/notes.txt" ["/data/run1.csv"] demo_window
                _ _ _ _ _ eq_refl eq_refl) as H.
  cbv zeta. simpl app in H. rewrite H. split; reflexivity.
Defined.

Lemma same_name_same_identifier_witness :
  DataObjectHolder.filename (AppState.new_holder "/data/one/run.csv" Demo.table)
  = DataObjectHolder.filename (AppState.new_holder "/data/two/run.csv" Demo.second_table).
Proof.
  destruct (same_name_same_identifier "/data/one" "/data/two" "run.csv"
              Demo.table Demo.second_table eq_refl) as (_ & H & _).
  exact H.
Defined.

Lemma plot_with_trajectories_witness :
  exists trajectories,
    AppControl.plot (X := Demo.externals) (Demo.wired Demo.configured)
    = (Returns tt, Demo.wired Demo.configured,
       [PlotCall 1 trajectories (Some "A") (Some "B");
        MeasureCall 2 (get_measures (Externals := Demo.externals) trajectories)])
    /\ List.length trajectories = 1.
Proof.
  destruct (plot_with_trajectories (X := Demo.externals) (Demo.wired Demo.configured)
              1 _ _ eq_refl eq_refl) as [H _].
  eexists. split; [ apply (H 2); reflexivity | reflexivity ].
Defined.

Lemma ignored_drag_loads_nothing_witness :
  let o := AppWindow.dropEvent (X := Demo.externals) demo_list
             ["/data/notes.txt"; "/data/run1.xls"] demo_window in
  result_of o
  = Raises (AppError
      "StateSpaceGridApp can't handle file of extension type .txt. Please use one of .csv, .traj, .tsv, xls")
  /\ trace_of o = [].
Proof.
  destruct (ignored_drag_loads_nothing (X := Demo.externals) demo_list
              ["/data/notes.txt"; "/data/run1.xls"] demo_window eq_refl)
    as (Ht & _ & _ & Hr).
  cbv zeta. split; [ exact Hr | exact Ht ].
Defined.

Lemma export_measures_outcome_witness :
  AppControl.export_measures (X := Demo.externals) "/readonly/measures.csv" false
    (Demo.control Demo.configured)
  = (Raises (OSError "/readonly/measures.csv"), Demo.control Demo.configured, [])
  /\ exists rows,
       AppControl.export_measures (X := Demo.externals) "/out/measures.csv" false
         (Demo.control Demo.configured)
       = (Returns tt, Demo.control Demo.configured, [ToCsv "/out/measures.csv" rows])
       /\ List.length rows = 1.
Proof.
  split.
  - destruct (export_measures_outcome (X := Demo.externals) "/readonly/measures.csv"
                false (Demo.control Demo.configured)) as (_ & Hclosed & _).
    eapply Hclosed; reflexivity.
  - destruct (export_measures_outcome (X := Demo.externals) "/out/measures.csv"
                false (Demo.control Demo.configured)) as (_ & _ & Hopen).
    destruct (Hopen _ eq_refl eq_refl) as (rows & Hexp & _ & Hone).
    exists rows. split; [ exact Hexp | ]. now rewrite (Hone eq_refl).
Defined.
